(** * excel-mcp: deployment orchestrator and streaming gateway

    A shallow embedding of the TypeScript sources of the AgentCore
    deployment tool (the runtime modules orchestrator, rollback, health,
    deployment and results; the CodeBuild integration module and the build
    monitor module), of its Streamable-HTTP gateway (the runtime modules
    auth-middleware, http-handler, stream-handler, error-handler and
    mcp-connector) and of the error messages of its command line
    (cli/errors), followed by the properties proved about them.

    Conventions.
    - A JavaScript string is a [string]. [JsString.toLowerCase] is
      [String.prototype.toLowerCase] on strings of ASCII characters
      ([JsString.isAscii]); what is stated about the lower-cased form of a
      message is stated for such messages.
    - [Record<string, string>] objects are [gmap string string].
    - An [async] function is a computation in the monad [M]: it reads the
      clock (which advances when the function sleeps), emits an append-only
      trace of events (calls to collaborators and console output) and
      either returns or throws.
    - What the modules import from outside the repository ([JSON], the
      Cognito client, [fetch], the CodeBuild client) is a parameter.
    - Numbers that are integers in every run ([Date.now()], counts, HTTP
      status codes) are [Z] or [nat]; the progress percentages are computed
      in binary64, as [Number] arithmetic does. *)

From Stdlib Require Import String Ascii ZArith List Lia Bool SpecFloat.
From stdpp Require Import base strings gmap list pretty.

Open Scope string_scope.
Open Scope Z_scope.
Open Scope list_scope.

(* ================================================================= *)
(** ** JavaScript strings *)

Module JsString.

(** The characters of [s] are all ASCII (below U+0080). *)
Fixpoint isAscii (s : string) : bool :=
  match s with
  | EmptyString => true
  | String c r => (nat_of_ascii c <? 128)%nat && isAscii r
  end.

(** [s.toLowerCase()] for a string of ASCII characters: the letters A-Z are
    folded, everything else is kept. (On other strings
    [String.prototype.toLowerCase] also folds letters outside ASCII, some
    of them to ASCII letters; those strings are outside what is stated
    with this function.) *)
Definition lower_ascii (c : ascii) : ascii :=
  let n := nat_of_ascii c in
  if ((65 <=? n)%nat && (n <=? 90)%nat)%bool then ascii_of_nat (n + 32) else c.

Fixpoint toLowerCase (s : string) : string :=
  match s with
  | EmptyString => EmptyString
  | String c r => String (lower_ascii c) (toLowerCase r)
  end.

(** [hay.includes(needle)]. *)
Fixpoint includes (needle hay : string) : bool :=
  String.prefix needle hay ||
  match hay with
  | EmptyString => false
  | String _ r => includes needle r
  end.

(** [s.split(sep)] for a one-character separator: one part more than
    there are separators, empty parts included. *)
Fixpoint split (sep : ascii) (s : string) : list string :=
  match s with
  | EmptyString => [EmptyString]
  | String c r =>
      if Ascii.eqb c sep then EmptyString :: split sep r
      else
        match split sep r with
        | part :: parts => String c part :: parts
        | [] => [String c EmptyString]
        end
  end.

(** Truthiness of a string and of an optional string ([undefined] and the
    empty string are falsy). *)
Definition truthy (s : string) : bool := negb (String.eqb s "").

Definition truthy_opt (o : option string) : bool :=
  match o with Some s => truthy s | None => false end.

(** [a || b] on optional strings. *)
Definition or_else (a : option string) (b : string) : string :=
  match a with
  | Some s => if truthy s then s else b
  | None => b
  end.

Definition or_opt (a b : option string) : option string :=
  if truthy_opt a then a else b.

(** [`${n}`] for an integer [n]: its decimal digits. *)
Definition ofNumber (n : Z) : string := pretty n.
Arguments ofNumber : simpl never.

(** The line feed written ['\n'] in the sources. *)
Definition newline : string := String (ascii_of_nat 10) EmptyString.

(** [parts.join(sep)]. *)
Fixpoint join (sep : string) (parts : list string) : string :=
  match parts with
  | [] => ""
  | [p] => p
  | p :: rest => p +:+ sep +:+ join sep rest
  end.

End JsString.

(* ================================================================= *)
(** ** Data model (types/deployment.ts, types/config.ts, runtime/rollback.ts) *)

(** [Deployment.status]: 'CREATING' | 'ACTIVE' | 'FAILED' | 'UPDATING'. *)
Inductive LifecycleStatus := CREATING | ACTIVE | FAILED | UPDATING.

#[global] Instance LifecycleStatus_eq_dec : EqDecision LifecycleStatus.
Proof. solve_decision. Defined.

Definition LifecycleStatus_name (s : LifecycleStatus) : string :=
  match s with
  | CREATING => "CREATING" | ACTIVE => "ACTIVE"
  | FAILED => "FAILED" | UPDATING => "UPDATING"
  end.

(** The [DeploymentStatus] enum of the history log. *)
Module DeploymentStatus.
Inductive t := IN_PROGRESS | SUCCESS | FAILED | ROLLED_BACK.
End DeploymentStatus.

Module Endpoint.
Record t := Build { url : string; protocol : string; authRequired : bool }.
End Endpoint.

(** [DeploymentAuthConfig]. The pool and client ids are declared [string],
    but the orchestrator passes [config.auth.cognitoUserPoolId!] through a
    non-null assertion, so [undefined] reaches them at run time. *)
Module DeploymentAuthConfig.
Record t := Build {
  cognitoUserPoolId : option string;
  cognitoClientId : option string;
  cognitoRegion : string }.
End DeploymentAuthConfig.

Module Deployment.
Record t := Build {
  id : string;
  status : LifecycleStatus;
  imageUri : string;
  authConfig : DeploymentAuthConfig.t;
  endpoint : option Endpoint.t;
  createdAt : Z;
  updatedAt : Z }.

Definition with_endpoint (d : t) (e : Endpoint.t) : t :=
  Build (id d) (status d) (imageUri d) (authConfig d) (Some e)
        (createdAt d) (updatedAt d).
End Deployment.

Module HealthStatus.
Record t := Build { healthy : bool; message : option string; timestamp : Z }.
End HealthStatus.

Module DeploymentError.
Record t := Build { code : string; message : string; phase : string }.
End DeploymentError.

Module ResourceInfo.
Record t := Build {
  buildId : option string;
  imageUri : option string;
  cognitoUserPoolId : option string;
  cognitoClientId : option string;
  endpointUrl : option string }.
End ResourceInfo.

Module DeploymentResult.
Record t := Build {
  success : bool;
  endpoint : option Endpoint.t;
  authConfig : option DeploymentAuthConfig.t;
  error : option DeploymentError.t;
  resourceInfo : option ResourceInfo.t }.
End DeploymentResult.

Module Config.
Record ProjectConfig := Project { name : string; region : string }.
Record ServerConfig := Server {
  command : string;
  args : list string;
  transport : string;
  environment : gmap string string;
  port : option Z }.
Record BuildConfig := BuildCfg { codebuildProject : string; ecrRepository : string }.
Record AuthConfig := Auth {
  cognitoUserPoolId : option string;
  cognitoClientId : option string;
  cognitoRegion : option string }.
Record t := Build {
  version : string;
  project : ProjectConfig;
  server : ServerConfig;
  build : BuildConfig;
  auth : AuthConfig }.
End Config.

Module RollbackResult.
Record t := Build {
  success : bool;
  message : string;
  cleanedResources : list string;
  restoredVersion : option string }.
End RollbackResult.

Module DeploymentHistory.
Record t := Build {
  deploymentId : string;
  imageUri : string;
  timestamp : Z;
  status : DeploymentStatus.t }.
End DeploymentHistory.

(* ================================================================= *)
(** ** Effects: clock, trace, exceptions *)

(** Observable events: calls of the functions whose invocation the
    properties speak about (recorded where the call is made), and console
    output. Formatted summaries are recorded by the value that is
    formatted. *)
Inductive event :=
| CallRollbackDeployment (d : Deployment.t) (projectName : string)
| CallCleanupFailedDeployment (deploymentId : string)
| CallRestorePreviousVersion (h : DeploymentHistory.t)
| CallForwardRequest (serverUrl : string)
| ConsoleLog (line : string)
| ConsoleError (line : string)
| ConsoleRollbackReport (r : RollbackResult.t)
| ConsoleSummary (r : DeploymentResult.t).

(** A thrown JavaScript value: an [Error] instance with its message;
    [null]; [undefined]; or any other value (which has no [message]
    property). *)
Inductive thrown :=
| JsError (message : string)
| JsValue (repr : string)
| JsNull
| JsUndefined.

Inductive outcome (A : Type) := Ret (a : A) | Raise (e : thrown).
Arguments Ret {A} a.
Arguments Raise {A} e.

(** The mutable environment: [now] is what [Date.now()] reads; [entropy] is
    the supply of [Math.random().toString(36).substring(2, 8)] results;
    [connections] is the connector's [Map] from server URL to the
    [connected] flag of the cached connection. *)
Record world := World {
  now : Z;
  entropy : list string;
  connections : gmap string bool }.

Record run (A : Type) := Run {
  result : outcome A;
  final : world;
  emitted : list event }.
Arguments Run {A} result final emitted.
Arguments result {A} r.
Arguments final {A} r.
Arguments emitted {A} r.

Definition M (A : Type) : Type := world -> run A.

Definition ret {A} (a : A) : M A := fun w => Run (Ret a) w [].

Definition throw {A} (e : thrown) : M A := fun w => Run (Raise e) w [].

Definition bind {A B} (m : M A) (k : A -> M B) : M B :=
  fun w =>
    match m w with
    | Run (Ret a) w1 ev1 =>
        match k a w1 with
        | Run r w2 ev2 => Run r w2 (ev1 ++ ev2)
        end
    | Run (Raise e) w1 ev1 => Run (Raise e) w1 ev1
    end.

(** [try { m } catch (e) { h e }]. *)
Definition try_catch {A} (m : M A) (h : thrown -> M A) : M A :=
  fun w =>
    match m w with
    | Run (Ret a) w1 ev1 => Run (Ret a) w1 ev1
    | Run (Raise e) w1 ev1 =>
        match h e w1 with
        | Run r w2 ev2 => Run r w2 (ev1 ++ ev2)
        end
    end.

Definition emit (ev : event) : M unit := fun w => Run (Ret tt) w [ev].

(** [Date.now()] and [new Date()]. *)
Definition Date_now : M Z := fun w => Run (Ret (now w)) w [].

(** [await new Promise(resolve => setTimeout(resolve, ms))]. *)
Definition sleep (ms : Z) : M unit :=
  fun w => Run (Ret tt) (World (now w + ms) (entropy w) (connections w)) [].

Definition Math_random_base36 : M string :=
  fun w => match entropy w with
           | [] => Run (Ret "") w []
           | s :: rest => Run (Ret s) (World (now w) rest (connections w)) []
           end.

Definition when (b : bool) (m : M unit) : M unit := if b then m else ret tt.

(** A call of an instrumented function: the call is recorded, then made. *)
Definition call {A} (ev : event) (m : M A) : M A :=
  fun w => match m w with Run r w1 evs => Run r w1 (ev :: evs) end.

Notation "'let!' x ':=' m 'in' k" := (bind m (fun x => k))
  (at level 10, x name, m at level 100, k at level 200).
Notation "m ';;;' k" := (bind m (fun _ => k))
  (at level 100, k at level 200, right associativity).

(** [error instanceof Error ? error.message : fallback]. *)
Definition message_or (e : thrown) (fallback : string) : string :=
  match e with JsError m => m | _ => fallback end.

(** [error.message] of a caught value: the message of an [Error],
    [undefined] for a value without that property, and a [TypeError] for
    [null] and [undefined], which have no properties. *)
Definition message_of (e : thrown) : outcome (option string) :=
  match e with
  | JsError m => Ret (Some m)
  | JsValue _ => Ret None
  | JsNull =>
      Raise (JsError "Cannot read properties of null (reading 'message')")
  | JsUndefined =>
      Raise (JsError "Cannot read properties of undefined (reading 'message')")
  end.

(* ================================================================= *)
(** ** runtime/rollback.ts *)

Module Rollback.

Definition isDeploymentFailed (deployment : Deployment.t) : bool :=
  bool_decide (Deployment.status deployment = FAILED).

(** Returns [null]: the history lookup is not implemented. *)
Definition getPreviousStableVersion (projectName : string)
  : M (option DeploymentHistory.t) :=
  ret None.

(** The body of the [try] cannot throw; the [catch] returns the resources
    collected so far. *)
Definition cleanupFailedDeployment (deploymentId : string) : M (list string) :=
  try_catch
    (sleep 1000 ;;;
     ret ["Deployment " +:+ deploymentId; "Associated runtime resources"])
    (fun error =>
       emit (ConsoleError "Error during cleanup:") ;;; ret []).

Definition restorePreviousVersion (previousVersion : DeploymentHistory.t)
  : M Deployment.t :=
  let! created := Date_now in
  let! updated := Date_now in
  ret (Deployment.Build
         (DeploymentHistory.deploymentId previousVersion +:+ "-restored")
         ACTIVE
         (DeploymentHistory.imageUri previousVersion)
         (DeploymentAuthConfig.Build (Some "restored-pool-id")
            (Some "restored-client-id") "us-east-1")
         None created updated).

Definition rollbackDeployment (failedDeployment : Deployment.t)
    (projectName : string) : M RollbackResult.t :=
  if negb (isDeploymentFailed failedDeployment) then
    ret (RollbackResult.Build false
           "Deployment has not failed, rollback not needed" [] None)
  else
    let! cleanedResources :=
      call (CallCleanupFailedDeployment (Deployment.id failedDeployment))
           (cleanupFailedDeployment (Deployment.id failedDeployment)) in
    let! previousVersion := getPreviousStableVersion projectName in
    match previousVersion with
    | None =>
        ret (RollbackResult.Build true
               "Failed deployment cleaned up. No previous version to restore."
               cleanedResources None)
    | Some previous =>
        try_catch
          (let! restoredDeployment :=
             call (CallRestorePreviousVersion previous)
                  (restorePreviousVersion previous) in
           ret (RollbackResult.Build true
                  "Successfully rolled back to previous stable version"
                  cleanedResources
                  (Some (Deployment.id restoredDeployment))))
          (fun error =>
             ret (RollbackResult.Build false
                    ("Cleanup completed but restoration failed: "
                       +:+ message_or error "Unknown error")
                    cleanedResources None))
    end.

Definition saveDeploymentToHistory (deployment : Deployment.t)
    (projectName : string) : M unit :=
  let historyEntry :=
    DeploymentHistory.Build
      (Deployment.id deployment)
      (Deployment.imageUri deployment)
      (Deployment.createdAt deployment)
      (if bool_decide (Deployment.status deployment = ACTIVE)
       then DeploymentStatus.SUCCESS else DeploymentStatus.FAILED) in
  sleep 100 ;;;
  emit (ConsoleLog ("Saved deployment " +:+ Deployment.id deployment
                      +:+ " to history for project " +:+ projectName)).

End Rollback.

(* ================================================================= *)
(** ** runtime/deployment.ts *)

Module DeploymentConfig.
Record ServerConfig := Server {
  command : string;
  args : list string;
  transport : string;
  environment : gmap string string;
  port : option Z }.
Record t := Build {
  imageUri : string;
  authConfig : DeploymentAuthConfig.t;
  projectName : string;
  region : string;
  serverConfig : ServerConfig }.
End DeploymentConfig.

Module RuntimeDeployment.

Record PrerequisiteCheck := Prereq { ready : bool; missing : list string }.

Definition checkPrerequisites (imageUri : option string)
    (authConfig : option DeploymentAuthConfig.t) : PrerequisiteCheck :=
  let missing : list string := [] in
  let missing :=
    if negb (JsString.truthy_opt imageUri)
    then missing ++ ["Container image URI"] else missing in
  let missing :=
    if negb (JsString.truthy_opt
               (authConfig ≫= DeploymentAuthConfig.cognitoUserPoolId))
    then missing ++ ["Cognito User Pool ID"] else missing in
  let missing :=
    if negb (JsString.truthy_opt
               (authConfig ≫= DeploymentAuthConfig.cognitoClientId))
    then missing ++ ["Cognito Client ID"] else missing in
  Prereq (bool_decide (length missing = 0%nat)) missing.

Definition generateDeploymentId (projectName : string) : M string :=
  let! timestamp := Date_now in
  let! random := Math_random_base36 in
  ret (projectName +:+ "-" +:+ JsString.ofNumber timestamp +:+ "-" +:+ random).

Definition deployToRuntime (config : DeploymentConfig.t) : M Deployment.t :=
  let prereqCheck :=
    checkPrerequisites (Some (DeploymentConfig.imageUri config))
                       (Some (DeploymentConfig.authConfig config)) in
  if negb (ready prereqCheck) then
    throw (JsError ("Deployment prerequisites not met. Missing: "
                      +:+ JsString.join ", " (missing prereqCheck)))
  else
    let! deploymentId := generateDeploymentId (DeploymentConfig.projectName config) in
    let! created := Date_now in
    let! updated := Date_now in
    ret (Deployment.Build deploymentId CREATING
           (DeploymentConfig.imageUri config)
           (DeploymentConfig.authConfig config)
           None created updated).

(** The status query is simulated: an ACTIVE deployment with its endpoint. *)
Definition getDeploymentStatus (deploymentId : string) : M Deployment.t :=
  let region := "us-east-1" in
  let endpointUrl :=
    "https://" +:+ deploymentId +:+ ".agentcore-runtime." +:+ region
      +:+ ".amazonaws.com" in
  let! created := Date_now in
  let! updated := Date_now in
  ret (Deployment.Build deploymentId ACTIVE "placeholder-image-uri"
         (DeploymentAuthConfig.Build (Some "placeholder-pool-id")
            (Some "placeholder-client-id") region)
         (Some (Endpoint.Build endpointUrl "streamable-http" true))
         (created - 60000) updated).

Definition timedOut (deploymentId : string) (timeoutMs : Z) : thrown :=
  JsError ("Deployment " +:+ deploymentId +:+ " timed out after "
             +:+ JsString.ofNumber timeoutMs +:+ "ms").

(** The polling loop. Every round that does not return sleeps 5 seconds, so
    the loop condition fails after finitely many rounds; [rounds] bounds
    them. *)
Fixpoint waitForDeployment_loop (rounds : nat) (deploymentId : string)
    (timeoutMs startTime : Z) : M Deployment.t :=
  let! t := Date_now in
  if t - startTime <? timeoutMs then
    let! deployment := getDeploymentStatus deploymentId in
    if bool_decide (Deployment.status deployment = ACTIVE)
       || bool_decide (Deployment.status deployment = FAILED)
    then ret deployment
    else
      sleep 5000 ;;;
      match rounds with
      | O => throw (timedOut deploymentId timeoutMs)
      | S rounds' =>
          waitForDeployment_loop rounds' deploymentId timeoutMs startTime
      end
  else throw (timedOut deploymentId timeoutMs).

Definition waitForDeployment (deploymentId : string) (timeoutMs : Z)
  : M Deployment.t :=
  let! startTime := Date_now in
  waitForDeployment_loop (Z.to_nat (timeoutMs / 5000) + 1) deploymentId
    timeoutMs startTime.

Definition defaultTimeoutMs : Z := 300000.

End RuntimeDeployment.

(* ================================================================= *)
(** ** runtime/health.ts *)

Module Health.

Record AccessibilityCheck := Access { accessible : bool; access_message : string }.

Record Verification := Verif {
  healthy : bool;
  endpoint : option Endpoint.t;
  healthStatus : HealthStatus.t;
  accessibilityCheck : option AccessibilityCheck }.

Definition performHealthCheck (deploymentId : string)
    (endpointUrl : option string) : M HealthStatus.t :=
  try_catch
    (if negb (JsString.truthy_opt endpointUrl) then
       let! t := Date_now in
       ret (HealthStatus.Build false
              (Some "No endpoint URL available for health check") t)
     else
       sleep 1000 ;;;
       let! t := Date_now in
       ret (HealthStatus.Build true (Some "Service is healthy") t))
    (fun error =>
       let! t := Date_now in
       ret (HealthStatus.Build false
              (Some (message_or error "Health check failed")) t)).

Definition generateEndpointUrl (deploymentId region : string) : string :=
  "https://" +:+ deploymentId +:+ ".agentcore-runtime." +:+ region
    +:+ ".amazonaws.com".

Definition createEndpoint (deployment : Deployment.t) (region : string)
  : M Endpoint.t :=
  if negb (bool_decide (Deployment.status deployment = ACTIVE)) then
    throw (JsError ("Cannot create endpoint for deployment in "
                      +:+ LifecycleStatus_name (Deployment.status deployment)
                      +:+ " state. " +:+ "Deployment must be ACTIVE."))
  else
    let endpointUrl := generateEndpointUrl (Deployment.id deployment) region in
    ret (Endpoint.Build endpointUrl "streamable-http" true).

Definition verifyEndpointAccessibility (endpoint : Endpoint.t)
  : M AccessibilityCheck :=
  try_catch
    (sleep 500 ;;;
     ret (Access true "Endpoint is accessible and responding"))
    (fun error =>
       ret (Access false (message_or error "Verification failed"))).

(** [verifyDeployment], with the two probes it calls as parameters. *)
Section Verify.

Variable livenessProbe : string -> option string -> M HealthStatus.t.
Variable accessibilityProbe : Endpoint.t -> M AccessibilityCheck.

Definition verifyDeployment_with (deployment : Deployment.t) (region : string)
  : M Verification :=
  let! healthStatus :=
    livenessProbe (Deployment.id deployment)
                  (Endpoint.url <$> Deployment.endpoint deployment) in
  if negb (HealthStatus.healthy healthStatus) then
    ret (Verif false None healthStatus None)
  else
    let! endpoint :=
      match Deployment.endpoint deployment with
      | Some e => ret e
      | None => createEndpoint deployment region
      end in
    let! accessibilityCheck := accessibilityProbe endpoint in
    ret (Verif (HealthStatus.healthy healthStatus
                  && accessible accessibilityCheck)
               (Some endpoint) healthStatus (Some accessibilityCheck)).

End Verify.

Definition verifyDeployment : Deployment.t -> string -> M Verification :=
  verifyDeployment_with performHealthCheck verifyEndpointAccessibility.

End Health.

(* ================================================================= *)
(** ** runtime/results.ts *)

Module Results.

Definition createDeploymentResult (success : bool)
    (endpoint : option Endpoint.t)
    (authConfig : option DeploymentAuthConfig.t)
    (resourceInfo : option ResourceInfo.t)
    (errorMessage : option string) : DeploymentResult.t :=
  let result :=
    DeploymentResult.Build success endpoint authConfig None resourceInfo in
  if negb success && JsString.truthy_opt errorMessage then
    DeploymentResult.Build success endpoint authConfig
      (Some (DeploymentError.Build "DEPLOYMENT_FAILED"
               (default "" errorMessage) "DEPLOYING"))
      resourceInfo
  else result.

Definition createSuccessResult (endpoint : option Endpoint.t)
    (authConfig : DeploymentAuthConfig.t) (resourceInfo : ResourceInfo.t)
  : DeploymentResult.t :=
  createDeploymentResult true endpoint (Some authConfig) (Some resourceInfo) None.

Definition createFailureResult (errorMessage : string)
    (resourceInfo : option ResourceInfo.t) : DeploymentResult.t :=
  createDeploymentResult false None None resourceInfo (Some errorMessage).

End Results.

(* ================================================================= *)
(** ** runtime/orchestrator.ts *)

Module Orchestrator.

Record OrchestrationOptions := Options {
  imageUri : string;
  config : Config.t;
  verbose : bool }.

(** The functions [orchestrator.ts] imports from [./deployment], [./health]
    and [./rollback]. *)
Class RuntimeModules := Modules {
  deployToRuntime : DeploymentConfig.t -> M Deployment.t;
  waitForDeployment : string -> M Deployment.t;
  verifyDeployment : Deployment.t -> string -> M Health.Verification;
  saveDeploymentToHistory : Deployment.t -> string -> M unit;
  rollbackDeployment : Deployment.t -> string -> M RollbackResult.t }.

(** The modules of the repository. *)
Definition sourceModules : RuntimeModules :=
  Modules RuntimeDeployment.deployToRuntime
          (fun deploymentId =>
             RuntimeDeployment.waitForDeployment deploymentId
               RuntimeDeployment.defaultTimeoutMs)
          Health.verifyDeployment
          Rollback.saveDeploymentToHistory
          Rollback.rollbackDeployment.

Definition region_of (config : Config.t) : string :=
  Config.region (Config.project config).

Definition projectName_of (config : Config.t) : string :=
  Config.name (Config.project config).

(** Step 1: the deployment configuration. *)
Definition prepareDeploymentConfig (options : OrchestrationOptions)
  : DeploymentConfig.t :=
  let config := config options in
  DeploymentConfig.Build
    (imageUri options)
    (DeploymentAuthConfig.Build
       (Config.cognitoUserPoolId (Config.auth config))
       (Config.cognitoClientId (Config.auth config))
       (JsString.or_else (Config.cognitoRegion (Config.auth config))
                         (region_of config)))
    (projectName_of config)
    (region_of config)
    (DeploymentConfig.Server
       (Config.command (Config.server config))
       (Config.args (Config.server config))
       (Config.transport (Config.server config))
       (Config.environment (Config.server config))
       (Config.port (Config.server config))).

(** The record handed to the rollback manager by the [catch] branch. *)
Definition failedDeploymentRecord (options : OrchestrationOptions)
    (idStamp created updated : Z) : Deployment.t :=
  let config := config options in
  Deployment.Build
    ("failed-" +:+ JsString.ofNumber idStamp)
    FAILED
    (imageUri options)
    (DeploymentAuthConfig.Build
       (Some (JsString.or_else (Config.cognitoUserPoolId (Config.auth config)) ""))
       (Some (JsString.or_else (Config.cognitoClientId (Config.auth config)) ""))
       (JsString.or_else (Config.cognitoRegion (Config.auth config))
                         (region_of config)))
    None created updated.

Definition failureResourceInfo (options : OrchestrationOptions)
  : ResourceInfo.t :=
  ResourceInfo.Build
    (Some (Config.codebuildProject (Config.build (config options))))
    (Some (imageUri options)) None None None.

Section Orchestrate.

Context {modules : RuntimeModules}.

(** The body of the [try] block. *)
Definition deploymentSteps (options : OrchestrationOptions)
  : M DeploymentResult.t :=
  let config := config options in
  when (verbose options)
       (emit (ConsoleLog "Preparing deployment configuration...")) ;;;
  let deploymentConfig := prepareDeploymentConfig options in
  when (verbose options)
       (emit (ConsoleLog "Deploying to Bedrock AgentCore Runtime...")) ;;;
  let! deployment := deployToRuntime deploymentConfig in
  when (verbose options)
       (emit (ConsoleLog "Waiting for deployment to complete...")) ;;;
  let! deployment := waitForDeployment (Deployment.id deployment) in
  if bool_decide (Deployment.status deployment = FAILED) then
    throw (JsError "Deployment failed during runtime initialization")
  else
    when (verbose options)
         (emit (ConsoleLog "Verifying deployment health...")) ;;;
    let! verification := verifyDeployment deployment (region_of config) in
    if negb (Health.healthy verification) then
      throw (JsError ("Deployment health check failed: "
                        +:+ default "undefined"
                              (HealthStatus.message
                                 (Health.healthStatus verification))))
    else
      let deployment :=
        match Health.endpoint verification with
        | Some e => Deployment.with_endpoint deployment e
        | None => deployment
        end in
      saveDeploymentToHistory deployment (projectName_of config) ;;;
      let authConfig := DeploymentConfig.authConfig deploymentConfig in
      let resourceInfo :=
        ResourceInfo.Build
          (Some (Config.codebuildProject (Config.build config)))
          (Some (imageUri options))
          (DeploymentAuthConfig.cognitoUserPoolId authConfig)
          (DeploymentAuthConfig.cognitoClientId authConfig)
          (Endpoint.url <$> Deployment.endpoint deployment) in
      let result :=
        Results.createSuccessResult (Deployment.endpoint deployment)
          authConfig resourceInfo in
      emit (ConsoleSummary result) ;;;
      ret result.

(** The [catch] branch. *)
Definition handleFailure (options : OrchestrationOptions) (error : thrown)
  : M DeploymentResult.t :=
  let config := config options in
  let errorMessage := message_or error "Unknown deployment error" in
  emit (ConsoleError ("Deployment failed: " +:+ errorMessage)) ;;;
  when (verbose options) (emit (ConsoleLog "Attempting rollback...")) ;;;
  let! idStamp := Date_now in
  let! created := Date_now in
  let! updated := Date_now in
  let failedDeployment :=
    failedDeploymentRecord options idStamp created updated in
  let! rollbackResult :=
    call (CallRollbackDeployment failedDeployment (projectName_of config))
         (rollbackDeployment failedDeployment (projectName_of config)) in
  when (verbose options) (emit (ConsoleRollbackReport rollbackResult)) ;;;
  ret (Results.createFailureResult errorMessage
         (Some (failureResourceInfo options))).

Definition orchestrateDeployment (options : OrchestrationOptions)
  : M DeploymentResult.t :=
  try_catch (deploymentSteps options) (handleFailure options).

End Orchestrate.

End Orchestrator.

(* ================================================================= *)
(** ** JavaScript numbers

    [Number] is IEEE 754 binary64; the two progress computations divide and
    multiply in it before [Math.floor]. *)

Module JsNumber.

Definition prec : Z := 53.
Definition emax : Z := 1024.

Definition of_Z (z : Z) : SpecFloat.spec_float :=
  SpecFloat.binary_normalize prec emax z 0 false.

Definition div : SpecFloat.spec_float -> SpecFloat.spec_float -> SpecFloat.spec_float :=
  SpecFloat.SFdiv prec emax.

Definition mul : SpecFloat.spec_float -> SpecFloat.spec_float -> SpecFloat.spec_float :=
  SpecFloat.SFmul prec emax.

(** [Math.floor] of a finite number, as an integer ([None] for NaN and the
    infinities). *)
Definition Math_floor (x : SpecFloat.spec_float) : option Z :=
  match x with
  | SpecFloat.S754_zero _ => Some 0
  | SpecFloat.S754_finite negative m e =>
      Some (Z.shiftl (if negative then Z.neg m else Z.pos m) e)
  | _ => None
  end.

End JsNumber.

(* ================================================================= *)
(** ** The CodeBuild integration module and the build monitor module

    Both define a [buildToBuildProgress]: the build service's
    ([CodeBuild], behind [getBuildProgress]) counts succeeded phases, the
    monitor's ([Monitor], behind [monitorBuild]) takes the index of the
    current phase. *)

(** The [Build] and [BuildPhase] objects of the CodeBuild SDK; every field
    is optional there. *)
Module Aws.
Record BuildPhase := Phase {
  phaseType : option string;
  phaseStatus : option string }.
Record Build := MkBuild {
  id : option string;
  currentPhase : option string;
  buildStatus : option string;
  buildComplete : option bool;
  phases : option (list BuildPhase) }.
End Aws.

(** What [getPhaseMessage] returns: a text, or, for a phase name that a
    plain object inherits from [Object.prototype], the inherited member (a
    function or object, not a string). *)
Inductive PhaseMessage :=
| MessageText (text : string)
| InheritedMember (name : string).

Module BuildProgress.
Record t := Build {
  phase : string;
  status : string;
  percentage : option Z;
  message : PhaseMessage }.
End BuildProgress.

(** The property names every plain object inherits from
    [Object.prototype]; the values found under them are all truthy. *)
Definition objectPrototypeNames : list string :=
  [ "constructor"; "__defineGetter__"; "__defineSetter__"; "hasOwnProperty";
    "__lookupGetter__"; "__lookupSetter__"; "isPrototypeOf";
    "propertyIsEnumerable"; "toString"; "valueOf"; "__proto__";
    "toLocaleString" ].

(** [getPhaseMessage] over a module's table of phase messages:
    [messages[phase] || `Build phase: ${phase}`], where [messages] is a
    plain object whose [COMPLETED] entry depends on the build status. The
    lookup finds the table's own entries and, under the names of
    [objectPrototypeNames], the inherited members. *)
Definition phaseMessageFrom (table : string -> list (string * string))
    (phase : string) (status : option string) : PhaseMessage :=
  let completed :=
    if bool_decide (status = Some "SUCCEEDED")
    then "Build completed successfully" else "Build failed" in
  let messages : gmap string string := list_to_map (table completed) in
  match messages !! phase with
  | Some text =>
      MessageText (JsString.or_else (Some text) ("Build phase: " +:+ phase))
  | None =>
      if bool_decide (phase ∈ objectPrototypeNames)
      then InheritedMember phase
      else MessageText ("Build phase: " +:+ phase)
  end.

Module CodeBuild.

Definition phaseMessages (completed : string) : list (string * string) :=
  [ ("SUBMITTED", "Build submitted");
    ("QUEUED", "Build queued");
    ("PROVISIONING", "Provisioning build environment");
    ("DOWNLOAD_SOURCE", "Downloading source");
    ("INSTALL", "Installing dependencies");
    ("PRE_BUILD", "Running pre-build commands");
    ("BUILD", "Building container image");
    ("POST_BUILD", "Pushing image to ECR");
    ("UPLOAD_ARTIFACTS", "Uploading artifacts");
    ("FINALIZING", "Finalizing build");
    ("COMPLETED", completed) ].

Definition getPhaseMessage : string -> option string -> PhaseMessage :=
  phaseMessageFrom phaseMessages.

Definition totalPhases : Z := 5.

Definition succeeded (p : Aws.BuildPhase) : bool :=
  bool_decide (Aws.phaseStatus p = Some "SUCCEEDED").

Definition completedPhases (build : Aws.Build) : nat :=
  length (List.filter succeeded (default [] (Aws.phases build))).

(** [Math.floor((completedPhases / totalPhases) * 100)]. *)
Definition percentageOf (completed : nat) : option Z :=
  JsNumber.Math_floor
    (JsNumber.mul
       (JsNumber.div (JsNumber.of_Z (Z.of_nat completed))
                     (JsNumber.of_Z totalPhases))
       (JsNumber.of_Z 100)).

Definition buildToBuildProgress (build : Aws.Build) : BuildProgress.t :=
  let currentPhase := JsString.or_else (Aws.currentPhase build) "SUBMITTED" in
  let percentage := percentageOf (completedPhases build) in
  BuildProgress.Build
    currentPhase
    (JsString.or_else (Aws.buildStatus build) "IN_PROGRESS")
    percentage
    (getPhaseMessage currentPhase (Aws.buildStatus build)).

(** [BuildService.getBuildProgress], over the response of
    [BatchGetBuildsCommand] for the build id. *)
Definition getBuildProgress (batchGetBuilds : string -> M (option (list Aws.Build)))
    (buildId : string) : M BuildProgress.t :=
  let! builds := batchGetBuilds buildId in
  match builds with
  | Some (build :: _) => ret (buildToBuildProgress build)
  | _ => throw (JsError ("Build " +:+ buildId +:+ " not found"))
  end.

End CodeBuild.

Module Monitor.

Definition phaseMessages (completed : string) : list (string * string) :=
  [ ("SUBMITTED", "Build submitted to queue");
    ("QUEUED", "Build queued, waiting for resources");
    ("PROVISIONING", "Provisioning build environment");
    ("DOWNLOAD_SOURCE", "Downloading source code");
    ("INSTALL", "Installing dependencies");
    ("PRE_BUILD", "Running pre-build commands (ECR login)");
    ("BUILD", "Building Docker container image");
    ("POST_BUILD", "Pushing image to Amazon ECR");
    ("UPLOAD_ARTIFACTS", "Uploading build artifacts");
    ("FINALIZING", "Finalizing build");
    ("COMPLETED", completed) ].

Definition getPhaseMessage : string -> option string -> PhaseMessage :=
  phaseMessageFrom phaseMessages.

Definition phaseOrder : list string :=
  [ "SUBMITTED"; "QUEUED"; "PROVISIONING"; "DOWNLOAD_SOURCE"; "INSTALL";
    "PRE_BUILD"; "BUILD"; "POST_BUILD"; "UPLOAD_ARTIFACTS"; "FINALIZING";
    "COMPLETED" ].

(** [array.indexOf(x)]: the first position of [x], if any. *)
Fixpoint indexOf (x : string) (l : list string) : option nat :=
  match l with
  | [] => None
  | y :: rest => if String.eqb x y then Some O else S <$> indexOf x rest
  end.

(** [currentIndex >= 0 ? Math.floor((currentIndex / phaseOrder.length) * 100) : 0]. *)
Definition percentageOf (currentIndex : option nat) : option Z :=
  match currentIndex with
  | Some i =>
      JsNumber.Math_floor
        (JsNumber.mul
           (JsNumber.div (JsNumber.of_Z (Z.of_nat i))
                         (JsNumber.of_Z (Z.of_nat (length phaseOrder))))
           (JsNumber.of_Z 100))
  | None => Some 0
  end.

Definition buildToBuildProgress (build : Aws.Build) : BuildProgress.t :=
  let currentPhase := JsString.or_else (Aws.currentPhase build) "SUBMITTED" in
  let currentIndex := indexOf currentPhase phaseOrder in
  BuildProgress.Build
    currentPhase
    (JsString.or_else (Aws.buildStatus build) "IN_PROGRESS")
    (percentageOf currentIndex)
    (getPhaseMessage currentPhase (Aws.buildStatus build)).

End Monitor.

(* ================================================================= *)
(** ** Gateway types (types/http.ts, types/mcp.ts, types/errors.ts) *)

(** JSON values, as given to [JSON.stringify] and produced by [JSON.parse];
    [JDate] is a [Date], serialised as its ISO string. *)
Unset Elimination Schemes.
Inductive json :=
| JNull
| JBool (b : bool)
| JNum (z : Z)
| JStr (s : string)
| JDate (t : Z)
| JArr (items : list json)
| JObj (fields : list (string * json)).
Set Elimination Schemes.

Definition JOptStr (o : option string) : json :=
  match o with Some s => JStr s | None => JNull end.

(** The body of an upstream response as its reader delivers it: the chunks
    read (each a [Uint8Array], given by the string of its bytes), then
    either completion or a read error. *)
Inductive ReadEnding := ReadDone | ReadFailed (e : thrown).

Record UpstreamBody := Upstream { chunks : list string; ending : ReadEnding }.

(** A [fetch] response. *)
Module Response.
Record t := Build {
  ok : bool;
  status : Z;
  statusText : string;
  body : option UpstreamBody }.
End Response.

(** [request.body] is [any]: a string, or an already parsed value. *)
Inductive RequestBody := BodyText (s : string) | BodyValue (j : json).

Module IncomingRequest.
Record t := Build {
  method : string;
  url : string;
  headers : gmap string string;
  body : option RequestBody }.
End IncomingRequest.

Inductive ResponseBody := BodyString (s : string) | BodyStream (b : UpstreamBody).

Module StreamableResponse.
Record t := Build {
  status : Z;
  headers : gmap string string;
  body : ResponseBody }.
End StreamableResponse.

Module TokenValidationResult.
Record t := Build {
  valid : bool;
  userId : option string;
  error : option string }.
End TokenValidationResult.

Inductive ErrorCategory :=
  CONFIG_ERROR | BUILD_ERROR | AUTH_ERROR | DEPLOYMENT_ERROR | RUNTIME_ERROR.

Definition ErrorCategory_name (c : ErrorCategory) : string :=
  match c with
  | CONFIG_ERROR => "CONFIG_ERROR" | BUILD_ERROR => "BUILD_ERROR"
  | AUTH_ERROR => "AUTH_ERROR" | DEPLOYMENT_ERROR => "DEPLOYMENT_ERROR"
  | RUNTIME_ERROR => "RUNTIME_ERROR"
  end.

Module CategorizedError.
Record t := Build {
  category : ErrorCategory;
  code : string;
  message : string;
  details : option string;
  originalError : option thrown }.
End CategorizedError.

Inductive ChunkType := ChunkData | ChunkError | ChunkEnd.

Inductive Payload :=
| PayloadText (text : string)
| PayloadMessage (message : option string)
| PayloadNull.

Module StreamChunk.
Record t := Build { type : ChunkType; payload : Payload; timestamp : Z }.
End StreamChunk.

(** What the gateway takes from its platform: [JSON], the Cognito client
    ([GetUserCommand] answers with the user name, or rejects) and [fetch]. *)
Class Platform := {
  JSON_stringify : json -> string;
  JSON_parse : string -> outcome json;
  cognitoGetUser : string -> M (option string);
  fetch : string -> option string -> M Response.t }.

(** [TextDecoder] in its default mode (UTF-8, not fatal), as the stream
    handler uses it: [new TextDecoder()] is [freshDecoder], and
    [decoder.decode(value, { stream: true })] gives the text decoded so far
    and keeps the bytes of an unfinished character for the next call. *)
Class TextDecoder := {
  decoderState : Type;
  freshDecoder : decoderState;
  decode : decoderState -> string -> string * decoderState }.

(* ================================================================= *)
(** ** runtime/auth-middleware.ts *)

Module AuthMiddleware.

Definition extractToken (headers : gmap string string) : option string :=
  let authHeader :=
    JsString.or_opt (headers !! "authorization") (headers !! "Authorization") in
  match authHeader with
  | None => None
  | Some authHeader =>
      if negb (JsString.truthy authHeader) then None
      else
        let parts := JsString.split " " authHeader in
        if negb (bool_decide (length parts = 2%nat))
           || negb (bool_decide (parts !! 0%nat = Some "Bearer"))
        then None
        else parts !! 1%nat
  end.

Definition createUnauthorizedResponse `{Platform} (error : string)
  : StreamableResponse.t :=
  StreamableResponse.Build 401
    (list_to_map [ ("Content-Type", "application/json");
                   ("WWW-Authenticate", "Bearer") ])
    (BodyString (JSON_stringify
       (JObj [ ("error", JStr (ErrorCategory_name AUTH_ERROR));
               ("message", JStr "Unauthorized");
               ("details", JStr error) ]))).

Section Validate.

Context {platform : Platform}.

(** The [catch] evaluates [error.message || 'Token validation failed']:
    reading [message] from a caught [null] or [undefined] throws, and that
    [TypeError] leaves [validateToken]. *)
Definition validateToken (token : string) : M TokenValidationResult.t :=
  try_catch
    (let! username := cognitoGetUser token in
     ret (TokenValidationResult.Build true username None))
    (fun error =>
       match message_of error with
       | Ret message =>
           ret (TokenValidationResult.Build false None
                  (Some (JsString.or_else message "Token validation failed")))
       | Raise typeError => throw typeError
       end).

Definition validateRequest (headers : gmap string string)
  : M TokenValidationResult.t :=
  let token := extractToken headers in
  if negb (JsString.truthy_opt token) then
    ret (TokenValidationResult.Build false None
           (Some "Missing or invalid Authorization header"))
  else validateToken (default "" token).

End Validate.

End AuthMiddleware.

(* ================================================================= *)
(** ** runtime/error-handler.ts *)

Module TransmissionErrorHandler.

Definition isNetworkMessage (message : string) : bool :=
  JsString.includes "network" message
  || JsString.includes "connection" message
  || JsString.includes "timeout" message
  || JsString.includes "econnrefused" message.

Definition isStreamMessage (message : string) : bool :=
  JsString.includes "stream" message
  || JsString.includes "pipe" message
  || JsString.includes "closed" message.

Definition isAuthMessage (message : string) : bool :=
  JsString.includes "unauthorized" message
  || JsString.includes "forbidden" message
  || JsString.includes "token" message.

Definition isServerMessage (message : string) : bool :=
  JsString.includes "mcp" message || JsString.includes "server" message.

(** [categorizeError] on an [Error] with message [original]. *)
Definition categorizeMessage (original : string) : CategorizedError.t :=
  let message := JsString.toLowerCase original in
  let make category code text :=
    CategorizedError.Build category code text (Some original)
      (Some (JsError original)) in
  if isNetworkMessage message then
    make RUNTIME_ERROR "TRANSMISSION_001" "Network connection error"
  else if isStreamMessage message then
    make RUNTIME_ERROR "TRANSMISSION_002" "Stream transmission error"
  else if isAuthMessage message then
    make AUTH_ERROR "TRANSMISSION_003" "Authentication error during transmission"
  else if isServerMessage message then
    make RUNTIME_ERROR "TRANSMISSION_004" "MCP server error"
  else
    make RUNTIME_ERROR "TRANSMISSION_000" "Transmission error".

(** [error.message.toLowerCase()] is a [TypeError] on a thrown value that
    has no [message], and reading [message] is one already on [null] and
    [undefined]. *)
Definition categorizeError (error : thrown) : outcome CategorizedError.t :=
  match message_of error with
  | Ret (Some message) => Ret (categorizeMessage message)
  | Ret None =>
      Raise (JsError
               "Cannot read properties of undefined (reading 'toLowerCase')")
  | Raise typeError => Raise typeError
  end.

Definition getStatusCode (error : CategorizedError.t) : Z :=
  match CategorizedError.category error with
  | AUTH_ERROR => 401
  | CONFIG_ERROR => 400
  | RUNTIME_ERROR =>
      if String.eqb (CategorizedError.code error) "TRANSMISSION_001" then 503
      else if String.eqb (CategorizedError.code error) "TRANSMISSION_002" then 500
      else 500
  | _ => 500
  end.

Definition getSuggestions (error : CategorizedError.t) : list string :=
  let code := CategorizedError.code error in
  if String.eqb code "TRANSMISSION_001" then
    [ "Check if the MCP server is running and accessible";
      "Verify network connectivity";
      "Check firewall settings";
      "Retry the request after a short delay" ]
  else if String.eqb code "TRANSMISSION_002" then
    [ "The connection was interrupted during transmission";
      "Retry the request";
      "Check for network stability issues" ]
  else if String.eqb code "TRANSMISSION_003" then
    [ "Verify your authentication token is valid";
      "Obtain a new token if the current one has expired";
      "Check that you have permission to access this resource" ]
  else if String.eqb code "TRANSMISSION_004" then
    [ "The MCP server encountered an error";
      "Check MCP server logs for details";
      "Verify the request format is correct";
      "Contact the server administrator if the problem persists" ]
  else
    [ "An unexpected error occurred during transmission";
      "Retry the request";
      "Contact support if the problem persists" ].

Section Handler.

Context {platform : Platform}.

Definition createErrorResponse (error : CategorizedError.t)
  : M StreamableResponse.t :=
  let statusCode := getStatusCode error in
  let! timestamp := Date_now in
  let errorBody :=
    JObj [ ("error",
            JObj [ ("category", JStr (ErrorCategory_name (CategorizedError.category error)));
                   ("code", JStr (CategorizedError.code error));
                   ("message", JStr (CategorizedError.message error));
                   ("details", JOptStr (CategorizedError.details error));
                   ("suggestions", JArr (JStr <$> getSuggestions error)) ]);
           ("timestamp", JDate timestamp) ] in
  ret (StreamableResponse.Build statusCode
         (list_to_map [ ("Content-Type", "application/json");
                        ("Cache-Control", "no-cache") ])
         (BodyString (JSON_stringify errorBody))).

(** [withErrorHandling]: the operation's value, or the error response. *)
Definition withErrorHandling {T} (operation : M T)
  : M (T + StreamableResponse.t) :=
  try_catch
    (let! value := operation in ret (inl value))
    (fun error =>
       match categorizeError error with
       | Ret categorized =>
           let! response := createErrorResponse categorized in
           ret (inr response)
       | Raise typeError => throw typeError
       end).

End Handler.

End TransmissionErrorHandler.

(* ================================================================= *)
(** ** runtime/mcp-connector.ts *)

Module MCPConnector.

(** [connect]: reuse the cached connection while it is marked connected,
    otherwise create one and cache it. *)
Definition connect (serverUrl : string) : M unit :=
  fun w =>
    match connections w !! serverUrl with
    | Some true => Run (Ret tt) w []
    | _ => Run (Ret tt)
             (World (now w) (entropy w) (<[serverUrl := true]> (connections w)))
             []
    end.

Definition forwardRequest `{Platform} (serverUrl : string)
    (request : option json) : M Response.t :=
  connect serverUrl ;;;
  let! response := fetch serverUrl (JSON_stringify <$> request) in
  if negb (Response.ok response) then
    throw (JsError ("MCP server returned error: "
                      +:+ JsString.ofNumber (Response.status response) +:+ " "
                      +:+ Response.statusText response))
  else ret response.

End MCPConnector.

(* ================================================================= *)
(** ** runtime/stream-handler.ts *)

Module StreamHandler.

Definition createStreamingResponse (mcpResponse : Response.t)
  : M StreamableResponse.t :=
  match Response.body mcpResponse with
  | None => throw (JsError "Response body is null")
  | Some body =>
      ret (StreamableResponse.Build (Response.status mcpResponse)
             (list_to_map [ ("Content-Type", "application/json");
                            ("Transfer-Encoding", "chunked");
                            ("Cache-Control", "no-cache");
                            ("Connection", "keep-alive") ])
             (BodyStream body))
  end.

(** What driving the generator of [streamResponse] to its end gives: the
    chunks it yields, and the error it throws after them, if it throws. *)
Record Generated := Yields {
  yielded : list StreamChunk.t;
  thrownAfter : option thrown }.

Section Stream.

Context {decoder : TextDecoder}.

(** The read loop of [streamResponse], from the state in which [pending]
    values are still to be read. A value read is decoded and yielded as a
    'data' chunk. A read that reports [done] yields the 'end' chunk and
    leaves the loop. A read that rejects is caught; the [catch] builds the
    'error' chunk from [error.message], and when reading that property
    throws, nothing more is yielded and the generator throws. *)
Fixpoint readLoop (state : decoderState) (pending : list string)
    (ending : ReadEnding) : M Generated :=
  match pending with
  | [] =>
      match ending with
      | ReadDone =>
          let! t := Date_now in
          ret (Yields [StreamChunk.Build ChunkEnd PayloadNull t] None)
      | ReadFailed error =>
          match message_of error with
          | Ret message =>
              let! t := Date_now in
              ret (Yields [StreamChunk.Build ChunkError
                             (PayloadMessage message) t] None)
          | Raise typeError => ret (Yields [] (Some typeError))
          end
      end
  | value :: rest =>
      let (text, state') := decode state value in
      let! t := Date_now in
      let! later := readLoop state' rest ending in
      ret (Yields (StreamChunk.Build ChunkData (PayloadText text) t
                     :: yielded later)
                  (thrownAfter later))
  end.

(** [streamResponse]: what the generator gives when it is driven to its
    end. *)
Definition streamResponse (request : IncomingRequest.t)
    (mcpResponse : Response.t) : M Generated :=
  match Response.body mcpResponse with
  | None =>
      let! t := Date_now in
      ret (Yields [StreamChunk.Build ChunkError
                     (PayloadMessage (Some "No response body")) t] None)
  | Some body => readLoop freshDecoder (chunks body) (ending body)
  end.

End Stream.

Definition isTerminal (chunk : StreamChunk.t) : bool :=
  match StreamChunk.type chunk with
  | ChunkEnd | ChunkError => true
  | ChunkData => false
  end.

Definition chunkTypeName (t : ChunkType) : string :=
  match t with
  | ChunkData => "data" | ChunkError => "error" | ChunkEnd => "end"
  end.

Definition chunkJson (chunk : StreamChunk.t) : json :=
  JObj [ ("type", JStr (chunkTypeName (StreamChunk.type chunk)));
         ("payload",
          match StreamChunk.payload chunk with
          | PayloadText text => JStr text
          | PayloadMessage (Some m) => JObj [("message", JStr m)]
          | PayloadMessage None => JObj []
          | PayloadNull => JNull
          end);
         ("timestamp", JDate (StreamChunk.timestamp chunk)) ].

(** The client stream built by [createChunkedBody]: what was enqueued, and
    whether its controller is still open, was closed, or was put in error. *)
Inductive StreamState :=
| StreamOpen
| StreamClosed
| StreamErrored (error : thrown).

Record ClientStream := Client { enqueued : list string; state : StreamState }.

(** The [for await] loop of [createChunkedBody] over an iterator that
    offers the chunks [offered] and then ends, or throws [thrownAfter]:
    each chunk taken is serialised and enqueued; after a terminal one the
    controller is closed and the loop left; an error of the iterator is
    caught and passed to [controller.error]. *)
Fixpoint enqueueLoop `{Platform} (offered : list StreamChunk.t)
    (thrownAfter : option thrown) : ClientStream :=
  match offered with
  | [] =>
      match thrownAfter with
      | Some error => Client [] (StreamErrored error)
      | None => Client [] StreamOpen
      end
  | chunk :: rest =>
      let data := JSON_stringify (chunkJson chunk) +:+ JsString.newline in
      if isTerminal chunk then Client [data] StreamClosed
      else
        let later := enqueueLoop rest thrownAfter in
        Client (data :: enqueued later) (state later)
  end.

Definition createChunkedBody `{Platform} (chunks : Generated) : ClientStream :=
  enqueueLoop (yielded chunks) (thrownAfter chunks).

End StreamHandler.

(* ================================================================= *)
(** ** runtime/http-handler.ts *)

Module StreamableHttpHandler.

Record HttpHandlerConfig := HandlerConfig { region : string; mcpServerUrl : string }.

Section Handler.

Context {platform : Platform}.

Definition parseMCPRequest (body : option RequestBody) : M (option json) :=
  match body with
  | Some (BodyText text) =>
      match JSON_parse text with
      | Ret parsed => ret (Some parsed)
      | Raise syntaxError => throw syntaxError
      end
  | Some (BodyValue value) => ret (Some value)
  | None => ret None
  end.

(** The operation [handleRequest] wraps. *)
Definition handleOperation (handler : HttpHandlerConfig)
    (request : IncomingRequest.t) : M StreamableResponse.t :=
  let! validationResult :=
    AuthMiddleware.validateRequest (IncomingRequest.headers request) in
  if negb (TokenValidationResult.valid validationResult) then
    ret (AuthMiddleware.createUnauthorizedResponse
           (JsString.or_else (TokenValidationResult.error validationResult)
                             "Invalid token"))
  else
    let! mcpRequest := parseMCPRequest (IncomingRequest.body request) in
    let! mcpResponse :=
      call (CallForwardRequest (mcpServerUrl handler))
           (MCPConnector.forwardRequest (mcpServerUrl handler) mcpRequest) in
    StreamHandler.createStreamingResponse mcpResponse.

Definition handleRequest (handler : HttpHandlerConfig)
    (request : IncomingRequest.t) : M StreamableResponse.t :=
  let! answer :=
    TransmissionErrorHandler.withErrorHandling (handleOperation handler request) in
  ret (match answer with inl response => response | inr response => response end).

End Handler.

End StreamableHttpHandler.

(* ================================================================= *)
(** ** runtime/mcp-connector.ts and runtime/http-handler.ts: closing *)

Module Disconnect.

(** [disconnect]: a cached connection is closed and removed from the
    cache. *)
Definition disconnect (serverUrl : string) : M unit :=
  fun w =>
    match connections w !! serverUrl with
    | Some _ =>
        Run (Ret tt)
            (World (now w) (entropy w) (delete serverUrl (connections w))) []
    | None => Run (Ret tt) w []
    end.

(** [disconnectAll]: [disconnect] for every key the cache holds when it is
    called. ([Promise.all] interleaves the calls; each of them touches its
    own key only.) *)
Definition disconnectAll : M unit :=
  fun w =>
    foldr (fun url later => disconnect url ;;; later) (ret tt)
          ((map_to_list (connections w)).*1) w.

(** [StreamableHttpHandler.close]. *)
Definition close : M unit := disconnectAll.

End Disconnect.

(* ================================================================= *)
(** ** runtime/stream-handler.ts: [handleBackpressure] *)

Module Backpressure.

(** The destination of the copy: what it has accepted, and whether its
    writer is still open, was closed or was aborted. *)
Inductive WriterState :=
| WriterOpen
| WriterClosed
| WriterAborted (reason : thrown).

Record Writer := Sink { written : list string; state : WriterState }.

Section Copy.

(** [await writer.ready; await writer.write(value)] rejects or not,
    depending on what the destination has accepted so far. *)
Variable rejects : list string -> string -> option thrown.

(** The [while (true)] loop inside the [try]. *)
Fixpoint copyLoop (pending : list string) (ending : ReadEnding)
    (writer : Writer) : outcome unit * Writer :=
  match pending with
  | [] =>
      match ending with
      | ReadDone => (Ret tt, Sink (written writer) WriterClosed)
      | ReadFailed error => (Raise error, writer)
      end
  | value :: rest =>
      match rejects (written writer) value with
      | Some error => (Raise error, writer)
      | None =>
          copyLoop rest ending (Sink (written writer ++ [value]) (state writer))
      end
  end.

(** [catch (error) { await writer.abort(error); throw error; }]. *)
Definition handleBackpressure (reader : UpstreamBody) (writer : Writer)
  : outcome unit * Writer :=
  match copyLoop (chunks reader) (ending reader) writer with
  | (Ret tt, writer') => (Ret tt, writer')
  | (Raise error, writer') =>
      (Raise error, Sink (written writer') (WriterAborted error))
  end.

End Copy.

End Backpressure.

(* ================================================================= *)
(** ** runtime/results.ts: the deployment summary *)

Module DeploymentSummary.
Record AuthInfo := Auth {
  userPoolId : option string;
  clientId : option string;
  region : string }.
Record t := Build {
  success : bool;
  endpointUrl : option string;
  authInfo : option AuthInfo;
  nextSteps : list string;
  resourceInfo : ResourceInfo.t }.
End DeploymentSummary.

Module Summary.

(** The double-quote character that occurs inside string literals of the
    sources. *)
Definition doubleQuote : string := String (ascii_of_nat 34) EmptyString.

(** [result.resourceInfo || {}]. *)
Definition emptyResourceInfo : ResourceInfo.t :=
  ResourceInfo.Build None None None None None.

Definition generateNextSteps (result : DeploymentResult.t) : list string :=
  let steps : list string := [] in
  let steps :=
    match DeploymentResult.endpoint result with
    | Some endpoint =>
        steps ++ ["Connect to your MCP server at: " +:+ Endpoint.url endpoint]
    | None => steps
    end in
  let steps :=
    match DeploymentResult.authConfig result with
    | Some _ =>
        steps ++ ["Authenticate using AWS Cognito with the credentials above"]
              ++ ["Use the provided Jupyter Notebook for quick start examples"]
    | None => steps
    end in
  let steps := steps ++ ["Monitor your deployment in the AWS Console"] in
  steps ++ ["Check CloudWatch logs for runtime information"].

Definition generateDeploymentSummary (result : DeploymentResult.t)
  : DeploymentSummary.t :=
  if negb (DeploymentResult.success result) then
    DeploymentSummary.Build false None None
      [ "Review the error message above";
        "Check AWS CloudWatch logs for detailed error information";
        "Verify your AWS credentials and permissions";
        "Run " +:+ doubleQuote +:+ "agentcore launch" +:+ doubleQuote
          +:+ " again after resolving issues" ]
      (default emptyResourceInfo (DeploymentResult.resourceInfo result))
  else
    DeploymentSummary.Build true
      (Endpoint.url <$> DeploymentResult.endpoint result)
      ((fun authConfig =>
          DeploymentSummary.Auth
            (DeploymentAuthConfig.cognitoUserPoolId authConfig)
            (DeploymentAuthConfig.cognitoClientId authConfig)
            (DeploymentAuthConfig.cognitoRegion authConfig))
         <$> DeploymentResult.authConfig result)
      (generateNextSteps result)
      (default emptyResourceInfo (DeploymentResult.resourceInfo result)).

End Summary.

(* ================================================================= *)
(** ** Build results (the CodeBuild integration module and the build
       monitor module) *)

(** The SDK's [Build] with the further fields these functions read:
    [logs?.deepLink], [environment?.environmentVariables], and the duration
    and contexts of a phase. *)
Module Sdk.
Record EnvironmentVariable := EnvVar {
  name : option string;
  value : option string }.
Record PhaseContext := PhaseCtx {
  statusCode : option string;
  message : option string }.
Record BuildPhase := Phase {
  phaseType : option string;
  phaseStatus : option string;
  durationInSeconds : option Z;
  contexts : option (list PhaseContext) }.
Record Build := MkBuild {
  id : option string;
  currentPhase : option string;
  buildStatus : option string;
  buildComplete : option bool;
  phases : option (list BuildPhase);
  deepLink : option string;
  environmentVariables : option (list EnvironmentVariable) }.

(** The same object, seen through the fields of [Aws.Build]. *)
Definition asBuild (build : Build) : Aws.Build :=
  Aws.MkBuild (id build) (currentPhase build) (buildStatus build)
    (buildComplete build)
    (match phases build with
     | Some recorded =>
         Some (List.map
                 (fun phase => Aws.Phase (phaseType phase) (phaseStatus phase))
                 recorded)
     | None => None
     end).
End Sdk.

Module BuildResult.
Record t := Build {
  success : bool;
  buildId : option string;
  imageUri : option string;
  error : option string;
  logs : option (list string) }.
End BuildResult.

(** [new Error(`Build ${buildId} not found`)]. *)
Definition buildNotFound (buildId : string) : thrown :=
  JsError ("Build " +:+ buildId +:+ " not found").

(** The build service of the CodeBuild integration module. *)
Module BuildService.

(** The image URI is not extracted yet. *)
Definition extractImageUri (build : Sdk.Build) : option string := None.

Definition buildToBuildResult (build : Sdk.Build) : BuildResult.t :=
  let isSuccess := bool_decide (Sdk.buildStatus build = Some "SUCCEEDED") in
  BuildResult.Build isSuccess
    (Sdk.id build)
    (extractImageUri build)
    (if isSuccess then None else Sdk.buildStatus build)
    (if JsString.truthy_opt (Sdk.deepLink build)
     then Some [default "" (Sdk.deepLink build)] else None).

Definition pollBuildStatus
    (batchGetBuilds : string -> M (option (list Sdk.Build)))
    (buildId : string) : M BuildResult.t :=
  let! builds := batchGetBuilds buildId in
  match builds with
  | Some (build :: _) => ret (buildToBuildResult build)
  | _ => throw (buildNotFound buildId)
  end.

End BuildService.

(** The build monitor module. *)
Module BuildMonitor.

Definition buildToBuildProgress (build : Sdk.Build) : BuildProgress.t :=
  Monitor.buildToBuildProgress (Sdk.asBuild build).

(** [variables.find(v => v.name === name)?.value]. *)
Definition valueOf (name : string) (variables : list Sdk.EnvironmentVariable)
  : option string :=
  List.find (fun v => bool_decide (Sdk.name v = Some name)) variables
    ≫= Sdk.value.

Definition buildToBuildResult (build : Sdk.Build) : BuildResult.t :=
  let isSuccess := bool_decide (Sdk.buildStatus build = Some "SUCCEEDED") in
  let imageUri :=
    match Sdk.environmentVariables build with
    | Some variables =>
        let repoName := valueOf "IMAGE_REPO_NAME" variables in
        let imageTag := valueOf "IMAGE_TAG" variables in
        let region := valueOf "AWS_DEFAULT_REGION" variables in
        let accountId := valueOf "AWS_ACCOUNT_ID" variables in
        if JsString.truthy_opt repoName && JsString.truthy_opt imageTag
           && JsString.truthy_opt region && JsString.truthy_opt accountId
        then Some (default "" accountId +:+ ".dkr.ecr." +:+ default "" region
                     +:+ ".amazonaws.com/" +:+ default "" repoName
                     +:+ ":" +:+ default "" imageTag)
        else None
    | None => None
    end in
  let logs :=
    if JsString.truthy_opt (Sdk.deepLink build)
    then [default "" (Sdk.deepLink build)] else [] in
  BuildResult.Build isSuccess
    (Sdk.id build)
    imageUri
    (if isSuccess then None else Sdk.buildStatus build)
    (Some logs).

Section Polling.

(** [client.send(new BatchGetBuildsCommand({ids: [buildId]}))], as the
    [builds] of the response. *)
Variable batchGetBuilds : string -> M (option (list Sdk.Build)).

(** The loop of [monitorBuild]; [polls] bounds the number of polls, and
    [None] is returned when the build is still running after that many. *)
Fixpoint monitorBuild_loop (polls : nat) (buildId : string)
    (onProgress : BuildProgress.t -> M unit) (lastPhase : string)
  : M (option BuildResult.t) :=
  match polls with
  | O => ret None
  | S polls' =>
      let! builds := batchGetBuilds buildId in
      match builds with
      | Some (build :: _) =>
          let currentPhase :=
            JsString.or_else (Sdk.currentPhase build) "SUBMITTED" in
          let changed := negb (String.eqb currentPhase lastPhase) in
          when changed (onProgress (buildToBuildProgress build)) ;;;
          let lastPhase := if changed then currentPhase else lastPhase in
          if negb (bool_decide (Sdk.buildComplete build = Some true)) then
            sleep 5000 ;;;
            monitorBuild_loop polls' buildId onProgress lastPhase
          else
            onProgress (buildToBuildProgress build) ;;;
            ret (Some (buildToBuildResult build))
      | _ => throw (buildNotFound buildId)
      end
  end.

Definition monitorBuild (polls : nat) (buildId : string)
    (onProgress : BuildProgress.t -> M unit) : M (option BuildResult.t) :=
  monitorBuild_loop polls buildId onProgress "".

(** The loop of [waitForCompletion], bounded in the same way. *)
Fixpoint waitForCompletion_loop (polls : nat) (buildId : string)
    (pollIntervalMs : Z) : M (option BuildResult.t) :=
  match polls with
  | O => ret None
  | S polls' =>
      let! builds := batchGetBuilds buildId in
      match builds with
      | Some (build :: _) =>
          if bool_decide (Sdk.buildComplete build = Some true) then
            ret (Some (buildToBuildResult build))
          else
            sleep pollIntervalMs ;;;
            waitForCompletion_loop polls' buildId pollIntervalMs
      | _ => throw (buildNotFound buildId)
      end
  end.

(** [pollIntervalMs = 5000] by default. *)
Definition waitForCompletion (polls : nat) (buildId : string)
    (pollIntervalMs : option Z) : M (option BuildResult.t) :=
  waitForCompletion_loop polls buildId (default 5000 pollIntervalMs).

End Polling.

Record BuildFailure := Failure {
  failureMessage : string;
  suggestions : list string;
  failureLogs : option string }.

Definition isFailedPhase (phase : Sdk.BuildPhase) : bool :=
  bool_decide (Sdk.phaseStatus phase = Some "FAILED").

(** [`${x}`] of an optional string. *)
Definition interpolated (x : option string) : string := default "undefined" x.

Definition handleBuildFailure (build : Sdk.Build) : BuildFailure :=
  let failedPhase :=
    Sdk.phases build ≫= List.find isFailedPhase in
  match failedPhase with
  | Some failedPhase =>
      let message :=
        "Build failed during " +:+ interpolated (Sdk.phaseType failedPhase)
          +:+ " phase" in
      let message :=
        match Sdk.contexts failedPhase with
        | Some (errorContext :: _) =>
            message +:+ ": " +:+ interpolated (Sdk.message errorContext)
        | _ => message
        end in
      let suggestions :=
        if bool_decide (Sdk.phaseType failedPhase = Some "PRE_BUILD") then
          [ "Check ECR repository permissions";
            "Verify AWS credentials are configured correctly" ]
        else if bool_decide (Sdk.phaseType failedPhase = Some "BUILD") then
          [ "Check Dockerfile syntax";
            "Verify MCP server package name is correct";
            "Check if uvx can install the specified package" ]
        else if bool_decide (Sdk.phaseType failedPhase = Some "POST_BUILD") then
          [ "Verify ECR repository exists";
            "Check network connectivity to ECR" ]
        else
          [ "Check CloudWatch logs for detailed error information" ] in
      Failure message suggestions (Sdk.deepLink build)
  | None => Failure "Build failed" [] (Sdk.deepLink build)
  end.

End BuildMonitor.

(** The build monitor's [getBuildLogs] and [formatDuration]. *)
Module BuildLogs.

(** Durations are whole seconds. *)
Definition formatDuration (seconds : option Z) : string :=
  match seconds with
  | None => "0s"
  | Some seconds =>
      if seconds =? 0 then "0s"
      else if seconds <? 60 then JsString.ofNumber seconds +:+ "s"
      else
        let minutes := seconds / 60 in
        let remainingSeconds := seconds mod 60 in
        JsString.ofNumber minutes +:+ "m "
          +:+ JsString.ofNumber remainingSeconds +:+ "s"
  end.

(** The lines pushed for one phase: the phase itself, then its contexts. *)
Definition phaseLines (phase : Sdk.BuildPhase) : list string :=
  ("  " +:+ BuildMonitor.interpolated (Sdk.phaseType phase) +:+ ": "
     +:+ BuildMonitor.interpolated (Sdk.phaseStatus phase) +:+ " ("
     +:+ formatDuration (Sdk.durationInSeconds phase) +:+ ")")
  :: match Sdk.contexts phase with
     | Some contexts =>
         (fun context =>
            "    " +:+ BuildMonitor.interpolated (Sdk.statusCode context)
              +:+ ": " +:+ BuildMonitor.interpolated (Sdk.message context))
           <$> contexts
     | None => []
     end.

Definition getBuildLogs
    (batchGetBuilds : string -> M (option (list Sdk.Build)))
    (buildId : string) : M (list string) :=
  let! builds := batchGetBuilds buildId in
  match builds with
  | Some (build :: _) =>
      let logs : list string := [] in
      let logs :=
        if JsString.truthy_opt (Sdk.deepLink build)
        then logs ++ ["CloudWatch Logs: " +:+ default "" (Sdk.deepLink build)]
        else logs in
      let logs :=
        match Sdk.phases build with
        | Some phases =>
            logs ++ [JsString.newline +:+ "Build Phases:"]
                 ++ flat_map phaseLines phases
        | None => logs
        end in
      ret logs
  | _ => throw (buildNotFound buildId)
  end.

End BuildLogs.

(* ================================================================= *)
(** ** cli/errors.ts *)

Module CliErrors.

(** [classifyError] on an [Error] with message [original]. *)
Definition classifyError (original : string) : ErrorCategory :=
  let message := JsString.toLowerCase original in
  if JsString.includes "config" message
     || JsString.includes "parameter" message
     || JsString.includes "validation" message
     || JsString.includes "region" message
     || JsString.includes "path" message
  then CONFIG_ERROR
  else if JsString.includes "build" message
     || JsString.includes "codebuild" message
     || JsString.includes "docker" message
     || JsString.includes "ecr" message
     || JsString.includes "image" message
  then BUILD_ERROR
  else if JsString.includes "auth" message
     || JsString.includes "cognito" message
     || JsString.includes "token" message
     || JsString.includes "permission" message
     || JsString.includes "unauthorized" message
  then AUTH_ERROR
  else if JsString.includes "deploy" message
     || JsString.includes "runtime" message
     || JsString.includes "endpoint" message
     || JsString.includes "health" message
  then DEPLOYMENT_ERROR
  else RUNTIME_ERROR.

Definition fallbackSuggestions : list string :=
  [ "Check the error details above for more information";
    "Run with --verbose flag for detailed logs" ].

Definition generateSuggestions (error : CategorizedError.t) : list string :=
  let message := JsString.toLowerCase (CategorizedError.message error) in
  let suggestions : list string :=
    match CategorizedError.category error with
    | CONFIG_ERROR =>
        if JsString.includes "region" message then
          [ "Use a valid AWS region code (e.g., us-east-1, us-west-2)";
            "Run " +:+ Summary.doubleQuote +:+ "aws ec2 describe-regions"
              +:+ Summary.doubleQuote +:+ " to see available regions" ]
        else if JsString.includes "path" message then
          [ "Verify the path exists and is accessible";
            "Use an absolute path or ensure the relative path is correct" ]
        else if JsString.includes "project name" message then
          [ "Use only alphanumeric characters, hyphens, and underscores";
            "Ensure the project name is not empty" ]
        else if JsString.includes "uvx" message
                || JsString.includes "command" message then
          [ "Use the format: uvx package-name or uvx package-name@version";
            "Ensure the package name is valid" ]
        else
          [ "Review the configuration parameters";
            "Run " +:+ Summary.doubleQuote +:+ "agentcore configure --help"
              +:+ Summary.doubleQuote +:+ " for usage information" ]
    | BUILD_ERROR =>
        [ "Check AWS CodeBuild service status";
          "Verify your AWS credentials are configured correctly";
          "Ensure you have necessary IAM permissions for CodeBuild and ECR" ]
        ++ (if JsString.includes "timeout" message
            then ["Increase the build timeout in configuration"] else [])
    | AUTH_ERROR =>
        [ "Verify your AWS credentials are valid";
          "Check IAM permissions for Cognito operations" ]
        ++ (if JsString.includes "token" message
            then [ "Refresh your authentication token";
                   "Re-authenticate with Cognito" ] else [])
    | DEPLOYMENT_ERROR =>
        [ "Check Bedrock AgentCore Runtime service availability";
          "Verify the container image was built successfully";
          "Ensure authentication is configured correctly" ]
        ++ (if JsString.includes "health" message
            then [ "Check MCP server logs for startup errors";
                   "Verify the container configuration is correct" ] else [])
    | RUNTIME_ERROR =>
        [ "Check the MCP server logs for details";
          "Verify the service is running and healthy";
          "Try restarting the deployment" ]
    end in
  if bool_decide (length suggestions = 0%nat) then fallbackSuggestions
  else suggestions.

Definition getDocumentationLink (category : ErrorCategory) : option string :=
  match category with
  | CONFIG_ERROR =>
      Some "https://docs.aws.amazon.com/cli/latest/userguide/cli-configure-files.html"
  | BUILD_ERROR =>
      Some "https://docs.aws.amazon.com/codebuild/latest/userguide/troubleshooting.html"
  | AUTH_ERROR =>
      Some "https://docs.aws.amazon.com/cognito/latest/developerguide/what-is-amazon-cognito.html"
  | DEPLOYMENT_ERROR =>
      Some "https://docs.aws.amazon.com/bedrock/latest/userguide/what-is-bedrock.html"
  | RUNTIME_ERROR => None
  end.

Module UserMessage.
Record t := Build {
  level : string;
  code : string;
  message : string;
  details : option string;
  suggestions : list string;
  documentation : option string }.
End UserMessage.

Definition formatErrorMessage (error : CategorizedError.t) : UserMessage.t :=
  let suggestions := generateSuggestions error in
  UserMessage.Build "error"
    (CategorizedError.code error)
    (CategorizedError.message error)
    (CategorizedError.details error)
    suggestions
    (getDocumentationLink (CategorizedError.category error)).

End CliErrors.

(* ================================================================= *)
(** ** Definitions used in the statements *)

(** A starting environment and sample inputs. *)
Definition world0 : world := World 1700000000000 ["k3x9q2"] ∅.

Definition activeDeployment : Deployment.t :=
  Deployment.Build "demo-1" ACTIVE "registry/demo:1"
    (DeploymentAuthConfig.Build (Some "pool") (Some "client") "us-east-1")
    None 0 0.

(** Console lines of the [catch] branch before and after the rollback. *)
Definition failureProlog (options : Orchestrator.OrchestrationOptions)
    (error : thrown) : list event :=
  ConsoleError ("Deployment failed: "
                  +:+ message_or error "Unknown deployment error")
  :: (if Orchestrator.verbose options
      then [ConsoleLog "Attempting rollback..."] else []).

Definition failureEpilog (options : Orchestrator.OrchestrationOptions)
    (rollbackResult : RollbackResult.t) : list event :=
  if Orchestrator.verbose options
  then [ConsoleRollbackReport rollbackResult] else [].

(** The record synthesized by the [catch] branch when the clock reads [t]. *)
Definition synthesized (options : Orchestrator.OrchestrationOptions) (t : Z)
  : Deployment.t :=
  Orchestrator.failedDeploymentRecord options t t t.

(** A rollback manager that never throws. *)
Definition rollbackReturns (modules : Orchestrator.RuntimeModules) : Prop :=
  forall d projectName w,
    exists r, result (Orchestrator.rollbackDeployment d projectName w) = Ret r.

Definition demoConfig (poolId : option string) : Config.t :=
  Config.Build "1.0"
    (Config.Project "demo" "us-east-1")
    (Config.Server "uvx" ["excel-mcp-server"] "streamable-http" ∅ None)
    (Config.BuildCfg "demo-build" "demo-repo")
    (Config.Auth poolId (Some "client-1") None).

(** Options whose configuration lacks the user pool id: the deploy step
    rejects them. *)
Definition incompleteOptions : Orchestrator.OrchestrationOptions :=
  Orchestrator.Options "registry/demo:1" (demoConfig None) true.

Definition completeOptions : Orchestrator.OrchestrationOptions :=
  Orchestrator.Options "registry/demo:1" (demoConfig (Some "pool-1")) false.

(** A deployment that is being updated and still carries its endpoint, and
    a failed one that has none. *)
Definition demoEndpoint : Endpoint.t :=
  Endpoint.Build "https://demo-1.agentcore-runtime.us-east-1.amazonaws.com"
    "streamable-http" true.

Definition updatingDeployment : Deployment.t :=
  Deployment.Build "demo-1" UPDATING "registry/demo:1"
    (DeploymentAuthConfig.Build (Some "pool") (Some "client") "us-east-1")
    (Some demoEndpoint) 0 0.

Definition failedDeployment : Deployment.t :=
  Deployment.Build "demo-2" FAILED "registry/demo:2"
    (DeploymentAuthConfig.Build (Some "pool") (Some "client") "us-east-1")
    None 0 0.

(** The error [createEndpoint] throws for a deployment in state [s]. *)
Definition invalidState (s : LifecycleStatus) : thrown :=
  JsError ("Cannot create endpoint for deployment in "
             +:+ LifecycleStatus_name s +:+ " state. "
             +:+ "Deployment must be ACTIVE.").

(** The header value the middleware reads:
    [headers['authorization'] || headers['Authorization']]. *)
Definition authorizationValue (headers : gmap string string) : option string :=
  JsString.or_opt (headers !! "authorization") (headers !! "Authorization").

(** The three shapes of a request that carries no usable bearer token. *)
Inductive rejectedHeaders (headers : gmap string string) : Prop :=
| NoAuthorizationHeader :
    authorizationValue headers = None ->
    rejectedHeaders headers
| NotBearerScheme (value : string) :
    authorizationValue headers = Some value ->
    JsString.split " " value !! 0%nat <> Some "Bearer" ->
    rejectedHeaders headers
| NotTwoParts (value : string) :
    authorizationValue headers = Some value ->
    length (JsString.split " " value) <> 2%nat ->
    rejectedHeaders headers.

Definition missingOrInvalid : TokenValidationResult.t :=
  TokenValidationResult.Build false None
    (Some "Missing or invalid Authorization header").

Definition demoHandler : StreamableHttpHandler.HttpHandlerConfig :=
  StreamableHttpHandler.HandlerConfig "us-east-1" "http://127.0.0.1:8000/mcp".

Definition requestWith (headers : gmap string string) : IncomingRequest.t :=
  IncomingRequest.Build "POST" "/mcp" headers
    (Some (BodyText "{}")).

(** A platform for closed examples: an opaque serialiser, a parser that
    accepts everything, an identity provider that knows one token and a
    backend that answers with a two-chunk body. *)
Definition demoPlatform : Platform :=
  {| JSON_stringify := fun _ => "<json>";
     JSON_parse := fun _ => Ret (JObj []);
     cognitoGetUser := fun token =>
       if String.eqb token "good-token" then ret (Some "alice")
       else throw (JsError "Access Token has expired");
     fetch := fun _ _ =>
       ret (Response.Build true 200 "OK"
              (Some (Upstream ["[1,"; "2]"] ReadDone))) |}.

(** The chunks [createChunkedBody] takes from what the iterator offers: all
    up to and including the first terminal one. *)
Fixpoint consumed (offered : list StreamChunk.t) : list StreamChunk.t :=
  match offered with
  | [] => []
  | chunk :: rest =>
      if StreamHandler.isTerminal chunk then [chunk] else chunk :: consumed rest
  end.

(** The line [createChunkedBody] enqueues for a chunk. *)
Definition serialized `{Platform} (chunk : StreamChunk.t) : string :=
  JSON_stringify (StreamHandler.chunkJson chunk) +:+ JsString.newline.

(** A chunk sequence that ends with its only terminal chunk. *)
Definition endsWithItsOnlyTerminal (cs : list StreamChunk.t) : Prop :=
  exists init terminal,
    cs = init ++ [terminal]
    /\ Forall (fun c => StreamHandler.isTerminal c = false) init
    /\ StreamHandler.isTerminal terminal = true.

(** [text] contains one of the [markers]. *)
Definition mentions (markers : list string) (text : string) : bool :=
  existsb (fun marker => JsString.includes marker text) markers.

(** The status of the error response for an [Error] whose message is
    [message], by marker groups tested in priority order on the lower-cased
    message: network, connection, timeout or econnrefused gives 503; else
    stream, pipe or closed gives 500; else unauthorized, forbidden or token
    gives 401; everything else 500. *)
Definition spec_expectedStatus (message : string) : Z :=
  let text := JsString.toLowerCase message in
  if mentions ["network"; "connection"; "timeout"; "econnrefused"] text then 503
  else if mentions ["stream"; "pipe"; "closed"] text then 500
  else if mentions ["unauthorized"; "forbidden"; "token"] text then 401
  else 500.

(** The same with the marker groups as the specification lists them: the
    network group is network, connection and timeout. *)
Definition claimedStatus (message : string) : Z :=
  let text := JsString.toLowerCase message in
  if mentions ["network"; "connection"; "timeout"] text then 503
  else if mentions ["stream"; "pipe"; "closed"] text then 500
  else if mentions ["unauthorized"; "forbidden"; "token"] text then 401
  else 500.

(** An operation that, when it throws, throws an [Error]. *)
Definition throwsErrorsOnly {T} (operation : M T) (w : world) : Prop :=
  forall e, result (operation w) = Raise e -> exists message, e = JsError message.

(** A platform whose [JSON.parse] and [fetch] reject with [Error] objects
    (a [SyntaxError], a [TypeError]). *)
Definition platformThrowsErrors (platform : Platform) : Prop :=
  (forall text e, JSON_parse text = Raise e -> exists message, e = JsError message)
  /\ (forall url body w e,
        result (fetch url body w) = Raise e -> exists message, e = JsError message).

(** The percentage as the specification words it: the index of the current
    phase in the ordered phase list over the number of phases, as a
    percentage (rounded down). *)
Definition spec_indexPercentage (build : Aws.Build) : Z :=
  match Monitor.indexOf (JsString.or_else (Aws.currentPhase build) "SUBMITTED")
          Monitor.phaseOrder with
  | Some index => (100 * Z.of_nat index) / Z.of_nat (length Monitor.phaseOrder)
  | None => 0
  end.

(** A polled build state: the phases in [earlier] are recorded as
    succeeded, the current phase is recorded without a status yet. *)
Definition polledState (current : string) (status : option string)
    (complete : bool) (earlier : list string) : Aws.Build :=
  Aws.MkBuild (Some "demo-build:1") (Some current) status (Some complete)
    (Some (((fun p => Aws.Phase (Some p) (Some "SUCCEEDED")) <$> earlier)
             ++ [Aws.Phase (Some current) None])).

Definition submittedState : Aws.Build :=
  polledState "SUBMITTED" None false [].

Definition buildingState : Aws.Build :=
  polledState "BUILD" None false ["SUBMITTED"].

Definition completedState : Aws.Build :=
  polledState "COMPLETED" (Some "SUCCEEDED") true ["SUBMITTED"; "BUILD"].

(** The same scenario for a build that records the five phases the build
    service module counts. *)
Definition buildingOfFive : Aws.Build :=
  polledState "BUILD" None false
    ["SUBMITTED"; "PROVISIONING"; "DOWNLOAD_SOURCE"].

Definition completedOfFive : Aws.Build :=
  polledState "COMPLETED" (Some "SUCCEEDED") true
    ["SUBMITTED"; "PROVISIONING"; "DOWNLOAD_SOURCE"; "BUILD"; "UPLOAD_ARTIFACTS"].

(** The COMPLETED state of a build that records all the phases CodeBuild
    goes through. *)
Definition completedOfAll : Aws.Build :=
  polledState "COMPLETED" (Some "SUCCEEDED") true
    [ "SUBMITTED"; "QUEUED"; "PROVISIONING"; "DOWNLOAD_SOURCE"; "INSTALL";
      "PRE_BUILD"; "BUILD"; "POST_BUILD"; "UPLOAD_ARTIFACTS"; "FINALIZING" ].

(** A state in the BUILD phase for which no phase is recorded. *)
Definition unrecordedBuildState : Aws.Build :=
  Aws.MkBuild (Some "demo-build:1") (Some "BUILD") None (Some false) None.

(** A build service client that knows the build being built. *)
Definition demoBuilds (buildId : string) : M (option (list Aws.Build)) :=
  ret (Some [buildingState]).

(** [s] does not contain the character [sep]. *)
Fixpoint freeOf (sep : ascii) (s : string) : bool :=
  match s with
  | EmptyString => true
  | String c r => negb (Ascii.eqb c sep) && freeOf sep r
  end.

(** A platform whose backend is down: [fetch] rejects as Node does. *)
Definition downPlatform : Platform :=
  {| JSON_stringify := fun _ => "<json>";
     JSON_parse := fun _ => Ret (JObj []);
     cognitoGetUser := fun _ => ret (Some "alice");
     fetch := fun _ _ => throw (JsError "connect ECONNREFUSED 127.0.0.1:8000") |}.

(** The deployment the simulated status query answers with when the clock
    reads [t]. *)
Definition simulatedDeployment (deploymentId : string) (t : Z) : Deployment.t :=
  Deployment.Build deploymentId ACTIVE "placeholder-image-uri"
    (DeploymentAuthConfig.Build (Some "placeholder-pool-id")
       (Some "placeholder-client-id") "us-east-1")
    (Some (Endpoint.Build
             ("https://" +:+ deploymentId
                +:+ ".agentcore-runtime.us-east-1.amazonaws.com")
             "streamable-http" true))
    (t - 60000) t.

(** The console line a step writes when [verbose] is set. *)
Definition logIf (verbose : bool) (line : string) : list event :=
  if verbose then [ConsoleLog line] else [].

(** The prerequisites check of the deploy step for given options. *)
Definition prerequisitesOf (options : Orchestrator.OrchestrationOptions)
  : RuntimeDeployment.PrerequisiteCheck :=
  RuntimeDeployment.checkPrerequisites
    (Some (Orchestrator.imageUri options))
    (Some (DeploymentConfig.authConfig
             (Orchestrator.prepareDeploymentConfig options))).

(** Modules for closed examples: the repository's, with a status query
    that reports the deployment as FAILED, or with a verifier that reports
    it as unhealthy. *)
Definition failingRuntimeModules : Orchestrator.RuntimeModules :=
  Orchestrator.Modules RuntimeDeployment.deployToRuntime
    (fun deploymentId =>
       ret (Deployment.Build deploymentId FAILED "registry/demo:1"
              (DeploymentAuthConfig.Build (Some "pool-1") (Some "client-1")
                 "us-east-1")
              (Some demoEndpoint) 0 0))
    Health.verifyDeployment
    Rollback.saveDeploymentToHistory
    Rollback.rollbackDeployment.

Definition unhealthyModules : Orchestrator.RuntimeModules :=
  Orchestrator.Modules RuntimeDeployment.deployToRuntime
    (fun deploymentId =>
       RuntimeDeployment.waitForDeployment deploymentId
         RuntimeDeployment.defaultTimeoutMs)
    (fun deployment region =>
       ret (Health.Verif false None
              (HealthStatus.Build false (Some "connection refused") 0) None))
    Rollback.saveDeploymentToHistory
    Rollback.rollbackDeployment.

(** The result of a run of the [try] block that reaches its end with the
    deployment [deployment]. *)
Definition successResultOf (options : Orchestrator.OrchestrationOptions)
    (deployment : Deployment.t) : DeploymentResult.t :=
  let authConfig :=
    DeploymentConfig.authConfig (Orchestrator.prepareDeploymentConfig options) in
  Results.createSuccessResult (Deployment.endpoint deployment) authConfig
    (ResourceInfo.Build
       (Some (Config.codebuildProject
                (Config.build (Orchestrator.config options))))
       (Some (Orchestrator.imageUri options))
       (DeploymentAuthConfig.cognitoUserPoolId authConfig)
       (DeploymentAuthConfig.cognitoClientId authConfig)
       (Endpoint.url <$> Deployment.endpoint deployment)).

(** The deployment that is saved and reported: the one the wait returned,
    with the endpoint of the verification when there is one. *)
Definition verifiedDeployment (deployed : Deployment.t)
    (verification : Health.Verification) : Deployment.t :=
  match Health.endpoint verification with
  | Some e => Deployment.with_endpoint deployed e
  | None => deployed
  end.

(** The console lines of the steps, in order. *)
Definition preparingLogs (verbose : bool) : list event :=
  logIf verbose "Preparing deployment configuration..."
    ++ logIf verbose "Deploying to Bedrock AgentCore Runtime...".

Definition waitingLog (verbose : bool) : list event :=
  logIf verbose "Waiting for deployment to complete...".

Definition verifyingLog (verbose : bool) : list event :=
  logIf verbose "Verifying deployment health...".

(** The deployment the deploy step submits in the environment [w]. *)
Definition submittedDeployment (config : DeploymentConfig.t) (w : world)
  : Deployment.t :=
  Deployment.Build
    (DeploymentConfig.projectName config +:+ "-"
       +:+ JsString.ofNumber (now w) +:+ "-"
       +:+ default "" (head (entropy w)))
    CREATING
    (DeploymentConfig.imageUri config)
    (DeploymentConfig.authConfig config)
    None (now w) (now w).

(** The error of the deploy step for a failed prerequisites check. *)
Definition prerequisitesNotMet (check : RuntimeDeployment.PrerequisiteCheck)
  : thrown :=
  JsError ("Deployment prerequisites not met. Missing: "
             +:+ JsString.join ", " (RuntimeDeployment.missing check)).

(** The two verdicts of the repository's verifier. *)
Definition healthyVerdict (endpoint : option Endpoint.t) (t : Z)
  : Health.Verification :=
  Health.Verif true endpoint
    (HealthStatus.Build true (Some "Service is healthy") t)
    (Some (Health.Access true "Endpoint is accessible and responding")).

Definition noEndpointVerdict (t : Z) : Health.Verification :=
  Health.Verif false None
    (HealthStatus.Build false
       (Some "No endpoint URL available for health check") t)
    None.

(** The chunk [streamResponse] yields for a decoded text when the clock
    reads [t]. *)
Definition dataChunk (t : Z) (text : string) : StreamChunk.t :=
  StreamChunk.Build ChunkData (PayloadText text) t.

(** The texts a decoder in state [state] gives for the values read, one
    per value, each decoded in the state the values before it left. *)
Fixpoint decoded `{TextDecoder} (state : decoderState) (values : list string)
  : list string :=
  match values with
  | [] => []
  | value :: rest =>
      let (text, state') := decode state value in
      text :: decoded state' rest
  end.

(** How the generator ends when the upstream body ends with [ending] and
    the clock reads [t]: with the 'end' chunk; with the 'error' chunk that
    carries the message of the read error; or, for a read error that is
    [null] or [undefined], with no chunk and a [TypeError]. *)
Definition generatorEnding (t : Z) (ending : ReadEnding)
  : StreamHandler.Generated :=
  match ending with
  | ReadDone =>
      StreamHandler.Yields [StreamChunk.Build ChunkEnd PayloadNull t] None
  | ReadFailed error =>
      match message_of error with
      | Ret message =>
          StreamHandler.Yields
            [StreamChunk.Build ChunkError (PayloadMessage message) t] None
      | Raise typeError => StreamHandler.Yields [] (Some typeError)
      end
  end.

(** The read error of the upstream body, if any, is [null] or
    [undefined]. *)
Definition failsWithoutValue (mcpResponse : Response.t) : bool :=
  match Response.body mcpResponse with
  | Some (Upstream _ (ReadFailed JsNull))
  | Some (Upstream _ (ReadFailed JsUndefined)) => true
  | _ => false
  end.

(** A decoder for bodies in ASCII: every byte is a character, so each value
    decodes to itself and nothing is kept between calls. *)
Definition asciiDecoder : TextDecoder :=
  {| decoderState := unit;
     freshDecoder := tt;
     decode := fun _ value => (value, tt) |}.

(** An upstream response whose body delivers one value and then fails to
    read with [undefined], as a stream does after [controller.error()]. *)
Definition brokenUpstream : Response.t :=
  Response.Build true 200 "OK" (Some (Upstream ["[1,"] (ReadFailed JsUndefined))).

(** An identity provider that rejects every token with [undefined]. *)
Definition silentPlatform : Platform :=
  {| JSON_stringify := fun _ => "<json>";
     JSON_parse := fun _ => Ret (JObj []);
     cognitoGetUser := fun _ => throw JsUndefined;
     fetch := fun _ _ =>
       ret (Response.Build true 200 "OK" (Some (Upstream [] ReadDone))) |}.

(** The headers of a streaming response. *)
Definition streamingHeaders : gmap string string :=
  list_to_map [ ("Content-Type", "application/json");
                ("Transfer-Encoding", "chunked");
                ("Cache-Control", "no-cache");
                ("Connection", "keep-alive") ].

(** The message [forwardRequest] throws for an upstream response that is
    not ok. *)
Definition upstreamError (response : Response.t) : string :=
  "MCP server returned error: "
    +:+ JsString.ofNumber (Response.status response) +:+ " "
    +:+ Response.statusText response.

(** Platforms for closed examples: a backend that answers 403, and a
    parser that rejects its input. *)
Definition forbiddingPlatform : Platform :=
  {| JSON_stringify := fun _ => "<json>";
     JSON_parse := fun _ => Ret (JObj []);
     cognitoGetUser := fun _ => ret (Some "alice");
     fetch := fun _ _ => ret (Response.Build false 403 "Forbidden" None) |}.


(** A CodeBuild client whose answer depends on the time of the request
    only: at time [t] the build is in the state [schedule t]. *)
Definition scheduledClient (schedule : Z -> Sdk.Build) (buildId : string)
  : M (option (list Sdk.Build)) :=
  fun w => Run (Ret (Some [schedule (now w)])) w [].

(** A progress callback that leaves the mark [mark progress] in the trace
    each time it is called. *)
Definition markingCallback (mark : BuildProgress.t -> event)
    (progress : BuildProgress.t) : M unit :=
  emit (mark progress).

(** The phase the monitor compares with the last one reported. *)
Definition reportedPhase (build : Sdk.Build) : string :=
  JsString.or_else (Sdk.currentPhase build) "SUBMITTED".

(** Sample builds: one that is running, and the same build once it has
    succeeded; and a schedule on which it completes after 10 seconds. *)
Definition runningBuild : Sdk.Build :=
  Sdk.MkBuild (Some "demo-build:1") (Some "BUILD") (Some "IN_PROGRESS")
    (Some false) None None None.

Definition finishedBuild : Sdk.Build :=
  Sdk.MkBuild (Some "demo-build:1") (Some "COMPLETED") (Some "SUCCEEDED")
    (Some true) None (Some "https://logs.example/demo-build")
    (Some [ Sdk.EnvVar (Some "IMAGE_REPO_NAME") (Some "demo-repo");
            Sdk.EnvVar (Some "IMAGE_TAG") (Some "latest");
            Sdk.EnvVar (Some "AWS_DEFAULT_REGION") (Some "us-east-1");
            Sdk.EnvVar (Some "AWS_ACCOUNT_ID") (Some "123456789012") ]).

Definition demoSchedule (t : Z) : Sdk.Build :=
  if t <? 1700000010000 then runningBuild else finishedBuild.

Definition progressMark (progress : BuildProgress.t) : event :=
  ConsoleLog (BuildProgress.phase progress).

(** A build that failed without any phase being recorded as failed, and
    one that failed in its BUILD phase. *)
Definition stoppedBuild : Sdk.Build :=
  Sdk.MkBuild (Some "demo-build:2") (Some "COMPLETED") (Some "STOPPED")
    (Some true)
    (Some [Sdk.Phase (Some "SUBMITTED") (Some "SUCCEEDED") (Some 0) None;
           Sdk.Phase (Some "BUILD") (Some "STOPPED") (Some 12) None])
    None None.

Definition brokenBuild : Sdk.Build :=
  Sdk.MkBuild (Some "demo-build:3") (Some "COMPLETED") (Some "FAILED")
    (Some true)
    (Some [Sdk.Phase (Some "SUBMITTED") (Some "SUCCEEDED") (Some 0) None;
           Sdk.Phase (Some "BUILD") (Some "FAILED") (Some 75)
             (Some [Sdk.PhaseCtx (Some "COMMAND_EXECUTION_ERROR")
                      (Some "docker build exited with status 1")])])
    None None.

(** A destination that accepts two values and then rejects. *)
Definition fullAfterTwo (accepted : list string) (value : string)
  : option thrown :=
  if (length accepted <? 2)%nat then None else Some (JsError "sink is full").

(** The number of context lines of a list of phases. *)
Definition contextCount (phases : list Sdk.BuildPhase) : nat :=
  sum_list_with (fun phase => length (default [] (Sdk.contexts phase))) phases.

(* ================================================================= *)
(** * Properties *)

(** ** Rollback manager *)

(** C2. For a deployment whose status is not FAILED, [rollbackDeployment]
    returns success=false with the message that rollback is not needed and
    an empty list of cleaned resources; nothing is emitted (neither
    [cleanupFailedDeployment] nor [restorePreviousVersion] is called) and
    the environment is left as it was. *)
Theorem rollback_guard_is_noop (deployment : Deployment.t) (projectName : string) (w : world) :
  Deployment.status deployment <> FAILED ->
  exists r,
    Rollback.rollbackDeployment deployment projectName w = Run (Ret r) w []
    /\ RollbackResult.success r = false
    /\ RollbackResult.message r = "Deployment has not failed, rollback not needed"
    /\ RollbackResult.cleanedResources r = []
    /\ RollbackResult.restoredVersion r = None
    /\ (forall id, CallCleanupFailedDeployment id ∉
          emitted (Rollback.rollbackDeployment deployment projectName w))
    /\ (forall h, CallRestorePreviousVersion h ∉
          emitted (Rollback.rollbackDeployment deployment projectName w)).
Proof.
  intros Hstatus.
  unfold Rollback.rollbackDeployment, Rollback.isDeploymentFailed.
  rewrite bool_decide_eq_false_2 by exact Hstatus. cbn [negb].
  eexists. split; [reflexivity |].
  cbn [ret emitted RollbackResult.success RollbackResult.message
       RollbackResult.cleanedResources RollbackResult.restoredVersion].
  repeat split; intros; apply not_elem_of_nil.
Qed.

Lemma rollback_guard_is_noop_witness :
  exists r,
    Rollback.rollbackDeployment activeDeployment "demo" world0
    = Run (Ret r) world0 []
    /\ RollbackResult.success r = false
    /\ RollbackResult.cleanedResources r = [].
Proof.
  destruct (rollback_guard_is_noop activeDeployment "demo" world0)
    as (r & Hrun & Hsuccess & _ & Hcleaned & _).
  - simpl. discriminate.
  - exists r. split; [exact Hrun |]. split; assumption.
Defined.

Lemma rollbackDeployment_returns (d : Deployment.t) (projectName : string) (w : world) :
  exists r, result (Rollback.rollbackDeployment d projectName w) = Ret r.
Proof.
  unfold Rollback.rollbackDeployment.
  destruct (negb (Rollback.isDeploymentFailed d)); [eexists; reflexivity |].
  eexists. reflexivity.
Qed.

Lemma source_rollbackReturns : rollbackReturns Orchestrator.sourceModules.
Proof. intros d p w. apply rollbackDeployment_returns. Qed.

(** ** Deployment orchestrator *)

Lemma createFailureResult_success (m : string) (info : option ResourceInfo.t) :
  DeploymentResult.success (Results.createFailureResult m info) = false.
Proof.
  unfold Results.createFailureResult, Results.createDeploymentResult. simpl.
  destruct (JsString.truthy m); reflexivity.
Qed.

Lemma createFailureResult_error (m : string) (info : option ResourceInfo.t) :
  m <> "" ->
  DeploymentResult.error (Results.createFailureResult m info)
  = Some (DeploymentError.Build "DEPLOYMENT_FAILED" m "DEPLOYING").
Proof.
  intros Hm.
  unfold Results.createFailureResult, Results.createDeploymentResult. simpl.
  unfold JsString.truthy.
  destruct (String.eqb_spec m ""); [contradiction | reflexivity].
Qed.

(** An [Error] with the empty message leaves the result without an error
    record: [errorMessage] is falsy in [createDeploymentResult]. *)
Lemma createFailureResult_empty (info : option ResourceInfo.t) :
  DeploymentResult.error (Results.createFailureResult "" info) = None.
Proof. reflexivity. Qed.

Section OrchestratorFacts.

Context {modules : Orchestrator.RuntimeModules}.

Import Orchestrator.

(** The run of the [catch] branch, in terms of the run of the rollback
    manager it calls. *)
Lemma handleFailure_run (options : OrchestrationOptions) (error : thrown) (w : world) :
  let fd := synthesized options (now w) in
  let name := projectName_of (config options) in
  let rb := rollbackDeployment fd name w in
  handleFailure options error w =
    match result rb with
    | Ret rr =>
        Run (Ret (Results.createFailureResult
                    (message_or error "Unknown deployment error")
                    (Some (failureResourceInfo options))))
            (final rb)
            (failureProlog options error
               ++ CallRollbackDeployment fd name :: emitted rb
               ++ failureEpilog options rr)
    | Raise e =>
        Run (Raise e) (final rb)
            (failureProlog options error
               ++ CallRollbackDeployment fd name :: emitted rb)
    end.
Proof.
  intros fd name rb. subst rb fd name.
  unfold handleFailure, failureProlog, failureEpilog, synthesized.
  unfold bind, call, emit, Date_now, when, ret.
  destruct (verbose options); cbn [app];
    destruct (rollbackDeployment _ _ w) as [[rr | e] w1 ev]; cbn [result final emitted app];
    rewrite ?app_nil_r; reflexivity.
Qed.

Lemma orchestrate_failure_run (options : OrchestrationOptions) (w : world) (error : thrown) :
  result (deploymentSteps options w) = Raise error ->
  orchestrateDeployment options w =
    Run (result (handleFailure options error (final (deploymentSteps options w))))
        (final (handleFailure options error (final (deploymentSteps options w))))
        (emitted (deploymentSteps options w)
           ++ emitted (handleFailure options error (final (deploymentSteps options w)))).
Proof.
  intros H. unfold orchestrateDeployment, try_catch.
  destruct (deploymentSteps options w) as [r w1 ev]. simpl in H. subst r.
  cbn [final emitted]. destruct (handleFailure options error w1); reflexivity.
Qed.

End OrchestratorFacts.

(** C1. Whenever a step of the [try] block fails (the deploy step, the
    wait, the FAILED status check, the health verification or the history
    write), [orchestrateDeployment] returns instead of raising, provided
    the rollback manager itself returns (the repository's does:
    [source_rollbackReturns]). The result has success=false; it is the
    failure result built from the failing step's error alone, so the
    rollback's outcome does not enter it; its error message is the
    message of the failing step's [Error] (a non-empty one: every message
    thrown by the repository's steps is non-empty,
    [source_steps_fail_with_message]); and [rollbackDeployment] is called,
    on a FAILED record, after the events of the failed steps and before
    the function returns. *)
Theorem orchestrate_failure_is_reported
    (modules : Orchestrator.RuntimeModules)
    (options : Orchestrator.OrchestrationOptions) (w : world) (error : thrown) :
  rollbackReturns modules ->
  result (Orchestrator.deploymentSteps options w) = Raise error ->
  exists r : DeploymentResult.t,
    result (Orchestrator.orchestrateDeployment options w) = Ret r
    /\ DeploymentResult.success r = false
    /\ (forall m, error = JsError m -> m <> "" ->
          DeploymentResult.error r
          = Some (DeploymentError.Build "DEPLOYMENT_FAILED" m "DEPLOYING"))
    /\ r = Results.createFailureResult
             (message_or error "Unknown deployment error")
             (Some (Orchestrator.failureResourceInfo options))
    /\ (exists (failed : Deployment.t) (before after : list event),
          Deployment.status failed = FAILED
          /\ emitted (Orchestrator.orchestrateDeployment options w)
             = emitted (Orchestrator.deploymentSteps options w) ++ before
                 ++ CallRollbackDeployment failed
                      (Orchestrator.projectName_of (Orchestrator.config options))
                    :: after).
Proof.
  intros Hrb Hsteps.
  rewrite (orchestrate_failure_run options w error Hsteps). simpl.
  rewrite handleFailure_run. simpl.
  set (w1 := final (Orchestrator.deploymentSteps options w)).
  destruct (Hrb (synthesized options (now w1))
                (Orchestrator.projectName_of (Orchestrator.config options)) w1)
    as [rr Hrr].
  rewrite Hrr. simpl.
  eexists. split; [reflexivity |].
  split; [apply createFailureResult_success |].
  split.
  - intros m -> Hm. simpl. apply createFailureResult_error. exact Hm.
  - split; [reflexivity |].
    exists (synthesized options (now w1)), (failureProlog options error).
    eexists. split; reflexivity.
Qed.

Lemma orchestrate_failure_is_reported_witness :
  exists r : DeploymentResult.t,
    result (@Orchestrator.orchestrateDeployment Orchestrator.sourceModules
              incompleteOptions world0) = Ret r
    /\ DeploymentResult.success r = false
    /\ DeploymentResult.error r
       = Some (DeploymentError.Build "DEPLOYMENT_FAILED"
                 "Deployment prerequisites not met. Missing: Cognito User Pool ID"
                 "DEPLOYING").
Proof.
  destruct (orchestrate_failure_is_reported Orchestrator.sourceModules
              incompleteOptions world0
              (JsError "Deployment prerequisites not met. Missing: Cognito User Pool ID")
              source_rollbackReturns eq_refl)
    as (r & Hr & Hs & Hm & _).
  exists r. split; [exact Hr |]. split; [exact Hs |].
  apply Hm; [reflexivity | discriminate].
Defined.

(** *** The repository's own steps *)

Lemma waitForDeployment_source_run (deploymentId : string) (w : world) :
  exists d,
    RuntimeDeployment.waitForDeployment deploymentId
      RuntimeDeployment.defaultTimeoutMs w = Run (Ret d) w []
    /\ Deployment.status d = ACTIVE
    /\ Deployment.id d = deploymentId
    /\ exists e, Deployment.endpoint d = Some e
                 /\ JsString.truthy (Endpoint.url e) = true.
Proof.
  unfold RuntimeDeployment.waitForDeployment, RuntimeDeployment.defaultTimeoutMs.
  change (Z.to_nat (300000 / 5000) + 1)%nat with 61%nat.
  unfold bind at 1. unfold Date_now at 1.
  cbn [RuntimeDeployment.waitForDeployment_loop].
  unfold bind at 1. unfold Date_now at 1.
  rewrite Z.sub_diag. change (0 <? 300000) with true. cbv iota beta.
  unfold RuntimeDeployment.getDeploymentStatus, bind, Date_now, ret.
  cbn [Deployment.status bool_decide decide_rel orb].
  eexists. split; [reflexivity |].
  cbn. repeat split. eexists. split; reflexivity.
Qed.

Lemma verifyDeployment_source_with_endpoint (d : Deployment.t) (e : Endpoint.t)
    (region : string) (w : world) :
  Deployment.endpoint d = Some e ->
  JsString.truthy (Endpoint.url e) = true ->
  exists v w', Health.verifyDeployment d region w = Run (Ret v) w' []
               /\ Health.healthy v = true
               /\ Health.endpoint v = Some e.
Proof.
  intros He Hurl.
  unfold Health.verifyDeployment, Health.verifyDeployment_with.
  rewrite He. cbn [fmap option_fmap option_map].
  unfold Health.performHealthCheck, Health.verifyEndpointAccessibility.
  unfold bind, try_catch. cbn [JsString.truthy_opt]. rewrite Hurl.
  cbn. do 2 eexists. repeat split.
Qed.

(** With the repository's modules the [try] block fails exactly when the
    deploy step finds prerequisites missing, and then with the message that
    lists them. *)
Lemma source_steps_run (options : Orchestrator.OrchestrationOptions) (w : world) :
  let check :=
    RuntimeDeployment.checkPrerequisites
      (Some (Orchestrator.imageUri options))
      (Some (DeploymentConfig.authConfig
               (Orchestrator.prepareDeploymentConfig options))) in
  if RuntimeDeployment.ready check then
    exists r, result (@Orchestrator.deploymentSteps Orchestrator.sourceModules
                        options w) = Ret r
              /\ DeploymentResult.success r = true
  else
    result (@Orchestrator.deploymentSteps Orchestrator.sourceModules options w)
    = Raise (JsError ("Deployment prerequisites not met. Missing: "
                        +:+ JsString.join ", " (RuntimeDeployment.missing check))).
Proof.
  intros check. subst check.
  unfold Orchestrator.deploymentSteps.
  cbn [Orchestrator.deployToRuntime Orchestrator.waitForDeployment
       Orchestrator.verifyDeployment Orchestrator.saveDeploymentToHistory
       Orchestrator.sourceModules].
  unfold RuntimeDeployment.deployToRuntime.
  cbn [DeploymentConfig.imageUri DeploymentConfig.authConfig
       Orchestrator.prepareDeploymentConfig].
  destruct (RuntimeDeployment.ready _) eqn:Hready; cbn [negb].
  - unfold RuntimeDeployment.generateDeploymentId.
    unfold bind, when, emit, ret, Date_now, Math_random_base36.
    destruct (Orchestrator.verbose options); destruct (entropy w) as [| s rest];
      cbn [app result final emitted now entropy connections Deployment.id].
    all: match goal with
         | |- context [RuntimeDeployment.waitForDeployment ?i ?t ?w0] =>
             destruct (waitForDeployment_source_run i w0)
               as (d & Hrun & Hst & Hid & e & He & Hurl); rewrite Hrun
         end.
    all: rewrite Hst; rewrite bool_decide_eq_false_2 by discriminate.
    all: cbv beta iota.
    all: match goal with
         | He : Deployment.endpoint ?d = Some ?e,
           Hurl : JsString.truthy (Endpoint.url ?e) = true
           |- context [Health.verifyDeployment ?d ?rg ?w0] =>
             destruct (verifyDeployment_source_with_endpoint d e rg w0 He Hurl)
               as (v & w' & Hv & Hh & Hep);
             rewrite Hv; cbv beta iota; rewrite Hh, Hep; cbn [negb]
         end.
    all: unfold Rollback.saveDeploymentToHistory, sleep, bind, emit, ret.
    all: cbn [app result final emitted].
    all: eexists; split; reflexivity.
  - unfold throw, bind, when, emit, ret.
    destruct (Orchestrator.verbose options); reflexivity.
Qed.

Lemma source_steps_fail_with_message
    (options : Orchestrator.OrchestrationOptions) (w : world) (error : thrown) :
  result (@Orchestrator.deploymentSteps Orchestrator.sourceModules options w)
  = Raise error ->
  exists m, error = JsError m /\ m <> "".
Proof.
  intros H. pose proof (source_steps_run options w) as Hrun. cbv zeta in Hrun.
  destruct (RuntimeDeployment.ready _).
  - destruct Hrun as (r & Hr & _). rewrite Hr in H. discriminate.
  - rewrite Hrun in H. injection H as <-.
    eexists. split; [reflexivity | discriminate].
Qed.

(** With the repository's modules [orchestrateDeployment] always returns. *)
Lemma source_orchestrate_returns
    (options : Orchestrator.OrchestrationOptions) (w : world) :
  exists r,
    result (@Orchestrator.orchestrateDeployment Orchestrator.sourceModules
              options w) = Ret r.
Proof.
  destruct (result (@Orchestrator.deploymentSteps Orchestrator.sourceModules
                      options w)) as [r | error] eqn:Hsteps.
  - exists r. unfold Orchestrator.orchestrateDeployment, try_catch.
    destruct (Orchestrator.deploymentSteps options w) as [r0 w1 ev].
    simpl in Hsteps. subst r0. reflexivity.
  - rewrite (orchestrate_failure_run options w error Hsteps). cbn [result].
    rewrite handleFailure_run. cbv zeta.
    destruct (source_rollbackReturns
                (synthesized options
                   (now (final (@Orchestrator.deploymentSteps
                                  Orchestrator.sourceModules options w))))
                (Orchestrator.projectName_of (Orchestrator.config options))
                (final (@Orchestrator.deploymentSteps
                          Orchestrator.sourceModules options w)))
      as [rr Hrr].
    rewrite Hrr. eexists. reflexivity.
Qed.

Example orchestrate_complete_options :
  exists r,
    result (@Orchestrator.orchestrateDeployment Orchestrator.sourceModules
              completeOptions world0) = Ret r
    /\ DeploymentResult.success r = true
    /\ Endpoint.url <$> DeploymentResult.endpoint r
       = Some "https://demo-1700000000000-k3x9q2.agentcore-runtime.us-east-1.amazonaws.com".
Proof. eexists. split; [vm_compute; reflexivity |]. split; reflexivity. Qed.

Example orchestrate_incomplete_options :
  emitted (@Orchestrator.orchestrateDeployment Orchestrator.sourceModules
             incompleteOptions world0)
  = [ ConsoleLog "Preparing deployment configuration...";
      ConsoleLog "Deploying to Bedrock AgentCore Runtime...";
      ConsoleError "Deployment failed: Deployment prerequisites not met. Missing: Cognito User Pool ID";
      ConsoleLog "Attempting rollback...";
      CallRollbackDeployment (synthesized incompleteOptions 1700000000000) "demo";
      CallCleanupFailedDeployment "failed-1700000000000";
      ConsoleRollbackReport
        (RollbackResult.Build true
           "Failed deployment cleaned up. No previous version to restore."
           [ "Deployment failed-1700000000000"; "Associated runtime resources" ]
           None) ].
Proof. vm_compute. reflexivity. Qed.

(** The rollback manager is called outside any [try]: were it to throw, its
    error would be the one that leaves [orchestrateDeployment]. *)
Lemma rollback_failure_escapes (modules : Orchestrator.RuntimeModules)
    (options : Orchestrator.OrchestrationOptions) (w : world) (error e : thrown) :
  result (Orchestrator.deploymentSteps options w) = Raise error ->
  result (Orchestrator.rollbackDeployment
            (synthesized options (now (final (Orchestrator.deploymentSteps options w))))
            (Orchestrator.projectName_of (Orchestrator.config options))
            (final (Orchestrator.deploymentSteps options w))) = Raise e ->
  result (Orchestrator.orchestrateDeployment options w) = Raise e.
Proof.
  intros Hsteps Hrb.
  rewrite (orchestrate_failure_run options w error Hsteps). cbn [result].
  rewrite handleFailure_run. cbv zeta. rewrite Hrb. reflexivity.
Qed.

(** C10. On every failing run the record handed to [rollbackDeployment] is
    the one synthesized in the [catch] branch from the options and the
    clock: status FAILED, id "failed-" followed by the clock reading, no
    endpoint. It is the same whatever the steps did or returned, so
    it is not the deployment submitted to the runtime. With the
    repository's rollback manager the guard [isDeploymentFailed] therefore
    passes and [cleanupFailedDeployment] is called with that id, also when
    the failure came before any deployment was created. *)
Theorem failing_run_rolls_back_synthesized_record
    (modules : Orchestrator.RuntimeModules)
    (options : Orchestrator.OrchestrationOptions) (w : world) (error : thrown) :
  Orchestrator.rollbackDeployment = Rollback.rollbackDeployment ->
  result (Orchestrator.deploymentSteps options w) = Raise error ->
  let t := now (final (Orchestrator.deploymentSteps options w)) in
  let failed := synthesized options t in
  Deployment.status failed = FAILED
  /\ Deployment.id failed = "failed-" +:+ JsString.ofNumber t
  /\ Deployment.endpoint failed = None
  /\ Deployment.imageUri failed = Orchestrator.imageUri options
  /\ Rollback.isDeploymentFailed failed = true
  /\ emitted (Orchestrator.orchestrateDeployment options w)
     = emitted (Orchestrator.deploymentSteps options w)
         ++ failureProlog options error
         ++ [ CallRollbackDeployment failed
                (Orchestrator.projectName_of (Orchestrator.config options));
              CallCleanupFailedDeployment ("failed-" +:+ JsString.ofNumber t) ]
         ++ failureEpilog options
              (RollbackResult.Build true
                 "Failed deployment cleaned up. No previous version to restore."
                 [ "Deployment " +:+ ("failed-" +:+ JsString.ofNumber t);
                   "Associated runtime resources" ]
                 None).
Proof.
  intros Hrb Hsteps t failed.
  repeat (split; [reflexivity |]).
  rewrite (orchestrate_failure_run options w error Hsteps). cbn [emitted].
  rewrite handleFailure_run. cbv zeta. rewrite Hrb.
  fold t. fold failed.
  unfold Rollback.rollbackDeployment.
  change (Rollback.isDeploymentFailed failed) with true. cbn [negb].
  unfold bind, call, Rollback.cleanupFailedDeployment, try_catch, bind, sleep,
    ret, Rollback.getPreviousStableVersion.
  cbn [result final emitted app]. reflexivity.
Qed.

Lemma failing_run_rolls_back_synthesized_record_witness :
  Rollback.isDeploymentFailed
    (synthesized incompleteOptions
       (now (final (@Orchestrator.deploymentSteps Orchestrator.sourceModules
                      incompleteOptions world0)))) = true
  /\ CallCleanupFailedDeployment "failed-1700000000000"
     ∈ emitted (@Orchestrator.orchestrateDeployment Orchestrator.sourceModules
                  incompleteOptions world0).
Proof.
  destruct (failing_run_rolls_back_synthesized_record Orchestrator.sourceModules
              incompleteOptions world0
              (JsError "Deployment prerequisites not met. Missing: Cognito User Pool ID")
              eq_refl eq_refl)
    as (_ & _ & _ & _ & Hguard & Hevents).
  split; [exact Hguard |].
  rewrite Hevents. vm_compute. do 6 constructor.
Defined.

(** ** Health verifier *)

Lemma createEndpoint_requires_active (d : Deployment.t) (region : string) (w : world) :
  Deployment.status d <> ACTIVE ->
  Health.createEndpoint d region w
  = Run (Raise (invalidState (Deployment.status d))) w [].
Proof.
  intros H. unfold Health.createEndpoint.
  rewrite bool_decide_eq_false_2 by exact H. reflexivity.
Qed.

(** What a run of [verifyDeployment] that returns went through. *)
Lemma verifyDeployment_with_inv
    (livenessProbe : string -> option string -> M HealthStatus.t)
    (accessibilityProbe : Endpoint.t -> M Health.AccessibilityCheck)
    (d : Deployment.t) (region : string) (w : world) (v : Health.Verification) :
  result (Health.verifyDeployment_with livenessProbe accessibilityProbe d region w)
  = Ret v ->
  exists hs w1 ev1,
    livenessProbe (Deployment.id d) (Endpoint.url <$> Deployment.endpoint d) w
    = Run (Ret hs) w1 ev1
    /\ ((HealthStatus.healthy hs = false /\ Health.healthy v = false)
        \/ (HealthStatus.healthy hs = true
            /\ exists e ac w2 ev2,
                 (Deployment.endpoint d = Some e
                  \/ (Deployment.endpoint d = None
                      /\ Deployment.status d = ACTIVE))
                 /\ accessibilityProbe e w1 = Run (Ret ac) w2 ev2
                 /\ Health.endpoint v = Some e
                 /\ Health.healthy v = Health.accessible ac)).
Proof.
  unfold Health.verifyDeployment_with, bind.
  destruct (livenessProbe _ _ w) as [[hs | e] w1 ev1]; [| discriminate].
  intros H. exists hs, w1, ev1. split; [reflexivity |].
  destruct (HealthStatus.healthy hs) eqn:Hhs; cbn [negb] in H.
  - right. split; [reflexivity |].
    destruct (Deployment.endpoint d) as [e |] eqn:Hep.
    + unfold ret in H at 1.
      destruct (accessibilityProbe e w1) as [[ac | e'] w2 ev2] eqn:Hac;
        [| discriminate].
      cbn in H. injection H as <-.
      exists e, ac, w2, ev2. repeat split; auto.
    + destruct (decide (Deployment.status d = ACTIVE)) as [Hactive | Hother].
      * unfold Health.createEndpoint in H.
        rewrite bool_decide_eq_true_2 in H by exact Hactive. cbn [negb] in H.
        unfold ret in H at 1.
        destruct (accessibilityProbe _ w1) as [[ac | e'] w2 ev2] eqn:Hac;
          [| discriminate].
        cbn in H. injection H as <-.
        do 4 eexists. split; [right; split; [reflexivity | exact Hactive] |].
        split; [exact Hac |]. split; reflexivity.
      * rewrite (createEndpoint_requires_active d region w1 Hother) in H.
        discriminate.
  - left. split; [reflexivity |]. cbn in H. injection H as <-. reflexivity.
Qed.

(** C5 fails as stated: a deployment that is not ACTIVE but already has an
    endpoint is verified as healthy, because the endpoint is reused and
    [createEndpoint] is never reached. *)
Lemma verify_reuses_endpoint_of_inactive_deployment :
  Deployment.status updatingDeployment <> ACTIVE
  /\ exists v,
       result (Health.verifyDeployment updatingDeployment "us-east-1" world0) = Ret v
       /\ Health.healthy v = true.
Proof.
  split; [discriminate |]. eexists. split; reflexivity.
Qed.

(** C5, amended. For a deployment that is not ACTIVE, [createEndpoint]
    throws the invalid-state error; [verifyDeployment] never returns
    healthy=true for a deployment that is not ACTIVE and has no endpoint
    yet; and for every deployment and every pair of probes,
    [verifyDeployment] returns healthy=true only if the liveness probe
    returned healthy and the accessibility probe returned accessible. *)
Theorem health_verifier_fails_closed :
  (forall d region w,
      Deployment.status d <> ACTIVE ->
      Health.createEndpoint d region w
      = Run (Raise (invalidState (Deployment.status d))) w [])
  /\ (forall livenessProbe accessibilityProbe d region w v,
        Deployment.status d <> ACTIVE ->
        Deployment.endpoint d = None ->
        result (Health.verifyDeployment_with livenessProbe accessibilityProbe
                  d region w) = Ret v ->
        Health.healthy v = false)
  /\ (forall livenessProbe accessibilityProbe d region w v,
        result (Health.verifyDeployment_with livenessProbe accessibilityProbe
                  d region w) = Ret v ->
        Health.healthy v = true ->
        exists hs w1 ev1 e ac w2 ev2,
          livenessProbe (Deployment.id d)
            (Endpoint.url <$> Deployment.endpoint d) w = Run (Ret hs) w1 ev1
          /\ HealthStatus.healthy hs = true
          /\ accessibilityProbe e w1 = Run (Ret ac) w2 ev2
          /\ Health.accessible ac = true).
Proof.
  split; [exact createEndpoint_requires_active |]. split.
  - intros lp ap d region w v Hstatus Hnone Hrun.
    destruct (verifyDeployment_with_inv lp ap d region w v Hrun)
      as (hs & w1 & ev1 & _ & [[_ Hv] | [_ (e & ac & w2 & ev2 & Hwhere & _)]]).
    + exact Hv.
    + destruct Hwhere as [Hsome | [_ Hactive]]; congruence.
  - intros lp ap d region w v Hrun Hhealthy.
    destruct (verifyDeployment_with_inv lp ap d region w v Hrun)
      as (hs & w1 & ev1 & Hlp & [[_ Hv] | [Hhs (e & ac & w2 & ev2 & _ & Hap & _ & Hv)]]).
    + congruence.
    + exists hs, w1, ev1, e, ac, w2, ev2. repeat split; auto. congruence.
Qed.

Lemma health_verifier_fails_closed_witness :
  Health.createEndpoint failedDeployment "us-east-1" world0
  = Run (Raise (JsError
      "Cannot create endpoint for deployment in FAILED state. Deployment must be ACTIVE."))
      world0 []
  /\ forall v,
       result (Health.verifyDeployment failedDeployment "us-east-1" world0) = Ret v ->
       Health.healthy v = false.
Proof.
  destruct health_verifier_fails_closed as (Hcreate & Hverify & _).
  split.
  - apply (Hcreate failedDeployment "us-east-1" world0). discriminate.
  - intros v Hv.
    apply (Hverify Health.performHealthCheck Health.verifyEndpointAccessibility
             failedDeployment "us-east-1" world0 v);
      [discriminate | reflexivity | exact Hv].
Defined.

(** ** Strings *)

Example split_two_parts : JsString.split " " "Bearer abc" = ["Bearer"; "abc"].
Proof. reflexivity. Qed.

Example split_double_space : JsString.split " " "a  b" = ["a"; ""; "b"].
Proof. reflexivity. Qed.

Example split_empty : JsString.split " " "" = [""].
Proof. reflexivity. Qed.

Example includes_inside : JsString.includes "token" "bad token given" = true.
Proof. reflexivity. Qed.

Example toLowerCase_mixed : JsString.toLowerCase "ECONNREFUSED 127.0.0.1" = "econnrefused 127.0.0.1".
Proof. reflexivity. Qed.

Lemma split_freeOf (sep : ascii) (s : string) :
  freeOf sep s = true -> JsString.split sep s = [s].
Proof.
  induction s as [| c r IH]; [reflexivity |].
  cbn [freeOf JsString.split]. intros H.
  apply andb_true_iff in H as [Hc Hr].
  apply negb_true_iff in Hc. rewrite Hc, (IH Hr). reflexivity.
Qed.

Lemma split_app (sep : ascii) (a b : string) :
  freeOf sep a = true ->
  JsString.split sep (a +:+ String sep b) = a :: JsString.split sep b.
Proof.
  induction a as [| c r IH]; intros H.
  - change ("" +:+ String sep b) with (String sep b).
    cbn [JsString.split]. rewrite Ascii.eqb_refl. reflexivity.
  - cbn [freeOf] in H. apply andb_true_iff in H as [Hc Hr].
    apply negb_true_iff in Hc.
    change (String c r +:+ String sep b) with (String c (r +:+ String sep b)).
    cbn [JsString.split]. rewrite Hc, (IH Hr). reflexivity.
Qed.

(** ** Auth middleware and request handler *)

(** A well-formed value under one of the two keys that are looked up gives
    the token. *)
Lemma extractToken_bearer (headers : gmap string string) (token : string) :
  freeOf " " token = true ->
  authorizationValue headers = Some ("Bearer " +:+ token) ->
  AuthMiddleware.extractToken headers = Some token.
Proof.
  intros Hfree Hvalue. unfold AuthMiddleware.extractToken.
  unfold authorizationValue in Hvalue. rewrite Hvalue.
  change ("Bearer " +:+ token) with ("Bearer" +:+ String " " token).
  rewrite (split_app " " "Bearer" token eq_refl), (split_freeOf _ _ Hfree).
  reflexivity.
Qed.

Lemma extractToken_rejected (headers : gmap string string) :
  rejectedHeaders headers -> AuthMiddleware.extractToken headers = None.
Proof.
  intros [Hnone | value Hvalue Hscheme | value Hvalue Hparts];
    unfold AuthMiddleware.extractToken.
  - unfold authorizationValue in Hnone. rewrite Hnone. reflexivity.
  - unfold authorizationValue in Hvalue. rewrite Hvalue.
    destruct (JsString.truthy value); [| reflexivity]. cbn [negb].
    rewrite (bool_decide_eq_false_2 _ Hscheme). cbn [negb].
    rewrite orb_true_r. reflexivity.
  - unfold authorizationValue in Hvalue. rewrite Hvalue.
    destruct (JsString.truthy value); [| reflexivity]. cbn [negb].
    rewrite (bool_decide_eq_false_2 _ Hparts). reflexivity.
Qed.


Section GatewayFacts.

Context {platform : Platform}.

Lemma validateRequest_rejected (headers : gmap string string) (w : world) :
  AuthMiddleware.extractToken headers = None ->
  AuthMiddleware.validateRequest headers w = Run (Ret missingOrInvalid) w [].
Proof.
  intros H. unfold AuthMiddleware.validateRequest. rewrite H. reflexivity.
Qed.

Lemma handleRequest_rejected (handler : StreamableHttpHandler.HttpHandlerConfig)
    (request : IncomingRequest.t) (w : world) :
  AuthMiddleware.extractToken (IncomingRequest.headers request) = None ->
  StreamableHttpHandler.handleRequest handler request w
  = Run (Ret (AuthMiddleware.createUnauthorizedResponse
                "Missing or invalid Authorization header")) w [].
Proof.
  intros H.
  unfold StreamableHttpHandler.handleRequest,
    TransmissionErrorHandler.withErrorHandling,
    StreamableHttpHandler.handleOperation.
  unfold bind, try_catch.
  rewrite (validateRequest_rejected _ w H). reflexivity.
Qed.

End GatewayFacts.

Example handleRequest_valid_token :
  exists response,
    @StreamableHttpHandler.handleRequest demoPlatform demoHandler
      (requestWith {[ "authorization" := "Bearer good-token" ]}) world0
    = Run (Ret response)
          (World 1700000000000 ["k3x9q2"] {[ "http://127.0.0.1:8000/mcp" := true ]})
          [CallForwardRequest "http://127.0.0.1:8000/mcp"]
    /\ StreamableResponse.status response = 200
    /\ StreamableResponse.body response
       = BodyStream (Upstream ["[1,"; "2]"] ReadDone).
Proof. eexists. split; [vm_compute; reflexivity |]. split; reflexivity. Qed.

Example handleRequest_expired_token :
  exists response,
    @StreamableHttpHandler.handleRequest demoPlatform demoHandler
      (requestWith {[ "Authorization" := "Bearer stale-token" ]}) world0
    = Run (Ret response) world0 []
    /\ StreamableResponse.status response = 401
    /\ response
       = @AuthMiddleware.createUnauthorizedResponse demoPlatform
           "Access Token has expired".
Proof. eexists. split; [vm_compute; reflexivity |]. split; reflexivity. Qed.

Example handleRequest_backend_down :
  exists response,
    result (@StreamableHttpHandler.handleRequest downPlatform demoHandler
              (requestWith {[ "authorization" := "Bearer good-token" ]}) world0)
    = Ret response
    /\ StreamableResponse.status response = 503
    /\ emitted (@StreamableHttpHandler.handleRequest downPlatform demoHandler
                  (requestWith {[ "authorization" := "Bearer good-token" ]}) world0)
       = [CallForwardRequest "http://127.0.0.1:8000/mcp"].
Proof. eexists. split; [vm_compute; reflexivity |]. split; reflexivity. Qed.

(** C3. A request whose headers have no Authorization entry, whose
    Authorization value does not start with the part "Bearer", or whose
    Authorization value does not consist of exactly two space-separated
    parts, is answered with status 401 and the header
    [WWW-Authenticate: Bearer]. The three shapes give one and the same
    validation failure, nothing is emitted and the environment is
    untouched: [forwardRequest] is not called. *)
Theorem rejected_request_gets_401 (platform : Platform)
    (handler : StreamableHttpHandler.HttpHandlerConfig)
    (request : IncomingRequest.t) (w : world) :
  rejectedHeaders (IncomingRequest.headers request) ->
  exists response,
    StreamableHttpHandler.handleRequest handler request w = Run (Ret response) w []
    /\ StreamableResponse.status response = 401
    /\ StreamableResponse.headers response !! "WWW-Authenticate" = Some "Bearer"
    /\ AuthMiddleware.validateRequest (IncomingRequest.headers request) w
       = Run (Ret missingOrInvalid) w []
    /\ forall url,
         CallForwardRequest url
         ∉ emitted (StreamableHttpHandler.handleRequest handler request w).
Proof.
  intros Hrejected.
  pose proof (extractToken_rejected _ Hrejected) as Htoken.
  pose proof (handleRequest_rejected handler request w Htoken) as Hrun.
  eexists. split; [exact Hrun |].
  split; [reflexivity |].
  split; [reflexivity |].
  split; [apply validateRequest_rejected; exact Htoken |].
  intros url. rewrite Hrun. apply not_elem_of_nil.
Qed.

Lemma rejected_request_gets_401_witness :
  exists response,
    @StreamableHttpHandler.handleRequest demoPlatform demoHandler
      (requestWith {[ "Authorization" := "Basic dXNlcjpwdw==" ]}) world0
    = Run (Ret response) world0 []
    /\ StreamableResponse.status response = 401.
Proof.
  destruct (rejected_request_gets_401 demoPlatform demoHandler
              (requestWith {[ "Authorization" := "Basic dXNlcjpwdw==" ]}) world0)
    as (response & Hrun & Hstatus & _).
  - apply (NotBearerScheme _ "Basic dXNlcjpwdw=="); [reflexivity | discriminate].
  - exists response. split; [exact Hrun | exact Hstatus].
Defined.




(** ** Stream handler *)

Lemma endsWithItsOnlyTerminal_cons (c : StreamChunk.t) (cs : list StreamChunk.t) :
  StreamHandler.isTerminal c = false ->
  endsWithItsOnlyTerminal cs -> endsWithItsOnlyTerminal (c :: cs).
Proof.
  intros Hc (init & terminal & -> & Hinit & Hterminal).
  exists (c :: init), terminal. repeat split; auto.
Qed.

Lemma endsWithItsOnlyTerminal_single (c : StreamChunk.t) :
  StreamHandler.isTerminal c = true -> endsWithItsOnlyTerminal [c].
Proof. intros Hc. exists [], c. repeat split; auto. Qed.

Lemma endsWithItsOnlyTerminal_after (init cs : list StreamChunk.t) :
  Forall (fun c => StreamHandler.isTerminal c = false) init ->
  endsWithItsOnlyTerminal cs -> endsWithItsOnlyTerminal (init ++ cs).
Proof.
  intros Hinit Hcs. induction Hinit as [| c init Hc _ IH]; [exact Hcs |].
  apply endsWithItsOnlyTerminal_cons; assumption.
Qed.

Lemma dataChunks_not_terminal (t : Z) (texts : list string) :
  Forall (fun c => StreamHandler.isTerminal c = false) (dataChunk t <$> texts).
Proof. induction texts; constructor; [reflexivity | assumption]. Qed.

Lemma filter_not_terminal (cs : list StreamChunk.t) :
  Forall (fun c => StreamHandler.isTerminal c = false) cs ->
  List.filter StreamHandler.isTerminal cs = [].
Proof.
  induction 1 as [| c cs Hc _ IH]; [reflexivity |].
  simpl. rewrite Hc. exact IH.
Qed.

Section ReadLoop.

Context {decoder : TextDecoder}.

(** The read loop returns, whatever is still pending: it has yielded one
    data chunk per pending value, with the decoded text, and then ended as
    the upstream body ends. *)
Lemma readLoop_run (state : decoderState) (pending : list string)
    (ending : ReadEnding) (w : world) :
  StreamHandler.readLoop state pending ending w
  = Run (Ret (StreamHandler.Yields
                ((dataChunk (now w) <$> decoded state pending)
                   ++ StreamHandler.yielded (generatorEnding (now w) ending))
                (StreamHandler.thrownAfter (generatorEnding (now w) ending))))
        w [].
Proof.
  revert state. induction pending as [| value rest IH]; intros state.
  - destruct ending as [| [message | repr | |]]; reflexivity.
  - cbn [StreamHandler.readLoop decoded].
    destruct (decode state value) as [text state'].
    unfold bind, Date_now at 1. rewrite IH. reflexivity.
Qed.

End ReadLoop.

(** A read error that is neither [null] nor [undefined] has a [message]
    to read (possibly [undefined]). *)
Lemma generatorEnding_terminal (t : Z) (ending : ReadEnding) :
  ending <> ReadFailed JsNull -> ending <> ReadFailed JsUndefined ->
  exists terminal,
    generatorEnding t ending = StreamHandler.Yields [terminal] None
    /\ StreamHandler.isTerminal terminal = true.
Proof.
  intros Hnull Hundefined.
  destruct ending as [| [message | repr | |]]; try congruence;
    eexists; split; reflexivity.
Qed.

Lemma generatorEnding_throws (t : Z) (ending : ReadEnding) :
  ending = ReadFailed JsNull \/ ending = ReadFailed JsUndefined ->
  exists typeError,
    generatorEnding t ending = StreamHandler.Yields [] (Some (JsError typeError)).
Proof. intros [-> | ->]; eexists; reflexivity. Qed.

Lemma terminal_count (cs : list StreamChunk.t) :
  endsWithItsOnlyTerminal cs ->
  length (List.filter StreamHandler.isTerminal cs) = 1%nat
  /\ exists terminal, last cs = Some terminal
                      /\ StreamHandler.isTerminal terminal = true.
Proof.
  intros (init & terminal & -> & Hinit & Hterminal). split.
  - rewrite List.filter_app, (filter_not_terminal init Hinit).
    simpl. rewrite Hterminal. reflexivity.
  - exists terminal. split; [apply last_snoc | exact Hterminal].
Qed.

Section ChunkedBody.

Context {platform : Platform}.

(** [createChunkedBody] enqueues the serialisation of the chunks it takes.
    It closes exactly when it has taken a terminal chunk; otherwise the
    stream is put in error when the iterator throws, and left open when
    the iterator just ends. *)
Lemma enqueueLoop_consumed (offered : list StreamChunk.t)
    (thrownAfter : option thrown) :
  StreamHandler.enqueueLoop offered thrownAfter
  = StreamHandler.Client (serialized <$> consumed offered)
      (if existsb StreamHandler.isTerminal offered then StreamHandler.StreamClosed
       else match thrownAfter with
            | Some error => StreamHandler.StreamErrored error
            | None => StreamHandler.StreamOpen
            end).
Proof.
  induction offered as [| c rest IH].
  - destruct thrownAfter; reflexivity.
  - cbn [StreamHandler.enqueueLoop consumed existsb].
    destruct (StreamHandler.isTerminal c); [reflexivity |].
    rewrite IH. reflexivity.
Qed.

(** What is taken is a prefix of what is offered, and a terminal chunk that
    is taken is the last one taken. *)
Lemma consumed_prefix (offered : list StreamChunk.t) :
  exists rest, offered = consumed offered ++ rest.
Proof.
  induction offered as [| c rest [tail IH]]; [exists []; reflexivity |].
  cbn [consumed].
  destruct (StreamHandler.isTerminal c).
  - exists rest. reflexivity.
  - exists tail. simpl. rewrite <- IH. reflexivity.
Qed.

Lemma consumed_stops_at_terminal (offered before after : list StreamChunk.t)
    (c : StreamChunk.t) :
  consumed offered = before ++ c :: after ->
  StreamHandler.isTerminal c = true -> after = [].
Proof.
  revert before. induction offered as [| x rest IH]; intros before Heq Hc.
  - destruct before; discriminate.
  - cbn [consumed] in Heq.
    destruct (StreamHandler.isTerminal x) eqn:Hx.
    + destruct before as [| b before].
      * injection Heq as _ <-. reflexivity.
      * injection Heq as _ Heq. destruct before; discriminate.
    + destruct before as [| b before].
      * injection Heq as -> _. congruence.
      * injection Heq as _ Heq. apply (IH before); assumption.
Qed.

Lemma consumed_well_terminated (cs : list StreamChunk.t) :
  endsWithItsOnlyTerminal cs ->
  consumed cs = cs /\ existsb StreamHandler.isTerminal cs = true.
Proof.
  intros (init & terminal & -> & Hinit & Hterminal).
  induction Hinit as [| c init Hc _ IH].
  - simpl. rewrite Hterminal. split; reflexivity.
  - simpl. rewrite Hc. destruct IH as [-> ->]. split; reflexivity.
Qed.

Lemma consumed_without_terminal (cs : list StreamChunk.t) :
  Forall (fun c => StreamHandler.isTerminal c = false) cs ->
  consumed cs = cs /\ existsb StreamHandler.isTerminal cs = false.
Proof.
  induction 1 as [| c cs Hc _ [IHc IHe]]; [split; reflexivity |].
  simpl. rewrite Hc, IHc, IHe. split; reflexivity.
Qed.

End ChunkedBody.

(** C4. For every upstream response, [streamResponse] yields finitely many
    chunks. Unless the read of the body fails with [null] or [undefined],
    the generator ends normally and the chunks contain exactly one
    terminal chunk ('end' or 'error'), which is the last, and
    [createChunkedBody] enqueues the serialisation of every chunk and
    closes the stream. When the read fails with [null] or [undefined], the
    [catch] throws while it reads [error.message]: the chunks yielded
    contain no terminal chunk, the generator throws a [TypeError], and
    [createChunkedBody] puts the client stream in error instead of closing
    it. Whatever an iterator offers, [createChunkedBody] takes nothing
    after the first terminal chunk and closes exactly when it takes one. *)
Theorem streamResponse_terminal_chunk (platform : Platform)
    (decoder : TextDecoder) (request : IncomingRequest.t)
    (mcpResponse : Response.t) (w : world) :
  exists generated,
    StreamHandler.streamResponse request mcpResponse w
    = Run (Ret generated) w []
    /\ (if failsWithoutValue mcpResponse then
          List.filter StreamHandler.isTerminal (StreamHandler.yielded generated)
          = []
          /\ exists typeError,
               StreamHandler.thrownAfter generated = Some (JsError typeError)
               /\ StreamHandler.createChunkedBody generated
                  = StreamHandler.Client
                      (serialized <$> StreamHandler.yielded generated)
                      (StreamHandler.StreamErrored (JsError typeError))
        else
          StreamHandler.thrownAfter generated = None
          /\ length (List.filter StreamHandler.isTerminal
                       (StreamHandler.yielded generated)) = 1%nat
          /\ (exists terminal,
                last (StreamHandler.yielded generated) = Some terminal
                /\ (StreamChunk.type terminal = ChunkEnd
                    \/ StreamChunk.type terminal = ChunkError))
          /\ StreamHandler.createChunkedBody generated
             = StreamHandler.Client
                 (serialized <$> StreamHandler.yielded generated)
                 StreamHandler.StreamClosed)
    /\ forall offered thrownAfter,
         StreamHandler.enqueued
           (StreamHandler.createChunkedBody
              (StreamHandler.Yields offered thrownAfter))
         = serialized <$> consumed offered
         /\ (StreamHandler.state
               (StreamHandler.createChunkedBody
                  (StreamHandler.Yields offered thrownAfter))
             = StreamHandler.StreamClosed
             <-> existsb StreamHandler.isTerminal offered = true)
         /\ (exists rest, offered = consumed offered ++ rest)
         /\ (forall before c after,
               consumed offered = before ++ c :: after ->
               StreamHandler.isTerminal c = true -> after = []).
Proof.
  assert (Htaken : forall offered thrownAfter,
             StreamHandler.enqueued
               (StreamHandler.createChunkedBody
                  (StreamHandler.Yields offered thrownAfter))
             = serialized <$> consumed offered
             /\ (StreamHandler.state
                   (StreamHandler.createChunkedBody
                      (StreamHandler.Yields offered thrownAfter))
                 = StreamHandler.StreamClosed
                 <-> existsb StreamHandler.isTerminal offered = true)
             /\ (exists rest, offered = consumed offered ++ rest)
             /\ (forall before c after,
                   consumed offered = before ++ c :: after ->
                   StreamHandler.isTerminal c = true -> after = [])).
  { intros offered thrownAfter. unfold StreamHandler.createChunkedBody.
    cbn [StreamHandler.yielded StreamHandler.thrownAfter].
    rewrite enqueueLoop_consumed.
    cbn [StreamHandler.enqueued StreamHandler.state].
    split; [reflexivity |]. split.
    - destruct (existsb StreamHandler.isTerminal offered);
        [split; reflexivity |].
      destruct thrownAfter; split; discriminate.
    - split; [apply consumed_prefix |].
      intros before c after. apply consumed_stops_at_terminal. }
  unfold StreamHandler.streamResponse, failsWithoutValue.
  destruct (Response.body mcpResponse) as [[values finish] |].
  2: { eexists. split; [reflexivity |]. split; [| exact Htaken].
       cbn. repeat split; auto. eexists. split; [reflexivity | auto]. }
  cbn [chunks]. change (ending (Upstream values finish)) with finish.
  rewrite readLoop_run. eexists. split; [reflexivity |].
  split; [| exact Htaken].
  cbn [StreamHandler.yielded StreamHandler.thrownAfter].
  unfold StreamHandler.createChunkedBody.
  cbn [StreamHandler.yielded StreamHandler.thrownAfter].
  rewrite enqueueLoop_consumed.
  pose proof (dataChunks_not_terminal (now w) (decoded freshDecoder values))
    as Hdata.
  assert (Hthrows : finish = ReadFailed JsNull \/ finish = ReadFailed JsUndefined ->
            List.filter StreamHandler.isTerminal
              ((dataChunk (now w) <$> decoded freshDecoder values)
                 ++ StreamHandler.yielded (generatorEnding (now w) finish)) = []
            /\ exists typeError,
                 StreamHandler.thrownAfter (generatorEnding (now w) finish)
                 = Some (JsError typeError)
                 /\ StreamHandler.Client
                      (serialized
                         <$> consumed
                               ((dataChunk (now w) <$> decoded freshDecoder values)
                                  ++ StreamHandler.yielded
                                       (generatorEnding (now w) finish)))
                      (if existsb StreamHandler.isTerminal
                            ((dataChunk (now w) <$> decoded freshDecoder values)
                               ++ StreamHandler.yielded
                                    (generatorEnding (now w) finish))
                       then StreamHandler.StreamClosed
                       else match StreamHandler.thrownAfter
                                    (generatorEnding (now w) finish) with
                            | Some error => StreamHandler.StreamErrored error
                            | None => StreamHandler.StreamOpen
                            end)
                    = StreamHandler.Client
                        (serialized
                           <$> (dataChunk (now w) <$> decoded freshDecoder values)
                                 ++ StreamHandler.yielded
                                      (generatorEnding (now w) finish))
                        (StreamHandler.StreamErrored (JsError typeError))).
  { intros Hending.
    destruct (generatorEnding_throws (now w) finish Hending) as [typeError ->].
    cbn [StreamHandler.yielded StreamHandler.thrownAfter]. rewrite app_nil_r.
    split; [apply filter_not_terminal; exact Hdata |].
    exists typeError. split; [reflexivity |].
    destruct (consumed_without_terminal _ Hdata) as [-> ->]. reflexivity. }
  assert (Hends : finish <> ReadFailed JsNull -> finish <> ReadFailed JsUndefined ->
            StreamHandler.thrownAfter (generatorEnding (now w) finish) = None
            /\ length (List.filter StreamHandler.isTerminal
                         ((dataChunk (now w) <$> decoded freshDecoder values)
                            ++ StreamHandler.yielded
                                 (generatorEnding (now w) finish))) = 1%nat
            /\ (exists terminal,
                  last ((dataChunk (now w) <$> decoded freshDecoder values)
                          ++ StreamHandler.yielded
                               (generatorEnding (now w) finish)) = Some terminal
                  /\ (StreamChunk.type terminal = ChunkEnd
                      \/ StreamChunk.type terminal = ChunkError))
            /\ StreamHandler.Client
                 (serialized
                    <$> consumed
                          ((dataChunk (now w) <$> decoded freshDecoder values)
                             ++ StreamHandler.yielded
                                  (generatorEnding (now w) finish)))
                 (if existsb StreamHandler.isTerminal
                       ((dataChunk (now w) <$> decoded freshDecoder values)
                          ++ StreamHandler.yielded
                               (generatorEnding (now w) finish))
                  then StreamHandler.StreamClosed
                  else match StreamHandler.thrownAfter
                               (generatorEnding (now w) finish) with
                       | Some error => StreamHandler.StreamErrored error
                       | None => StreamHandler.StreamOpen
                       end)
               = StreamHandler.Client
                   (serialized
                      <$> (dataChunk (now w) <$> decoded freshDecoder values)
                            ++ StreamHandler.yielded
                                 (generatorEnding (now w) finish))
                   StreamHandler.StreamClosed).
  { intros Hnull Hundefined.
    destruct (generatorEnding_terminal (now w) finish Hnull Hundefined)
      as (terminal & -> & Hterminal).
    cbn [StreamHandler.yielded StreamHandler.thrownAfter].
    assert (Hshape : endsWithItsOnlyTerminal
                       ((dataChunk (now w) <$> decoded freshDecoder values)
                          ++ [terminal])).
    { apply endsWithItsOnlyTerminal_after; [exact Hdata |].
      apply endsWithItsOnlyTerminal_single. exact Hterminal. }
    destruct (terminal_count _ Hshape) as (Hcount & last & Hlast & Hlt).
    split; [reflexivity |]. split; [exact Hcount |]. split.
    - exists last. split; [exact Hlast |].
      unfold StreamHandler.isTerminal in Hlt.
      destruct (StreamChunk.type last); auto; discriminate.
    - destruct (consumed_well_terminated _ Hshape) as [-> ->]. reflexivity. }
  destruct finish as [| [message | repr | |]].
  - apply Hends; discriminate.
  - apply Hends; discriminate.
  - apply Hends; discriminate.
  - apply Hthrows. left. reflexivity.
  - apply Hthrows. right. reflexivity.
Qed.

(** At an upstream body that delivers one value and then fails to read
    with [undefined], [streamResponse] yields the 'data' chunk and no
    terminal chunk, then throws. *)
Lemma stream_without_terminal_chunk :
  exists generated,
    @StreamHandler.streamResponse asciiDecoder (requestWith ∅) brokenUpstream
      world0 = Run (Ret generated) world0 []
    /\ StreamHandler.yielded generated = [dataChunk 1700000000000 "[1,"]
    /\ List.filter StreamHandler.isTerminal (StreamHandler.yielded generated)
       = []
    /\ StreamHandler.thrownAfter generated
       = Some (JsError "Cannot read properties of undefined (reading 'message')")
    /\ StreamHandler.state (@StreamHandler.createChunkedBody demoPlatform generated)
       = StreamHandler.StreamErrored
           (JsError "Cannot read properties of undefined (reading 'message')").
Proof.
  destruct (streamResponse_terminal_chunk demoPlatform asciiDecoder
              (requestWith ∅) brokenUpstream world0)
    as (generated & Hrun & Hcases & _).
  exists generated. split; [exact Hrun |].
  change (failsWithoutValue brokenUpstream) with true in Hcases. cbv iota in Hcases.
  destruct Hcases as (Hnone & typeError & Hthrown & Hbody).
  assert (Hg : Run (Ret generated) world0 []
               = Run (Ret (StreamHandler.Yields [dataChunk 1700000000000 "[1,"]
                             (Some (JsError
                                "Cannot read properties of undefined (reading 'message')"))))
                     world0 []).
  { rewrite <- Hrun. reflexivity. }
  injection Hg as Hg. subst generated.
  split; [reflexivity |]. split; [exact Hnone |].
  split; [reflexivity |]. reflexivity.
Defined.

(** ** Transmission error handler *)

(** The marker tests of [categorizeError], group by group. *)
Lemma marker_groups (text : string) :
  TransmissionErrorHandler.isNetworkMessage text
  = mentions ["network"; "connection"; "timeout"; "econnrefused"] text
  /\ TransmissionErrorHandler.isStreamMessage text
     = mentions ["stream"; "pipe"; "closed"] text
  /\ TransmissionErrorHandler.isAuthMessage text
     = mentions ["unauthorized"; "forbidden"; "token"] text.
Proof.
  unfold TransmissionErrorHandler.isNetworkMessage,
    TransmissionErrorHandler.isStreamMessage,
    TransmissionErrorHandler.isAuthMessage, mentions.
  cbn [existsb]. rewrite !orb_false_r, !orb_assoc. repeat split.
Qed.

Lemma getStatusCode_categorizeMessage (message : string) :
  TransmissionErrorHandler.getStatusCode
    (TransmissionErrorHandler.categorizeMessage message)
  = spec_expectedStatus message.
Proof.
  unfold TransmissionErrorHandler.categorizeMessage, spec_expectedStatus. cbv zeta.
  destruct (marker_groups (JsString.toLowerCase message))
    as (<- & <- & <-).
  destruct (TransmissionErrorHandler.isNetworkMessage _); [reflexivity |].
  destruct (TransmissionErrorHandler.isStreamMessage _); [reflexivity |].
  destruct (TransmissionErrorHandler.isAuthMessage _); [reflexivity |].
  destruct (TransmissionErrorHandler.isServerMessage _); reflexivity.
Qed.

Section ErrorHandlerFacts.

Context {platform : Platform}.

Lemma withErrorHandling_value {T} (operation : M T) (w : world) (value : T) :
  result (operation w) = Ret value ->
  TransmissionErrorHandler.withErrorHandling operation w
  = Run (Ret (inl value)) (final (operation w)) (emitted (operation w)).
Proof.
  intros H. unfold TransmissionErrorHandler.withErrorHandling, try_catch, bind.
  destruct (operation w) as [r w1 ev]. simpl in H. subst r.
  cbn. rewrite app_nil_r. reflexivity.
Qed.

Lemma withErrorHandling_error {T} (operation : M T) (w : world) (message : string) :
  result (operation w) = Raise (JsError message) ->
  exists response,
    TransmissionErrorHandler.withErrorHandling operation w
    = Run (Ret (inr response)) (final (operation w)) (emitted (operation w))
    /\ StreamableResponse.status response = spec_expectedStatus message
    /\ StreamableResponse.headers response !! "Content-Type"
       = Some "application/json".
Proof.
  intros H. unfold TransmissionErrorHandler.withErrorHandling, try_catch, bind.
  destruct (operation w) as [r w1 ev]. simpl in H. subst r.
  cbn [TransmissionErrorHandler.categorizeError message_of].
  unfold TransmissionErrorHandler.createErrorResponse, bind, Date_now, ret.
  cbn [result final emitted]. rewrite !app_nil_r.
  eexists. split; [reflexivity |].
  split; [apply getStatusCode_categorizeMessage | reflexivity].
Qed.

End ErrorHandlerFacts.

(** Every throw of the request pipeline is an [Error], on a platform whose
    [JSON.parse] and [fetch] reject with [Error] objects. [validateRequest]
    itself returns, or throws the [TypeError] of its [catch]. *)
Lemma validateRequest_returns (platform : Platform)
    (headers : gmap string string) (w : world) :
  (exists r w1 ev, AuthMiddleware.validateRequest headers w = Run (Ret r) w1 ev)
  \/ (exists message w1 ev,
        AuthMiddleware.validateRequest headers w
        = Run (Raise (JsError message)) w1 ev).
Proof.
  unfold AuthMiddleware.validateRequest.
  destruct (negb (JsString.truthy_opt _)); [left; do 3 eexists; reflexivity |].
  unfold AuthMiddleware.validateToken, try_catch, bind.
  destruct (cognitoGetUser _ w) as [[username | [message | repr | |]] w1 ev1];
    first [left; do 3 eexists; reflexivity | right; do 3 eexists; reflexivity].
Qed.

Lemma handleOperation_throwsErrorsOnly (platform : Platform)
    (handler : StreamableHttpHandler.HttpHandlerConfig)
    (request : IncomingRequest.t) (w : world) :
  platformThrowsErrors platform ->
  throwsErrorsOnly (StreamableHttpHandler.handleOperation handler request) w.
Proof.
  intros [Hparse Hfetch] e.
  unfold StreamableHttpHandler.handleOperation.
  destruct (validateRequest_returns platform (IncomingRequest.headers request) w)
    as [(r & w1 & ev1 & Hvalidate) | (message & w1 & ev1 & Hvalidate)].
  2: { unfold bind at 1. rewrite Hvalidate. cbn [result].
       intros H. injection H as <-. eexists. reflexivity. }
  unfold bind at 1. rewrite Hvalidate.
  destruct (negb (TokenValidationResult.valid r)); [discriminate |].
  unfold bind at 1.
  unfold StreamableHttpHandler.parseMCPRequest.
  assert (Hrest : forall (mcpRequest : option json) (w2 : world) e',
             result
               (bind (call (CallForwardRequest (StreamableHttpHandler.mcpServerUrl handler))
                        (MCPConnector.forwardRequest
                           (StreamableHttpHandler.mcpServerUrl handler) mcpRequest))
                     StreamHandler.createStreamingResponse w2) = Raise e' ->
             exists message, e' = JsError message).
  { intros mcpRequest w2 e'.
    unfold bind, call, MCPConnector.forwardRequest, bind.
    destruct (MCPConnector.connect _ w2) as [[[] | e0] w3 ev3] eqn:Hconnect.
    2: { unfold MCPConnector.connect in Hconnect.
         destruct (connections w2 !! _) as [[|] |]; discriminate. }
    destruct (fetch _ _ w3) as [[response | e0] w4 ev4] eqn:Hf.
    - destruct (negb (Response.ok response)).
      + cbn. intros H. injection H as <-. eexists. reflexivity.
      + cbn. unfold StreamHandler.createStreamingResponse.
        destruct (Response.body response); cbn; intros H; [discriminate |].
        injection H as <-. eexists. reflexivity.
    - cbn. intros H. injection H as <-.
      apply (Hfetch (StreamableHttpHandler.mcpServerUrl handler)
               (JSON_stringify <$> mcpRequest) w3).
      rewrite Hf. reflexivity. }
  destruct (IncomingRequest.body request) as [[text | value] |].
  - destruct (JSON_parse text) as [parsed | syntaxError] eqn:Hp.
    + unfold ret at 1.
      destruct (bind _ _ w1) as [r2 w2 ev2] eqn:Hrun.
      intros H. cbn in H. subst r2.
      apply (Hrest (Some parsed) w1 e). exact (f_equal result Hrun).
    + unfold throw at 1. cbn. intros H. injection H as <-.
      apply (Hparse text). exact Hp.
  - unfold ret at 1.
    destruct (bind _ _ w1) as [r2 w2 ev2] eqn:Hrun.
    intros H. cbn in H. subst r2.
    apply (Hrest (Some value) w1 e). exact (f_equal result Hrun).
  - unfold ret at 1.
    destruct (bind _ _ w1) as [r2 w2 ev2] eqn:Hrun.
    intros H. cbn in H. subst r2.
    apply (Hrest None w1 e). exact (f_equal result Hrun).
Qed.

(** No exception leaves [handleRequest] on such a platform. *)
Lemma handleRequest_returns (platform : Platform)
    (handler : StreamableHttpHandler.HttpHandlerConfig)
    (request : IncomingRequest.t) (w : world) :
  platformThrowsErrors platform ->
  exists response,
    result (StreamableHttpHandler.handleRequest handler request w) = Ret response.
Proof.
  intros Hplatform.
  pose proof (handleOperation_throwsErrorsOnly platform handler request w Hplatform)
    as Honly.
  unfold StreamableHttpHandler.handleRequest, bind.
  destruct (result (StreamableHttpHandler.handleOperation handler request w))
    as [value | e] eqn:Hop.
  - rewrite (withErrorHandling_value _ w value Hop). eexists. reflexivity.
  - destruct (Honly e Hop) as [message ->].
    destruct (withErrorHandling_error _ w message Hop) as (response & Hrun & _).
    rewrite Hrun. eexists. reflexivity.
Qed.

(** C8 fails as stated: with network, connection and timeout as the network
    markers, an [Error] whose message is connect ECONNREFUSED
    127.0.0.1:8000 matches no marker and would be answered 500; the wrapper
    answers it 503, since [categorizeError] also counts econnrefused as a
    network marker. *)
Lemma econnrefused_is_a_network_marker :
  claimedStatus "connect ECONNREFUSED 127.0.0.1:8000" = 500
  /\ exists response,
       result (@TransmissionErrorHandler.withErrorHandling demoPlatform
                 StreamableResponse.t
                 (throw (JsError "connect ECONNREFUSED 127.0.0.1:8000"))
                 world0) = Ret (inr response)
       /\ StreamableResponse.status response = 503.
Proof.
  split; [vm_compute; reflexivity |].
  eexists. split; vm_compute; reflexivity.
Qed.

(** C8, amended. For an operation wrapped by [withErrorHandling] that throws
    only [Error] objects, no error reaches the caller: the wrapper returns
    the operation's value, or, when the operation threw an [Error], a JSON
    error response. For a message of ASCII characters the status of that
    response is 503 if the lower-cased message contains a network marker
    (network, connection, timeout, econnrefused), else 500 if it contains a
    stream marker (stream, pipe, closed), else 401 if it contains an auth
    marker (unauthorized, forbidden, token), else 500. *)
Theorem withErrorHandling_never_throws (platform : Platform) (T : Type)
    (operation : M T) (w : world) :
  throwsErrorsOnly operation w ->
  (exists answer,
      result (TransmissionErrorHandler.withErrorHandling operation w) = Ret answer)
  /\ (forall value,
        result (operation w) = Ret value ->
        result (TransmissionErrorHandler.withErrorHandling operation w)
        = Ret (inl value))
  /\ (forall message,
        result (operation w) = Raise (JsError message) ->
        exists response,
          result (TransmissionErrorHandler.withErrorHandling operation w)
          = Ret (inr response)
          /\ StreamableResponse.headers response !! "Content-Type"
             = Some "application/json"
          /\ (JsString.isAscii message = true ->
              StreamableResponse.status response = spec_expectedStatus message)).
Proof.
  intros Honly.
  assert (Hvalue : forall value,
             result (operation w) = Ret value ->
             result (TransmissionErrorHandler.withErrorHandling operation w)
             = Ret (inl value)).
  { intros value H. rewrite (withErrorHandling_value operation w value H).
    reflexivity. }
  assert (Herror : forall message,
             result (operation w) = Raise (JsError message) ->
             exists response,
               result (TransmissionErrorHandler.withErrorHandling operation w)
               = Ret (inr response)
               /\ StreamableResponse.headers response !! "Content-Type"
                  = Some "application/json"
               /\ (JsString.isAscii message = true ->
                   StreamableResponse.status response
                   = spec_expectedStatus message)).
  { intros message H.
    destruct (withErrorHandling_error operation w message H)
      as (response & Hrun & Hstatus & Hjson).
    exists response. rewrite Hrun.
    split; [reflexivity |]. split; [exact Hjson |].
    intros _. exact Hstatus. }
  split; [| split; assumption].
  destruct (result (operation w)) as [value | e] eqn:Hop.
  - eexists. apply Hvalue. reflexivity.
  - destruct (Honly e Hop) as [message ->].
    destruct (Herror message eq_refl) as (response & Hrun & _).
    eexists. exact Hrun.
Qed.

Lemma withErrorHandling_never_throws_witness :
  exists response,
    result (@TransmissionErrorHandler.withErrorHandling demoPlatform
              StreamableResponse.t
              (throw (JsError "Connection timeout while reading token"))
              world0) = Ret (inr response)
    /\ StreamableResponse.status response = 503.
Proof.
  destruct (withErrorHandling_never_throws demoPlatform StreamableResponse.t
              (throw (JsError "Connection timeout while reading token")) world0)
    as (_ & _ & Herror).
  - intros e He. injection He as <-. eexists. reflexivity.
  - destruct (Herror "Connection timeout while reading token" eq_refl)
      as (response & Hrun & _ & Hstatus).
    exists response. split; [exact Hrun |].
    rewrite Hstatus by reflexivity. reflexivity.
Defined.

(** ** Build progress *)

(** In binary64, [(c / 5) * 100] is the integer [20 * c] for every count up
    to 22; at 23 it is 459.99999999999994. *)
Lemma codebuild_percentageOf_small (completed : nat) :
  (completed <= 22)%nat ->
  CodeBuild.percentageOf completed = Some (20 * Z.of_nat completed).
Proof.
  intros H.
  do 23 (destruct completed as [| completed]; [vm_compute; reflexivity |]).
  lia.
Qed.

Lemma codebuild_percentageOf_23 : CodeBuild.percentageOf 23 = Some 459.
Proof. vm_compute. reflexivity. Qed.

Lemma indexOf_bound (x : string) (l : list string) (i : nat) :
  Monitor.indexOf x l = Some i -> (i < length l)%nat.
Proof.
  revert i. induction l as [| y rest IH]; intros i H; [discriminate |].
  cbn [Monitor.indexOf] in H. destruct (String.eqb x y).
  - injection H as <-. simpl. lia.
  - destruct (Monitor.indexOf x rest) as [j |]; [| discriminate].
    cbn in H. injection H as <-. specialize (IH j eq_refl). simpl. lia.
Qed.

Lemma monitor_percentageOf_index (index : nat) :
  (index < length Monitor.phaseOrder)%nat ->
  Monitor.percentageOf (Some index)
  = Some ((100 * Z.of_nat index) / Z.of_nat (length Monitor.phaseOrder)).
Proof.
  intros H.
  do 11 (destruct index as [| index]; [vm_compute; reflexivity |]).
  simpl in H. lia.
Qed.

(** The monitor's [buildToBuildProgress] is the index-based one. *)
Lemma monitor_percentage_is_index_based (build : Aws.Build) :
  BuildProgress.percentage (Monitor.buildToBuildProgress build)
  = Some (spec_indexPercentage build).
Proof.
  unfold Monitor.buildToBuildProgress, spec_indexPercentage.
  cbn [BuildProgress.percentage].
  destruct (Monitor.indexOf _ Monitor.phaseOrder) as [index |] eqn:Hindex.
  - apply monitor_percentageOf_index. exact (indexOf_bound _ _ _ Hindex).
  - reflexivity.
Qed.

(** C6 fails as stated: while the BUILD phase is current and one phase has
    succeeded, [getBuildProgress] reports 20, not the 54 that the index of
    BUILD (6 of 11) gives; and for two states in the same phase it reports
    different percentages, which no formula over the index of the current
    phase does. *)
Lemma getBuildProgress_is_not_index_based :
  (exists progress,
      result (CodeBuild.getBuildProgress demoBuilds "demo-build:1" world0)
      = Ret progress
      /\ BuildProgress.percentage progress = Some 20
      /\ spec_indexPercentage buildingState = 54)
  /\ Aws.currentPhase buildingState = Aws.currentPhase unrecordedBuildState
  /\ BuildProgress.percentage (CodeBuild.buildToBuildProgress buildingState)
     = Some 20
  /\ BuildProgress.percentage (CodeBuild.buildToBuildProgress unrecordedBuildState)
     = Some 0.
Proof.
  split.
  - eexists. split; [reflexivity |]. split; [vm_compute; reflexivity | reflexivity].
  - split; [reflexivity |]. split; vm_compute; reflexivity.
Qed.

(** C6, amended. When the build service returns a build,
    [getBuildProgress] reports [Math.floor((c / 5) * 100)], where [c] is
    the number of recorded phases whose status is SUCCEEDED: that is
    [20 * c] (for every [c] up to 22), whatever the current phase. The
    percentage "index of the current phase over the number of phases" is
    the one computed by the build monitor's [buildToBuildProgress]. *)
Theorem getBuildProgress_counts_succeeded_phases
    (batchGetBuilds : string -> M (option (list Aws.Build)))
    (buildId : string) (w w1 : world) (ev : list event)
    (build : Aws.Build) (others : list Aws.Build) :
  batchGetBuilds buildId w = Run (Ret (Some (build :: others))) w1 ev ->
  (CodeBuild.completedPhases build <= 22)%nat ->
  exists progress,
    CodeBuild.getBuildProgress batchGetBuilds buildId w = Run (Ret progress) w1 ev
    /\ BuildProgress.percentage progress
       = Some (20 * Z.of_nat (CodeBuild.completedPhases build))
    /\ BuildProgress.percentage (Monitor.buildToBuildProgress build)
       = Some (spec_indexPercentage build).
Proof.
  intros Hclient Hsmall.
  exists (CodeBuild.buildToBuildProgress build). split.
  - unfold CodeBuild.getBuildProgress, bind. rewrite Hclient.
    cbn. rewrite app_nil_r. reflexivity.
  - split; [| apply monitor_percentage_is_index_based].
    unfold CodeBuild.buildToBuildProgress. cbn [BuildProgress.percentage].
    apply codebuild_percentageOf_small. exact Hsmall.
Qed.

Lemma getBuildProgress_counts_succeeded_phases_witness :
  exists progress,
    CodeBuild.getBuildProgress demoBuilds "demo-build:1" world0
    = Run (Ret progress) world0 []
    /\ BuildProgress.percentage progress = Some 20.
Proof.
  destruct (getBuildProgress_counts_succeeded_phases demoBuilds "demo-build:1"
              world0 world0 [] buildingState [])
    as (progress & Hrun & Hpercentage & _).
  - reflexivity.
  - vm_compute. lia.
  - exists progress. split; [exact Hrun | exact Hpercentage].
Defined.

(** C7 fails as stated: at the COMPLETED state of the scenario the
    percentage is 40, not 100. *)
Lemma completed_scenario_is_not_100 :
  BuildProgress.percentage (CodeBuild.buildToBuildProgress completedState)
  = Some 40
  /\ BuildProgress.percentage (CodeBuild.buildToBuildProgress completedState)
     <> Some 100.
Proof. split; [vm_compute; reflexivity | vm_compute; discriminate]. Qed.

Example completed_with_all_phases_is_200 :
  BuildProgress.percentage (CodeBuild.buildToBuildProgress completedOfAll)
  = Some 200
  /\ BuildProgress.percentage (Monitor.buildToBuildProgress completedOfAll)
     = Some 90.
Proof. split; vm_compute; reflexivity. Qed.

(** C7, amended. The percentage computed by [buildToBuildProgress] is 20
    times the number of phases recorded as succeeded (up to 22 of them).
    Over the states SUBMITTED, BUILD, COMPLETED(succeeded) of the scenario
    it therefore strictly increases: 0, 20, 40 when the build records the
    phases that were reported, and 0, 60, 100 when it records the five
    phases the module counts. It is 100 at COMPLETED exactly when five
    phases are recorded as succeeded. *)
Theorem scenario_progress_counts_succeeded_phases :
  (BuildProgress.percentage (CodeBuild.buildToBuildProgress submittedState) = Some 0
   /\ BuildProgress.percentage (CodeBuild.buildToBuildProgress buildingState) = Some 20
   /\ BuildProgress.percentage (CodeBuild.buildToBuildProgress completedState) = Some 40)
  /\ (BuildProgress.percentage (CodeBuild.buildToBuildProgress buildingOfFive) = Some 60
      /\ BuildProgress.percentage (CodeBuild.buildToBuildProgress completedOfFive) = Some 100)
  /\ (forall earlier later,
        (CodeBuild.completedPhases earlier < CodeBuild.completedPhases later)%nat ->
        (CodeBuild.completedPhases later <= 22)%nat ->
        exists p q,
          BuildProgress.percentage (CodeBuild.buildToBuildProgress earlier) = Some p
          /\ BuildProgress.percentage (CodeBuild.buildToBuildProgress later) = Some q
          /\ p < q)
  /\ (forall build,
        (CodeBuild.completedPhases build <= 22)%nat ->
        (BuildProgress.percentage (CodeBuild.buildToBuildProgress build) = Some 100
         <-> CodeBuild.completedPhases build = 5%nat)).
Proof.
  split; [repeat split; vm_compute; reflexivity |].
  split; [split; vm_compute; reflexivity |].
  split.
  - intros earlier later Hlt Hsmall.
    exists (20 * Z.of_nat (CodeBuild.completedPhases earlier)),
           (20 * Z.of_nat (CodeBuild.completedPhases later)).
    unfold CodeBuild.buildToBuildProgress. cbn [BuildProgress.percentage].
    rewrite !codebuild_percentageOf_small by lia.
    repeat split. lia.
  - intros build Hsmall. unfold CodeBuild.buildToBuildProgress.
    cbn [BuildProgress.percentage].
    rewrite (codebuild_percentageOf_small _ Hsmall).
    split; intros H.
    + injection H as H. lia.
    + rewrite H. reflexivity.
Qed.

Lemma scenario_progress_counts_succeeded_phases_witness :
  (BuildProgress.percentage (CodeBuild.buildToBuildProgress completedState)
   = Some 100
   <-> CodeBuild.completedPhases completedState = 5%nat)
  /\ exists p q,
       BuildProgress.percentage (CodeBuild.buildToBuildProgress buildingState) = Some p
       /\ BuildProgress.percentage (CodeBuild.buildToBuildProgress completedState) = Some q
       /\ p < q.
Proof.
  destruct scenario_progress_counts_succeeded_phases as (_ & _ & Hmono & Hiff).
  split.
  - apply (Hiff completedState). vm_compute. lia.
  - apply (Hmono buildingState completedState); vm_compute; lia.
Defined.

(* ================================================================= *)
(** * Further properties *)

(** ** The monad *)

Lemma bind_ret_run {A B} (m : M A) (k : A -> M B) (w w1 : world) (a : A)
    (ev1 : list event) :
  m w = Run (Ret a) w1 ev1 ->
  bind m k w
  = match k a w1 with Run r w2 ev2 => Run r w2 (ev1 ++ ev2) end.
Proof. intros H. unfold bind. rewrite H. reflexivity. Qed.

Lemma bind_raise_run {A B} (m : M A) (k : A -> M B) (w w1 : world) (e : thrown)
    (ev1 : list event) :
  m w = Run (Raise e) w1 ev1 -> bind m k w = Run (Raise e) w1 ev1.
Proof. intros H. unfold bind. rewrite H. reflexivity. Qed.

(** A console line written under [verbose] before a computation. *)
Lemma logged_then {A} (verbose : bool) (line : string) (k : M A) (w : world) :
  bind (when verbose (emit (ConsoleLog line))) (fun _ => k) w
  = match k w with Run r w1 ev => Run r w1 (logIf verbose line ++ ev) end.
Proof.
  unfold bind, when, emit, ret, logIf.
  destruct verbose; cbn; destruct (k w); reflexivity.
Qed.

(** ** Runtime deployment *)

(** X1. [checkPrerequisites] checks all three prerequisites, not only the
    first one missing: the deployment is ready exactly when the image URI,
    the user pool id and the client id are all non-empty, and each of the
    three labels is listed, once, exactly when its item is absent or
    empty. *)
Theorem checkPrerequisites_reports_every_missing_item
    (imageUri : option string) (authConfig : option DeploymentAuthConfig.t) :
  let check := RuntimeDeployment.checkPrerequisites imageUri authConfig in
  let hasImage := JsString.truthy_opt imageUri in
  let hasPool :=
    JsString.truthy_opt (authConfig ≫= DeploymentAuthConfig.cognitoUserPoolId) in
  let hasClient :=
    JsString.truthy_opt (authConfig ≫= DeploymentAuthConfig.cognitoClientId) in
  RuntimeDeployment.ready check = hasImage && hasPool && hasClient
  /\ ("Container image URI" ∈ RuntimeDeployment.missing check
      <-> hasImage = false)
  /\ ("Cognito User Pool ID" ∈ RuntimeDeployment.missing check
      <-> hasPool = false)
  /\ ("Cognito Client ID" ∈ RuntimeDeployment.missing check
      <-> hasClient = false)
  /\ NoDup (RuntimeDeployment.missing check)
  /\ (RuntimeDeployment.ready check = false
      <-> RuntimeDeployment.missing check <> []).
Proof.
  cbv zeta. unfold RuntimeDeployment.checkPrerequisites.
  destruct (JsString.truthy_opt imageUri),
    (JsString.truthy_opt (authConfig ≫= DeploymentAuthConfig.cognitoUserPoolId)),
    (JsString.truthy_opt (authConfig ≫= DeploymentAuthConfig.cognitoClientId));
    cbn [negb app RuntimeDeployment.ready RuntimeDeployment.missing];
    repeat apply conj; try reflexivity;
    apply (bool_decide_unpack _); vm_compute; exact I.
Qed.
Lemma deployToRuntime_run (config : DeploymentConfig.t) (w : world) :
  let check :=
    RuntimeDeployment.checkPrerequisites
      (Some (DeploymentConfig.imageUri config))
      (Some (DeploymentConfig.authConfig config)) in
  RuntimeDeployment.deployToRuntime config w
  = if RuntimeDeployment.ready check
    then Run (Ret (submittedDeployment config w))
             (World (now w) (tail (entropy w)) (connections w)) []
    else Run (Raise (prerequisitesNotMet check)) w [].
Proof.
  cbv zeta. unfold RuntimeDeployment.deployToRuntime.
  destruct (RuntimeDeployment.ready _); cbn [negb]; [| reflexivity].
  unfold RuntimeDeployment.generateDeploymentId, bind, Date_now,
    Math_random_base36, ret.
  destruct w as [t supply conns]. destruct supply as [| s rest]; reflexivity.
Qed.

(** X2. [deployToRuntime] throws exactly when a prerequisite is missing,
    with a message that lists every missing item, and then leaves the
    environment untouched. Otherwise it returns a deployment in state
    CREATING that has no endpoint yet, carries the image and the auth
    configuration it was given, and whose id is the project name, the clock
    reading and the random suffix, joined by hyphens. *)
Theorem deployToRuntime_outcome (config : DeploymentConfig.t) (w : world) :
  let check :=
    RuntimeDeployment.checkPrerequisites
      (Some (DeploymentConfig.imageUri config))
      (Some (DeploymentConfig.authConfig config)) in
  if RuntimeDeployment.ready check then
    exists d,
      RuntimeDeployment.deployToRuntime config w
      = Run (Ret d) (World (now w) (tail (entropy w)) (connections w)) []
      /\ Deployment.status d = CREATING
      /\ Deployment.endpoint d = None
      /\ Deployment.imageUri d = DeploymentConfig.imageUri config
      /\ Deployment.authConfig d = DeploymentConfig.authConfig config
      /\ Deployment.id d
         = DeploymentConfig.projectName config +:+ "-"
             +:+ JsString.ofNumber (now w) +:+ "-"
             +:+ default "" (head (entropy w))
      /\ Deployment.createdAt d = now w
  else
    RuntimeDeployment.deployToRuntime config w
    = Run (Raise (JsError ("Deployment prerequisites not met. Missing: "
                             +:+ JsString.join ", "
                                   (RuntimeDeployment.missing check))))
          w [].
Proof.
  cbv zeta. rewrite deployToRuntime_run. cbv zeta.
  destruct (RuntimeDeployment.ready _); [| reflexivity].
  eexists. repeat split.
Qed.

Lemma waitForDeployment_run (deploymentId : string) (timeoutMs : Z) (w : world) :
  RuntimeDeployment.waitForDeployment deploymentId timeoutMs w
  = if 0 <? timeoutMs
    then Run (Ret (simulatedDeployment deploymentId (now w))) w []
    else Run (Raise (RuntimeDeployment.timedOut deploymentId timeoutMs)) w [].
Proof.
  unfold RuntimeDeployment.waitForDeployment. rewrite Nat.add_1_r.
  unfold bind at 1. unfold Date_now at 1.
  cbn [RuntimeDeployment.waitForDeployment_loop].
  unfold bind at 1. unfold Date_now at 1.
  rewrite Z.sub_diag. destruct (0 <? timeoutMs); [| reflexivity].
  unfold RuntimeDeployment.getDeploymentStatus, bind, Date_now, ret.
  cbn [Deployment.status bool_decide decide_rel orb].
  reflexivity.
Qed.

(** X3. [waitForDeployment] with a timeout that is zero or negative throws
    the timed-out error without querying the status. With a positive
    timeout it returns at the first poll, without sleeping: the simulated
    status query answers ACTIVE, with an endpoint in region us-east-1
    whatever the region of the project is. *)
Theorem waitForDeployment_outcome (deploymentId : string) (timeoutMs : Z)
    (w : world) :
  (timeoutMs <= 0 ->
   RuntimeDeployment.waitForDeployment deploymentId timeoutMs w
   = Run (Raise (JsError ("Deployment " +:+ deploymentId +:+ " timed out after "
                            +:+ JsString.ofNumber timeoutMs +:+ "ms")))
         w [])
  /\ (0 < timeoutMs ->
      exists d,
        RuntimeDeployment.waitForDeployment deploymentId timeoutMs w
        = Run (Ret d) w []
        /\ Deployment.id d = deploymentId
        /\ Deployment.status d = ACTIVE
        /\ Deployment.endpoint d
           = Some (Endpoint.Build
                     ("https://" +:+ deploymentId
                        +:+ ".agentcore-runtime.us-east-1.amazonaws.com")
                     "streamable-http" true)).
Proof.
  rewrite waitForDeployment_run. split; intros H.
  - destruct (Z.ltb_spec 0 timeoutMs); [lia | reflexivity].
  - destruct (Z.ltb_spec 0 timeoutMs); [| lia].
    eexists. repeat split.
Qed.

Lemma waitForDeployment_outcome_witness :
  result (RuntimeDeployment.waitForDeployment "demo-1" 0 world0)
  = Raise (JsError "Deployment demo-1 timed out after 0ms")
  /\ exists d,
       RuntimeDeployment.waitForDeployment "demo-1" 1 world0 = Run (Ret d) world0 []
       /\ Deployment.status d = ACTIVE.
Proof.
  destruct (waitForDeployment_outcome "demo-1" 0 world0) as [Hzero _].
  destruct (waitForDeployment_outcome "demo-1" 1 world0) as [_ Hone].
  split.
  - rewrite Hzero; [reflexivity | lia].
  - destruct Hone as (d & Hrun & _ & Hstatus & _); [lia |].
    exists d. split; assumption.
Defined.

(** ** Health verifier *)

Lemma verifyDeployment_source_run (d : Deployment.t) (region : string)
    (w : world) :
  Health.verifyDeployment d region w
  = if JsString.truthy_opt (Endpoint.url <$> Deployment.endpoint d)
    then Run (Ret (healthyVerdict (Deployment.endpoint d) (now w + 1000)))
             (World (now w + 1000 + 500) (entropy w) (connections w)) []
    else Run (Ret (noEndpointVerdict (now w))) w [].
Proof.
  unfold Health.verifyDeployment, Health.verifyDeployment_with,
    Health.performHealthCheck, Health.verifyEndpointAccessibility.
  destruct (Deployment.endpoint d) as [e |];
    cbn [fmap option_fmap option_map JsString.truthy_opt].
  - destruct (JsString.truthy (Endpoint.url e)); cbn [negb];
      unfold bind, try_catch, sleep, Date_now, ret; reflexivity.
  - unfold bind, try_catch, sleep, Date_now, ret; reflexivity.
Qed.

(** X4. With the repository's probes, [verifyDeployment] never throws and
    its verdict depends only on whether the deployment carries an endpoint
    with a non-empty URL: then it is healthy, the endpoint returned is the
    deployment's own and the two probes have taken 1000 ms and 500 ms;
    otherwise it is unhealthy at once, with the message that no endpoint
    URL is available. Neither the status of the deployment nor the region
    enters the verdict. *)
Theorem verifyDeployment_checks_only_the_endpoint (d : Deployment.t)
    (region : string) (w : world) :
  let reachable := JsString.truthy_opt (Endpoint.url <$> Deployment.endpoint d) in
  exists v,
    Health.verifyDeployment d region w
    = Run (Ret v)
          (if reachable
           then World (now w + 1000 + 500) (entropy w) (connections w)
           else w) []
    /\ Health.healthy v = reachable
    /\ Health.endpoint v = (if reachable then Deployment.endpoint d else None)
    /\ HealthStatus.message (Health.healthStatus v)
       = Some (if reachable then "Service is healthy"
               else "No endpoint URL available for health check").
Proof.
  cbv zeta. rewrite verifyDeployment_source_run.
  destruct (JsString.truthy_opt _); eexists; repeat split.
Qed.

(** ** Rollback manager *)

(** X5. [rollbackDeployment] never throws, reports success exactly for a
    FAILED deployment, and never restores anything: no history is kept, so
    [restorePreviousVersion] is not called and no restored version is
    reported. For a FAILED deployment it calls [cleanupFailedDeployment]
    once with the deployment's id, which takes 1000 ms, and reports the
    two cleaned resources. *)
Theorem rollbackDeployment_outcome (d : Deployment.t) (projectName : string)
    (w : world) :
  let failed := Rollback.isDeploymentFailed d in
  exists r,
    Rollback.rollbackDeployment d projectName w
    = Run (Ret r)
          (if failed then World (now w + 1000) (entropy w) (connections w)
           else w)
          (if failed then [CallCleanupFailedDeployment (Deployment.id d)]
           else [])
    /\ RollbackResult.success r = failed
    /\ RollbackResult.restoredVersion r = None
    /\ RollbackResult.cleanedResources r
       = (if failed
          then ["Deployment " +:+ Deployment.id d; "Associated runtime resources"]
          else [])
    /\ forall h, CallRestorePreviousVersion h
                 ∉ emitted (Rollback.rollbackDeployment d projectName w).
Proof.
  cbv zeta. unfold Rollback.rollbackDeployment.
  destruct (Rollback.isDeploymentFailed d); cbn [negb].
  - unfold bind, call, Rollback.cleanupFailedDeployment, try_catch, bind, sleep,
      ret, Rollback.getPreviousStableVersion.
    cbn [result final emitted app now entropy connections].
    eexists. split; [reflexivity |].
    cbn [RollbackResult.success RollbackResult.restoredVersion
         RollbackResult.cleanedResources].
    repeat split. intros h Hin.
    apply elem_of_cons in Hin as [Hin | Hin]; [discriminate |].
    apply elem_of_nil in Hin. exact Hin.
  - eexists. split; [reflexivity |]. cbn. repeat split.
    intros h. apply not_elem_of_nil.
Qed.

(** ** Deployment orchestrator *)

Section StepsFacts.

Context {modules : Orchestrator.RuntimeModules}.

Import Orchestrator.

(** The run of the [try] block, in terms of the runs of the steps it
    calls. *)
Lemma deploymentSteps_run (options : OrchestrationOptions) (w : world) :
  deploymentSteps options w =
  match deployToRuntime (prepareDeploymentConfig options) w with
  | Run (Raise e) w1 ev1 =>
      Run (Raise e) w1 (preparingLogs (verbose options) ++ ev1)
  | Run (Ret created) w1 ev1 =>
      match waitForDeployment (Deployment.id created) w1 with
      | Run (Raise e) w2 ev2 =>
          Run (Raise e) w2
              (preparingLogs (verbose options) ++ ev1
                 ++ waitingLog (verbose options) ++ ev2)
      | Run (Ret deployed) w2 ev2 =>
          if bool_decide (Deployment.status deployed = FAILED) then
            Run (Raise (JsError "Deployment failed during runtime initialization"))
                w2
                (preparingLogs (verbose options) ++ ev1
                   ++ waitingLog (verbose options) ++ ev2)
          else
            match verifyDeployment deployed (region_of (config options)) w2 with
            | Run (Raise e) w3 ev3 =>
                Run (Raise e) w3
                    (preparingLogs (verbose options) ++ ev1
                       ++ waitingLog (verbose options) ++ ev2
                       ++ verifyingLog (verbose options) ++ ev3)
            | Run (Ret verification) w3 ev3 =>
                if negb (Health.healthy verification) then
                  Run (Raise (JsError
                         ("Deployment health check failed: "
                            +:+ default "undefined"
                                  (HealthStatus.message
                                     (Health.healthStatus verification)))))
                      w3
                      (preparingLogs (verbose options) ++ ev1
                         ++ waitingLog (verbose options) ++ ev2
                         ++ verifyingLog (verbose options) ++ ev3)
                else
                  match saveDeploymentToHistory
                          (verifiedDeployment deployed verification)
                          (projectName_of (config options)) w3 with
                  | Run (Raise e) w4 ev4 =>
                      Run (Raise e) w4
                          (preparingLogs (verbose options) ++ ev1
                             ++ waitingLog (verbose options) ++ ev2
                             ++ verifyingLog (verbose options) ++ ev3 ++ ev4)
                  | Run (Ret _) w4 ev4 =>
                      Run (Ret (successResultOf options
                                  (verifiedDeployment deployed verification)))
                          w4
                          (preparingLogs (verbose options) ++ ev1
                             ++ waitingLog (verbose options) ++ ev2
                             ++ verifyingLog (verbose options) ++ ev3 ++ ev4
                             ++ [ConsoleSummary
                                   (successResultOf options
                                      (verifiedDeployment deployed verification))])
                  end
            end
      end
  end.
Proof.
  unfold deploymentSteps, preparingLogs, waitingLog, verifyingLog.
  rewrite logged_then, logged_then.
  unfold bind at 1.
  destruct (deployToRuntime _ w) as [[created | e] w1 ev1];
    [| rewrite <- app_assoc; reflexivity].
  rewrite logged_then. unfold bind at 1.
  destruct (waitForDeployment _ w1) as [[deployed | e] w2 ev2];
    [| rewrite <- !app_assoc; reflexivity].
  destruct (bool_decide (Deployment.status deployed = FAILED)).
  { unfold throw. rewrite !app_nil_r, <- !app_assoc. reflexivity. }
  rewrite logged_then. unfold bind at 1.
  destruct (verifyDeployment _ _ w2) as [[verification | e] w3 ev3];
    [| rewrite <- !app_assoc; reflexivity].
  destruct (negb (Health.healthy verification)).
  { unfold throw. rewrite !app_nil_r, <- !app_assoc. reflexivity. }
  unfold bind at 1. fold (verifiedDeployment deployed verification).
  destruct (saveDeploymentToHistory _ _ w3) as [[[] | e] w4 ev4];
    [| rewrite <- !app_assoc; reflexivity].
  unfold bind, emit, ret. cbn [app]. rewrite <- !app_assoc.
  reflexivity.
Qed.

End StepsFacts.
(** What [orchestrateDeployment] returns when the [try] block returns. *)
Lemma orchestrate_steps_return (modules : Orchestrator.RuntimeModules)
    (options : Orchestrator.OrchestrationOptions) (w : world)
    (r : DeploymentResult.t) :
  result (Orchestrator.deploymentSteps options w) = Ret r ->
  Orchestrator.orchestrateDeployment options w
  = Orchestrator.deploymentSteps options w.
Proof.
  intros H. unfold Orchestrator.orchestrateDeployment, try_catch.
  destruct (Orchestrator.deploymentSteps options w) as [r0 w1 ev].
  simpl in H. subst r0. reflexivity.
Qed.

(** X6. [orchestrateDeployment] reports success only after every step has
    succeeded: the deploy step returned, the wait returned a deployment
    that is not FAILED, the verification returned healthy and the history
    write returned. The result is then the success result built from the
    deployment the wait returned, with the endpoint of the verification;
    it carries no error, and the [catch] branch has not run. *)
Theorem orchestrate_success_requires_every_step
    (modules : Orchestrator.RuntimeModules)
    (options : Orchestrator.OrchestrationOptions) (w : world)
    (r : DeploymentResult.t) :
  result (Orchestrator.orchestrateDeployment options w) = Ret r ->
  DeploymentResult.success r = true ->
  exists created w1 ev1 deployed w2 ev2 verification w3 ev3 w4 ev4,
    Orchestrator.deployToRuntime (Orchestrator.prepareDeploymentConfig options) w
    = Run (Ret created) w1 ev1
    /\ Orchestrator.waitForDeployment (Deployment.id created) w1
       = Run (Ret deployed) w2 ev2
    /\ Deployment.status deployed <> FAILED
    /\ Orchestrator.verifyDeployment deployed
         (Orchestrator.region_of (Orchestrator.config options)) w2
       = Run (Ret verification) w3 ev3
    /\ Health.healthy verification = true
    /\ Orchestrator.saveDeploymentToHistory
         (verifiedDeployment deployed verification)
         (Orchestrator.projectName_of (Orchestrator.config options)) w3
       = Run (Ret tt) w4 ev4
    /\ r = successResultOf options (verifiedDeployment deployed verification)
    /\ DeploymentResult.error r = None
    /\ Orchestrator.orchestrateDeployment options w
       = Orchestrator.deploymentSteps options w.
Proof.
  intros Hrun Hsuccess.
  assert (Hsteps : result (Orchestrator.deploymentSteps options w) = Ret r).
  { destruct (result (Orchestrator.deploymentSteps options w))
      as [r' | error] eqn:Hs.
    - rewrite (orchestrate_steps_return modules options w r' Hs) in Hrun.
      congruence.
    - rewrite (orchestrate_failure_run options w error Hs) in Hrun.
      cbn [result] in Hrun. rewrite handleFailure_run in Hrun.
      cbv zeta in Hrun.
      destruct (result (Orchestrator.rollbackDeployment _ _ _));
        cbn [result] in Hrun; [| discriminate].
      injection Hrun as <-.
      rewrite createFailureResult_success in Hsuccess. discriminate. }
  pose proof (orchestrate_steps_return modules options w r Hsteps) as Hsame.
  rewrite deploymentSteps_run in Hsteps.
  destruct (Orchestrator.deployToRuntime _ w) as [[created | e] w1 ev1] eqn:Hd;
    [| discriminate].
  destruct (Orchestrator.waitForDeployment _ w1) as [[deployed | e] w2 ev2] eqn:Hw;
    [| discriminate].
  destruct (bool_decide (Deployment.status deployed = FAILED)) eqn:Hfailed;
    [discriminate |].
  apply bool_decide_eq_false in Hfailed.
  destruct (Orchestrator.verifyDeployment _ _ w2)
    as [[verification | e] w3 ev3] eqn:Hv; [| discriminate].
  destruct (Health.healthy verification) eqn:Hhealthy; cbn [negb] in Hsteps;
    [| discriminate].
  destruct (Orchestrator.saveDeploymentToHistory _ _ w3)
    as [[[] | e] w4 ev4] eqn:Hsave; [| discriminate].
  cbn [result] in Hsteps. injection Hsteps as <-.
  exists created, w1, ev1, deployed, w2, ev2, verification, w3, ev3, w4, ev4.
  repeat (split; [first [reflexivity | assumption] |]).
  exact Hsame.
Qed.

Lemma orchestrate_success_requires_every_step_witness :
  DeploymentResult.error
    (successResultOf completeOptions
       (simulatedDeployment "demo-1700000000000-k3x9q2" 1700000000000)) = None
  /\ @Orchestrator.orchestrateDeployment Orchestrator.sourceModules
       completeOptions world0
     = @Orchestrator.deploymentSteps Orchestrator.sourceModules
         completeOptions world0.
Proof.
  destruct (orchestrate_success_requires_every_step Orchestrator.sourceModules
              completeOptions world0
              (successResultOf completeOptions
                 (simulatedDeployment "demo-1700000000000-k3x9q2" 1700000000000)))
    as (created & w1 & ev1 & deployed & w2 & ev2 & verification & w3 & ev3
        & w4 & ev4 & _ & _ & _ & _ & _ & _ & _ & Herror & Hsame).
  - vm_compute. reflexivity.
  - reflexivity.
  - split; [exact Herror | exact Hsame].
Defined.
(** X7. When the wait returns a deployment whose status is FAILED, the
    [try] block stops there with the error "Deployment failed during
    runtime initialization": neither the verification nor the history
    write is run. [orchestrateDeployment] then returns the failure result
    with that message, code DEPLOYMENT_FAILED and no endpoint, even when
    the failed deployment had one. *)
Theorem failed_status_fails_the_deployment
    (modules : Orchestrator.RuntimeModules)
    (options : Orchestrator.OrchestrationOptions) (w : world)
    (created : Deployment.t) (w1 : world) (ev1 : list event)
    (deployed : Deployment.t) (w2 : world) (ev2 : list event) :
  rollbackReturns modules ->
  Orchestrator.deployToRuntime (Orchestrator.prepareDeploymentConfig options) w
  = Run (Ret created) w1 ev1 ->
  Orchestrator.waitForDeployment (Deployment.id created) w1
  = Run (Ret deployed) w2 ev2 ->
  Deployment.status deployed = FAILED ->
  Orchestrator.deploymentSteps options w
  = Run (Raise (JsError "Deployment failed during runtime initialization")) w2
        (preparingLogs (Orchestrator.verbose options) ++ ev1
           ++ waitingLog (Orchestrator.verbose options) ++ ev2)
  /\ exists r,
       result (Orchestrator.orchestrateDeployment options w) = Ret r
       /\ DeploymentResult.success r = false
       /\ DeploymentResult.endpoint r = None
       /\ DeploymentResult.error r
          = Some (DeploymentError.Build "DEPLOYMENT_FAILED"
                    "Deployment failed during runtime initialization"
                    "DEPLOYING").
Proof.
  intros Hrb Hd Hw Hstatus.
  assert (Hsteps :
            Orchestrator.deploymentSteps options w
            = Run (Raise (JsError "Deployment failed during runtime initialization"))
                  w2
                  (preparingLogs (Orchestrator.verbose options) ++ ev1
                     ++ waitingLog (Orchestrator.verbose options) ++ ev2)).
  { rewrite deploymentSteps_run, Hd, Hw.
    rewrite bool_decide_eq_true_2 by exact Hstatus. reflexivity. }
  split; [exact Hsteps |].
  rewrite (orchestrate_failure_run options w
             (JsError "Deployment failed during runtime initialization"))
    by (rewrite Hsteps; reflexivity).
  cbn [result]. rewrite handleFailure_run. cbv zeta.
  destruct (Hrb (synthesized options
                   (now (final (Orchestrator.deploymentSteps options w))))
                (Orchestrator.projectName_of (Orchestrator.config options))
                (final (Orchestrator.deploymentSteps options w))) as [rr Hrr].
  rewrite Hrr. eexists. split; [reflexivity |]. repeat split.
Qed.

Lemma failed_status_fails_the_deployment_witness :
  exists r,
    result (@Orchestrator.orchestrateDeployment failingRuntimeModules
              completeOptions world0) = Ret r
    /\ DeploymentResult.success r = false
    /\ DeploymentResult.endpoint r = None.
Proof.
  destruct (failed_status_fails_the_deployment failingRuntimeModules
              completeOptions world0
              (submittedDeployment
                 (Orchestrator.prepareDeploymentConfig completeOptions) world0)
              (World 1700000000000 [] ∅) []
              (Deployment.Build "demo-1700000000000-k3x9q2" FAILED
                 "registry/demo:1"
                 (DeploymentAuthConfig.Build (Some "pool-1") (Some "client-1")
                    "us-east-1")
                 (Some demoEndpoint) 0 0)
              (World 1700000000000 [] ∅) [])
    as (_ & r & Hr & Hsuccess & Hendpoint & _).
  - intros d p w. apply rollbackDeployment_returns.
  - vm_compute. reflexivity.
  - vm_compute. reflexivity.
  - reflexivity.
  - exists r. split; [exact Hr |]. split; assumption.
Defined.

(** X8. When the verification returns unhealthy, the [try] block stops
    with the error "Deployment health check failed: " followed by the
    message of the health status; the deployment is not written to the
    history. [orchestrateDeployment] then returns the failure result with
    that message. *)
Theorem unhealthy_verification_fails_the_deployment
    (modules : Orchestrator.RuntimeModules)
    (options : Orchestrator.OrchestrationOptions) (w : world)
    (created : Deployment.t) (w1 : world) (ev1 : list event)
    (deployed : Deployment.t) (w2 : world) (ev2 : list event)
    (verification : Health.Verification) (w3 : world) (ev3 : list event) :
  rollbackReturns modules ->
  Orchestrator.deployToRuntime (Orchestrator.prepareDeploymentConfig options) w
  = Run (Ret created) w1 ev1 ->
  Orchestrator.waitForDeployment (Deployment.id created) w1
  = Run (Ret deployed) w2 ev2 ->
  Deployment.status deployed <> FAILED ->
  Orchestrator.verifyDeployment deployed
    (Orchestrator.region_of (Orchestrator.config options)) w2
  = Run (Ret verification) w3 ev3 ->
  Health.healthy verification = false ->
  let message :=
    "Deployment health check failed: "
      +:+ default "undefined"
            (HealthStatus.message (Health.healthStatus verification)) in
  Orchestrator.deploymentSteps options w
  = Run (Raise (JsError message)) w3
        (preparingLogs (Orchestrator.verbose options) ++ ev1
           ++ waitingLog (Orchestrator.verbose options) ++ ev2
           ++ verifyingLog (Orchestrator.verbose options) ++ ev3)
  /\ exists r,
       result (Orchestrator.orchestrateDeployment options w) = Ret r
       /\ DeploymentResult.success r = false
       /\ DeploymentResult.endpoint r = None
       /\ DeploymentResult.error r
          = Some (DeploymentError.Build "DEPLOYMENT_FAILED" message "DEPLOYING").
Proof.
  intros Hrb Hd Hw Hstatus Hv Hhealthy message.
  assert (Hsteps :
            Orchestrator.deploymentSteps options w
            = Run (Raise (JsError message)) w3
                  (preparingLogs (Orchestrator.verbose options) ++ ev1
                     ++ waitingLog (Orchestrator.verbose options) ++ ev2
                     ++ verifyingLog (Orchestrator.verbose options) ++ ev3)).
  { rewrite deploymentSteps_run, Hd, Hw.
    rewrite bool_decide_eq_false_2 by exact Hstatus.
    rewrite Hv, Hhealthy. reflexivity. }
  split; [exact Hsteps |].
  rewrite (orchestrate_failure_run options w (JsError message))
    by (rewrite Hsteps; reflexivity).
  cbn [result]. rewrite handleFailure_run. cbv zeta.
  destruct (Hrb (synthesized options
                   (now (final (Orchestrator.deploymentSteps options w))))
                (Orchestrator.projectName_of (Orchestrator.config options))
                (final (Orchestrator.deploymentSteps options w))) as [rr Hrr].
  rewrite Hrr. eexists. split; [reflexivity |].
  split; [apply createFailureResult_success |].
  split.
  - unfold Results.createFailureResult, Results.createDeploymentResult.
    cbn [message_or]. destruct (negb false && _); reflexivity.
  - cbn [message_or]. apply createFailureResult_error.
    subst message. discriminate.
Qed.

Lemma unhealthy_verification_fails_the_deployment_witness :
  exists r,
    result (@Orchestrator.orchestrateDeployment unhealthyModules
              completeOptions world0) = Ret r
    /\ DeploymentResult.error r
       = Some (DeploymentError.Build "DEPLOYMENT_FAILED"
                 "Deployment health check failed: connection refused"
                 "DEPLOYING").
Proof.
  destruct (unhealthy_verification_fails_the_deployment unhealthyModules
              completeOptions world0
              (submittedDeployment
                 (Orchestrator.prepareDeploymentConfig completeOptions) world0)
              (World 1700000000000 [] ∅) []
              (simulatedDeployment "demo-1700000000000-k3x9q2" 1700000000000)
              (World 1700000000000 [] ∅) []
              (Health.Verif false None
                 (HealthStatus.Build false (Some "connection refused") 0) None)
              (World 1700000000000 [] ∅) [])
    as (_ & r & Hr & _ & _ & Herror).
  - intros d p w. apply rollbackDeployment_returns.
  - vm_compute. reflexivity.
  - vm_compute. reflexivity.
  - discriminate.
  - reflexivity.
  - reflexivity.
  - exists r. split; [exact Hr | exact Herror].
Defined.

(** X9. With the repository's modules, [orchestrateDeployment] always
    returns, and succeeds exactly when the three prerequisites of the
    deploy step are present. On success the endpoint of the result
    requires authentication and its URL is built from the deployment id
    (project name, clock reading, random suffix) in region us-east-1,
    whatever the region of the project; the run has slept 1600 ms in all.
    Otherwise the result carries the error that lists the missing
    prerequisites and no endpoint. *)
Theorem source_orchestrate_outcome
    (options : Orchestrator.OrchestrationOptions) (w : world) :
  let check := prerequisitesOf options in
  let deploymentId :=
    Orchestrator.projectName_of (Orchestrator.config options) +:+ "-"
      +:+ JsString.ofNumber (now w) +:+ "-" +:+ default "" (head (entropy w)) in
  exists r,
    result (@Orchestrator.orchestrateDeployment Orchestrator.sourceModules
              options w) = Ret r
    /\ DeploymentResult.success r = RuntimeDeployment.ready check
    /\ if RuntimeDeployment.ready check then
         DeploymentResult.endpoint r
         = Some (Endpoint.Build
                   ("https://" +:+ deploymentId
                      +:+ ".agentcore-runtime.us-east-1.amazonaws.com")
                   "streamable-http" true)
         /\ DeploymentResult.authConfig r
            = Some (DeploymentConfig.authConfig
                      (Orchestrator.prepareDeploymentConfig options))
         /\ DeploymentResult.error r = None
         /\ now (final (@Orchestrator.orchestrateDeployment
                          Orchestrator.sourceModules options w))
            = now w + 1000 + 500 + 100
       else
         DeploymentResult.endpoint r = None
         /\ DeploymentResult.error r
            = Some (DeploymentError.Build "DEPLOYMENT_FAILED"
                      ("Deployment prerequisites not met. Missing: "
                         +:+ JsString.join ", " (RuntimeDeployment.missing check))
                      "DEPLOYING").
Proof.
  cbv zeta.
  assert (Hsteps :
            @Orchestrator.deploymentSteps Orchestrator.sourceModules options w
            = if RuntimeDeployment.ready (prerequisitesOf options) then
                let deployed :=
                  simulatedDeployment
                    (Deployment.id
                       (submittedDeployment
                          (Orchestrator.prepareDeploymentConfig options) w))
                    (now w) in
                let r := successResultOf options deployed in
                Run (Ret r)
                    (World (now w + 1000 + 500 + 100) (tail (entropy w))
                       (connections w))
                    (preparingLogs (Orchestrator.verbose options)
                       ++ waitingLog (Orchestrator.verbose options)
                       ++ verifyingLog (Orchestrator.verbose options)
                       ++ [ConsoleLog
                             ("Saved deployment " +:+ Deployment.id deployed
                                +:+ " to history for project "
                                +:+ Orchestrator.projectName_of
                                      (Orchestrator.config options));
                           ConsoleSummary r])
              else
                Run (Raise (prerequisitesNotMet (prerequisitesOf options))) w
                    (preparingLogs (Orchestrator.verbose options))).
  { rewrite deploymentSteps_run.
    cbn [Orchestrator.deployToRuntime Orchestrator.waitForDeployment
         Orchestrator.verifyDeployment Orchestrator.saveDeploymentToHistory
         Orchestrator.sourceModules].
    rewrite deployToRuntime_run. cbv zeta.
    change (RuntimeDeployment.checkPrerequisites _ _)
      with (prerequisitesOf options).
    destruct (RuntimeDeployment.ready (prerequisitesOf options));
      cbv beta iota; [| rewrite app_nil_r; reflexivity].
    rewrite waitForDeployment_run.
    change (0 <? RuntimeDeployment.defaultTimeoutMs) with true. cbv iota.
    cbn [simulatedDeployment Deployment.status].
    rewrite bool_decide_eq_false_2 by discriminate.
    rewrite verifyDeployment_source_run.
    cbn [Deployment.endpoint fmap option_fmap option_map Endpoint.url
         JsString.truthy_opt].
    change (JsString.truthy ("https://" +:+ ?x)) with true. cbv iota.
    cbn [healthyVerdict Health.healthy negb].
    unfold Rollback.saveDeploymentToHistory, sleep, bind, emit, ret.
    cbn [app now entropy connections]. reflexivity. }
  destruct (RuntimeDeployment.ready (prerequisitesOf options)) eqn:Hready.
  - rewrite (orchestrate_steps_return Orchestrator.sourceModules options w
               (successResultOf options
                  (simulatedDeployment
                     (Deployment.id
                        (submittedDeployment
                           (Orchestrator.prepareDeploymentConfig options) w))
                     (now w))))
      by (rewrite Hsteps; reflexivity).
    rewrite Hsteps. cbv zeta. cbn [result final now].
    eexists. split; [reflexivity |]. repeat split.
  - rewrite (orchestrate_failure_run options w
               (prerequisitesNotMet (prerequisitesOf options)))
      by (rewrite Hsteps; reflexivity).
    cbn [result]. rewrite handleFailure_run. cbv zeta.
    destruct (source_rollbackReturns
                (synthesized options
                   (now (final (@Orchestrator.deploymentSteps
                                  Orchestrator.sourceModules options w))))
                (Orchestrator.projectName_of (Orchestrator.config options))
                (final (@Orchestrator.deploymentSteps
                          Orchestrator.sourceModules options w)))
      as [rr Hrr].
    rewrite Hrr. eexists. split; [reflexivity |].
    split; [apply createFailureResult_success |].
    split.
    + unfold Results.createFailureResult, Results.createDeploymentResult.
      destruct (negb false && _); reflexivity.
    + apply createFailureResult_error. discriminate.
Qed.
(** ** Strings *)

Lemma truthy_true (s : string) : JsString.truthy s = true <-> s <> "".
Proof.
  unfold JsString.truthy. destruct (String.eqb_spec s ""); split; intros H;
    try reflexivity; try discriminate; congruence.
Qed.

Lemma split_nonempty (sep : ascii) (s : string) : JsString.split sep s <> [].
Proof.
  destruct s as [| c r]; cbn [JsString.split]; [discriminate |].
  destruct (Ascii.eqb c sep); [discriminate |].
  destruct (JsString.split sep r); discriminate.
Qed.

(** A split with one part has met no separator. *)
Lemma split_one_inv (sep : ascii) (s part : string) :
  JsString.split sep s = [part] -> s = part /\ freeOf sep part = true.
Proof.
  revert part. induction s as [| c r IH]; intros part H.
  - cbn in H. injection H as <-. split; reflexivity.
  - cbn [JsString.split] in H. destruct (Ascii.eqb c sep) eqn:Hc.
    + injection H as _ H. exfalso. exact (split_nonempty sep r H).
    + destruct (JsString.split sep r) as [| p ps] eqn:Hs;
        [exfalso; exact (split_nonempty sep r Hs) |].
      injection H as <- ->.
      destruct (IH p eq_refl) as [-> Hfree].
      split; [reflexivity |]. cbn [freeOf]. rewrite Hc, Hfree. reflexivity.
Qed.

(** A split with two parts has met exactly one separator, between them. *)
Lemma split_two_inv (sep : ascii) (s a b : string) :
  JsString.split sep s = [a; b] ->
  s = a +:+ String sep b /\ freeOf sep a = true /\ freeOf sep b = true.
Proof.
  revert a. induction s as [| c r IH]; intros a H.
  - discriminate.
  - cbn [JsString.split] in H. destruct (Ascii.eqb c sep) eqn:Hc.
    + injection H as <- H. apply Ascii.eqb_eq in Hc. subst c.
      destruct (split_one_inv sep r b H) as [-> Hfree].
      repeat split. exact Hfree.
    + destruct (JsString.split sep r) as [| p ps] eqn:Hs; [discriminate |].
      injection H as <- ->.
      destruct (IH p eq_refl) as (-> & Ha & Hb).
      repeat split; [| exact Hb]. cbn [freeOf]. rewrite Hc, Ha. reflexivity.
Qed.

(** ** Auth middleware and request handler *)

(** X10. [extractToken] returns a token exactly when the value read from
    the headers is "Bearer", one space, and the token, and the token holds
    no further space; the token returned is that one. (The token may be
    empty: the value "Bearer " gives the empty token, which
    [validateRequest] then treats as missing.) *)
Theorem extractToken_returns_the_bearer_token (headers : gmap string string)
    (token : string) :
  AuthMiddleware.extractToken headers = Some token
  <-> authorizationValue headers = Some ("Bearer " +:+ token)
      /\ freeOf " " token = true.
Proof.
  split.
  - unfold AuthMiddleware.extractToken, authorizationValue.
    destruct (JsString.or_opt _ _) as [value |]; [| discriminate].
    destruct (JsString.truthy value); cbn [negb]; [| discriminate].
    destruct (JsString.split " " value) as [| a [| b [| c rest]]] eqn:Hsplit;
      cbn; try discriminate.
    destruct (bool_decide (Some a = Some "Bearer")) eqn:Hscheme;
      cbn [negb]; [| discriminate].
    apply bool_decide_eq_true in Hscheme. injection Hscheme as ->.
    intros H. injection H as ->.
    destruct (split_two_inv " " value "Bearer" token Hsplit) as (-> & _ & Hfree).
    split; [reflexivity | exact Hfree].
  - intros [Hvalue Hfree]. apply extractToken_bearer; assumption.
Qed.

(** X11. A non-empty value under the key [authorization] hides the key
    [Authorization]: the token is extracted from the lower-case entry
    alone, so a malformed lower-case entry makes [extractToken] return null
    even when the capitalised entry is well formed. *)
Theorem lowercase_header_takes_precedence (headers : gmap string string)
    (value : string) :
  headers !! "authorization" = Some value ->
  value <> "" ->
  AuthMiddleware.extractToken headers
  = AuthMiddleware.extractToken {[ "authorization" := value ]}.
Proof.
  intros Hlower Hvalue. unfold AuthMiddleware.extractToken.
  rewrite Hlower, lookup_singleton_eq.
  unfold JsString.or_opt. cbn [JsString.truthy_opt].
  rewrite (proj2 (truthy_true value) Hvalue). reflexivity.
Qed.

Lemma lowercase_header_takes_precedence_witness :
  AuthMiddleware.extractToken
    (<[ "authorization" := "Basic dXNlcjpwdw==" ]>
       {[ "Authorization" := "Bearer abc123" ]})
  = None.
Proof.
  rewrite (lowercase_header_takes_precedence _ "Basic dXNlcjpwdw==").
  - reflexivity.
  - apply lookup_insert_eq.
  - discriminate.
Defined.

Section MoreGatewayFacts.

Context {platform : Platform}.

(** The run of [validateRequest] for headers that carry a non-empty
    token. *)
Lemma validateRequest_with_token (headers : gmap string string) (token : string)
    (w : world) :
  AuthMiddleware.extractToken headers = Some token ->
  token <> "" ->
  AuthMiddleware.validateRequest headers w
  = match cognitoGetUser token w with
    | Run (Ret username) w1 ev1 =>
        Run (Ret (TokenValidationResult.Build true username None)) w1 ev1
    | Run (Raise error) w1 ev1 =>
        match message_of error with
        | Ret message =>
            Run (Ret (TokenValidationResult.Build false None
                        (Some (JsString.or_else message
                                 "Token validation failed"))))
                w1 ev1
        | Raise typeError => Run (Raise typeError) w1 ev1
        end
    end.
Proof.
  intros Htoken Hne. unfold AuthMiddleware.validateRequest.
  rewrite Htoken. change (default "" (Some token)) with token.
  cbn [JsString.truthy_opt].
  rewrite (proj2 (truthy_true token) Hne). cbn [negb].
  unfold AuthMiddleware.validateToken, try_catch, bind, ret, throw.
  destruct (cognitoGetUser token w) as [[username | error] w1 ev1];
    cbv beta iota; [rewrite app_nil_r; reflexivity |].
  destruct (message_of error); rewrite app_nil_r; reflexivity.
Qed.

Lemma or_else_nonempty (a : option string) (fallback : string) :
  fallback <> "" -> JsString.or_else a fallback <> "".
Proof.
  intros Hf. unfold JsString.or_else. destruct a as [s |]; [| exact Hf].
  destruct (JsString.truthy s) eqn:Hs; [| exact Hf].
  apply truthy_true. exact Hs.
Qed.

Lemma or_else_truthy (s fallback : string) :
  s <> "" -> JsString.or_else (Some s) fallback = s.
Proof.
  intros Hs. unfold JsString.or_else.
  rewrite (proj2 (truthy_true s) Hs). reflexivity.
Qed.

Lemma connect_run (serverUrl : string) (w : world) :
  MCPConnector.connect serverUrl w
  = Run (Ret tt) (final (MCPConnector.connect serverUrl w)) [].
Proof.
  unfold MCPConnector.connect.
  destruct (connections w !! serverUrl) as [[|] |]; reflexivity.
Qed.

(** The run of the operation [handleRequest] wraps, once the token is
    validated and the body parsed, in terms of the answer of [fetch]. *)
Lemma handleOperation_forward_run
    (handler : StreamableHttpHandler.HttpHandlerConfig)
    (request : IncomingRequest.t) (w w1 : world) (token : string)
    (username : option string) (ev1 : list event) (mcpRequest : option json) :
  AuthMiddleware.extractToken (IncomingRequest.headers request) = Some token ->
  token <> "" ->
  cognitoGetUser token w = Run (Ret username) w1 ev1 ->
  StreamableHttpHandler.parseMCPRequest (IncomingRequest.body request) w1
  = Run (Ret mcpRequest) w1 [] ->
  StreamableHttpHandler.handleOperation handler request w
  = match fetch (StreamableHttpHandler.mcpServerUrl handler)
            (JSON_stringify <$> mcpRequest)
            (final (MCPConnector.connect
                      (StreamableHttpHandler.mcpServerUrl handler) w1)) with
    | Run (Ret upstream) w3 ev3 =>
        let events :=
          ev1 ++ CallForwardRequest (StreamableHttpHandler.mcpServerUrl handler)
              :: ev3 in
        if negb (Response.ok upstream) then
          Run (Raise (JsError (upstreamError upstream))) w3 events
        else
          match Response.body upstream with
          | Some body =>
              Run (Ret (StreamableResponse.Build (Response.status upstream)
                          streamingHeaders (BodyStream body))) w3 events
          | None => Run (Raise (JsError "Response body is null")) w3 events
          end
    | Run (Raise error) w3 ev3 =>
        Run (Raise error) w3
            (ev1 ++ CallForwardRequest (StreamableHttpHandler.mcpServerUrl handler)
                 :: ev3)
    end.
Proof.
  intros Htoken Hne Hcognito Hparse.
  unfold StreamableHttpHandler.handleOperation.
  unfold bind at 1.
  rewrite (validateRequest_with_token _ token w Htoken Hne), Hcognito.
  cbn [TokenValidationResult.valid negb].
  unfold bind at 1. rewrite Hparse.
  unfold bind at 1, call, MCPConnector.forwardRequest.
  unfold bind at 1. rewrite connect_run.
  unfold bind at 1.
  destruct (fetch _ _ _) as [[upstream | error] w3 ev3]; [| reflexivity].
  cbv zeta. destruct (negb (Response.ok upstream)).
  { unfold throw. cbv beta iota. cbn [app]. rewrite ?app_nil_r. reflexivity. }
  unfold StreamHandler.createStreamingResponse, ret, throw.
  destruct (Response.body upstream) as [body |];
    cbv beta iota; cbn [app]; rewrite ?app_nil_r; reflexivity.
Qed.

End MoreGatewayFacts.

(** X12. [validateRequest] throws only when the identity provider rejects
    the token with [null] or [undefined]: the [catch] of [validateToken]
    then throws the [TypeError] of reading [message] from it. In every
    other case it returns. It reports a valid token only for headers that
    carry a non-empty bearer token the identity provider accepted, and the
    user id is the provider's answer. Every invalid result carries a
    non-empty error message and no user id; when the provider rejects the
    token with an [Error] whose message is not empty, that message is the
    error, unchanged. *)
Theorem validateRequest_outcome (platform : Platform)
    (headers : gmap string string) (w : world) :
  (exists r w1 ev1,
      AuthMiddleware.validateRequest headers w = Run (Ret r) w1 ev1
      /\ (TokenValidationResult.valid r = true ->
          exists token,
            AuthMiddleware.extractToken headers = Some token
            /\ token <> ""
            /\ cognitoGetUser token w
               = Run (Ret (TokenValidationResult.userId r)) w1 ev1
            /\ TokenValidationResult.error r = None)
      /\ (TokenValidationResult.valid r = false ->
          TokenValidationResult.userId r = None
          /\ exists message,
               TokenValidationResult.error r = Some message /\ message <> "")
      /\ (forall token message,
            AuthMiddleware.extractToken headers = Some token ->
            token <> "" ->
            result (cognitoGetUser token w) = Raise (JsError message) ->
            message <> "" ->
            r = TokenValidationResult.Build false None (Some message)))
  \/ (exists token rejection typeError w1 ev1,
        AuthMiddleware.extractToken headers = Some token
        /\ token <> ""
        /\ cognitoGetUser token w = Run (Raise rejection) w1 ev1
        /\ (rejection = JsNull \/ rejection = JsUndefined)
        /\ AuthMiddleware.validateRequest headers w
           = Run (Raise (JsError typeError)) w1 ev1).
Proof.
  destruct (AuthMiddleware.extractToken headers) as [token |] eqn:Htoken.
  2: { left. exists missingOrInvalid, w, [].
       split; [apply validateRequest_rejected; exact Htoken |].
       split; [discriminate |]. split; [| discriminate].
       intros _. split; [reflexivity |]. eexists. split; [reflexivity |].
       discriminate. }
  destruct (String.eqb_spec token "") as [-> | Hne].
  { left. exists missingOrInvalid, w, [].
    split; [unfold AuthMiddleware.validateRequest; rewrite Htoken; reflexivity |].
    split; [discriminate |]. split.
    - intros _. split; [reflexivity |]. eexists. split; [reflexivity |].
      discriminate.
    - intros token message H. injection H as <-. congruence. }
  rewrite (validateRequest_with_token headers token w Htoken Hne).
  destruct (cognitoGetUser token w) as [[username | error] w1 ev1] eqn:Hcognito.
  - left. do 3 eexists. split; [reflexivity |].
    cbn [TokenValidationResult.valid TokenValidationResult.userId
         TokenValidationResult.error].
    split; [| split; [discriminate |]].
    + intros _. exists token.
      split; [reflexivity |]. split; [exact Hne |].
      split; [exact Hcognito | reflexivity].
    + intros token' message H _ Hraise. injection H as <-.
      rewrite Hcognito in Hraise. discriminate.
  - destruct (message_of error) as [message | typeError] eqn:Hmessage.
    + left. do 3 eexists. split; [reflexivity |].
      cbn [TokenValidationResult.valid TokenValidationResult.userId
           TokenValidationResult.error].
      split; [discriminate |]. split.
      * intros _. split; [reflexivity |]. eexists. split; [reflexivity |].
        apply or_else_nonempty. discriminate.
      * intros token' text H _ Hraise Htext. injection H as <-.
        rewrite Hcognito in Hraise. cbn in Hraise. injection Hraise as ->.
        cbn in Hmessage. injection Hmessage as <-.
        rewrite (or_else_truthy text _ Htext). reflexivity.
    + right. destruct error as [text | repr | |]; try discriminate;
        cbn in Hmessage; injection Hmessage as <-;
        do 5 eexists;
        (split; [reflexivity |]); (split; [exact Hne |]);
        (split; [exact Hcognito |]); (split; [auto | reflexivity]).
Qed.

Lemma validateRequest_outcome_witness :
  result (@AuthMiddleware.validateRequest silentPlatform
            {[ "authorization" := "Bearer good-token" ]} world0)
  = Raise (JsError "Cannot read properties of undefined (reading 'message')")
  /\ result (@AuthMiddleware.validateRequest demoPlatform
               {[ "authorization" := "Bearer stale-token" ]} world0)
     = Ret (TokenValidationResult.Build false None
              (Some "Access Token has expired")).
Proof.
  split.
  - destruct (validateRequest_outcome silentPlatform
                {[ "authorization" := "Bearer good-token" ]} world0)
      as [(r & w1 & ev1 & Hrun & _)
         | (token & rejection & typeError & w1 & ev1 & _ & _ & _ & _ & Hrun)];
      rewrite Hrun; vm_compute in Hrun; [discriminate Hrun |].
    injection Hrun as <- _ _. reflexivity.
  - destruct (validateRequest_outcome demoPlatform
                {[ "authorization" := "Bearer stale-token" ]} world0)
      as [(r & w1 & ev1 & Hrun & _ & _ & Hverbatim)
         | (token & rejection & typeError & w1 & ev1 & _ & _ & _ & _ & Hrun)].
    + rewrite Hrun. cbn [result]. f_equal.
      apply (Hverbatim "stale-token" "Access Token has expired");
        [reflexivity | discriminate | reflexivity | discriminate].
    + vm_compute in Hrun. discriminate Hrun.
Defined.

(** X13. A request with a bearer token the provider accepts, whose body
    parses, and to which the backend answers ok with a body, is forwarded
    once to the configured server URL: the response has the status of the
    upstream response, the four streaming headers (among them
    [Transfer-Encoding: chunked]) and the upstream body as its stream, and
    the connection to the server is cached as connected when [fetch] is
    called. *)
Theorem handleRequest_relays_the_upstream_response (platform : Platform)
    (handler : StreamableHttpHandler.HttpHandlerConfig)
    (request : IncomingRequest.t) (w w1 w3 : world) (token : string)
    (username : option string) (ev1 ev3 : list event)
    (mcpRequest : option json) (upstream : Response.t) (body : UpstreamBody) :
  AuthMiddleware.extractToken (IncomingRequest.headers request) = Some token ->
  token <> "" ->
  cognitoGetUser token w = Run (Ret username) w1 ev1 ->
  StreamableHttpHandler.parseMCPRequest (IncomingRequest.body request) w1
  = Run (Ret mcpRequest) w1 [] ->
  fetch (StreamableHttpHandler.mcpServerUrl handler)
    (JSON_stringify <$> mcpRequest)
    (final (MCPConnector.connect (StreamableHttpHandler.mcpServerUrl handler) w1))
  = Run (Ret upstream) w3 ev3 ->
  Response.ok upstream = true ->
  Response.body upstream = Some body ->
  StreamableHttpHandler.handleRequest handler request w
  = Run (Ret (StreamableResponse.Build (Response.status upstream)
                streamingHeaders (BodyStream body)))
        w3
        (ev1 ++ CallForwardRequest (StreamableHttpHandler.mcpServerUrl handler)
             :: ev3)
  /\ streamingHeaders !! "Transfer-Encoding" = Some "chunked"
  /\ connections
       (final (MCPConnector.connect
                 (StreamableHttpHandler.mcpServerUrl handler) w1))
     !! StreamableHttpHandler.mcpServerUrl handler = Some true.
Proof.
  intros Htoken Hne Hcognito Hparse Hfetch Hok Hbody.
  split; [| split; [reflexivity |]].
  - unfold StreamableHttpHandler.handleRequest, bind.
    rewrite (withErrorHandling_value _ w
               (StreamableResponse.Build (Response.status upstream)
                  streamingHeaders (BodyStream body)));
      rewrite (handleOperation_forward_run handler request w w1 token username
                 ev1 mcpRequest Htoken Hne Hcognito Hparse),
              Hfetch; cbv zeta; rewrite Hok, Hbody; cbn [negb];
      [| reflexivity].
    cbn [result final emitted ret]. rewrite app_nil_r. reflexivity.
  - unfold MCPConnector.connect.
    destruct (connections w1 !! StreamableHttpHandler.mcpServerUrl handler)
      as [[|] |] eqn:Hc; cbn [final connections];
      [exact Hc | apply lookup_insert_eq | apply lookup_insert_eq].
Qed.

Lemma handleRequest_relays_the_upstream_response_witness :
  @StreamableHttpHandler.handleRequest demoPlatform demoHandler
    (requestWith {[ "authorization" := "Bearer good-token" ]}) world0
  = Run (Ret (StreamableResponse.Build 200 streamingHeaders
                (BodyStream (Upstream ["[1,"; "2]"] ReadDone))))
        (World 1700000000000 ["k3x9q2"] {[ "http://127.0.0.1:8000/mcp" := true ]})
        [CallForwardRequest "http://127.0.0.1:8000/mcp"].
Proof.
  destruct (handleRequest_relays_the_upstream_response demoPlatform demoHandler
              (requestWith {[ "authorization" := "Bearer good-token" ]})
              world0 world0
              (World 1700000000000 ["k3x9q2"]
                 {[ "http://127.0.0.1:8000/mcp" := true ]})
              "good-token" (Some "alice") [] [] (Some (JObj []))
              (Response.Build true 200 "OK"
                 (Some (Upstream ["[1,"; "2]"] ReadDone)))
              (Upstream ["[1,"; "2]"] ReadDone))
    as (Hrun & _);
    [reflexivity | discriminate | reflexivity | reflexivity
     | vm_compute; reflexivity | reflexivity | reflexivity |].
  exact Hrun.
Defined.

(** X14. When the identity provider rejects the token, the request is not
    forwarded, and only the provider has acted on the environment. For a
    rejection with an [Error], or with any value other than [null] and
    [undefined], [handleRequest] answers 401 with the rejection's message
    (or 'Token validation failed' when the rejection has no message or an
    empty one) and the header [WWW-Authenticate: Bearer]. For a rejection
    with [null] or [undefined], reading its [message] throws in
    [validateToken], and the answer is the JSON error response for that
    [TypeError], with status 500. *)
Theorem handleRequest_reports_the_provider_rejection (platform : Platform)
    (handler : StreamableHttpHandler.HttpHandlerConfig)
    (request : IncomingRequest.t) (w w1 : world) (token : string)
    (error : thrown) (ev1 : list event) :
  AuthMiddleware.extractToken (IncomingRequest.headers request) = Some token ->
  token <> "" ->
  cognitoGetUser token w = Run (Raise error) w1 ev1 ->
  match message_of error with
  | Ret message =>
      let details := JsString.or_else message "Token validation failed" in
      StreamableHttpHandler.handleRequest handler request w
      = Run (Ret (AuthMiddleware.createUnauthorizedResponse details)) w1 ev1
      /\ StreamableResponse.status
           (AuthMiddleware.createUnauthorizedResponse details) = 401
      /\ StreamableResponse.headers
           (AuthMiddleware.createUnauthorizedResponse details)
         !! "WWW-Authenticate" = Some "Bearer"
  | Raise typeError =>
      exists response text,
        StreamableHttpHandler.handleRequest handler request w
        = Run (Ret response) w1 ev1
        /\ StreamableResponse.status response = 500
        /\ StreamableResponse.body response = BodyString text
  end.
Proof.
  intros Htoken Hne Hcognito.
  pose proof (validateRequest_with_token (IncomingRequest.headers request)
                token w Htoken Hne) as Hvalidate.
  rewrite Hcognito in Hvalidate.
  destruct (message_of error) as [message | typeError] eqn:Hmessage.
  - cbv zeta. split; [| split; reflexivity].
    assert (Hop : StreamableHttpHandler.handleOperation handler request w
                  = Run (Ret (AuthMiddleware.createUnauthorizedResponse
                                (JsString.or_else message
                                   "Token validation failed")))
                        w1 ev1).
    { unfold StreamableHttpHandler.handleOperation. unfold bind at 1.
      rewrite Hvalidate.
      cbn [TokenValidationResult.valid TokenValidationResult.error negb].
      unfold ret. rewrite app_nil_r.
      rewrite or_else_truthy; [reflexivity |].
      apply or_else_nonempty. discriminate. }
    unfold StreamableHttpHandler.handleRequest, bind.
    rewrite (withErrorHandling_value _ w
               (AuthMiddleware.createUnauthorizedResponse
                  (JsString.or_else message "Token validation failed")))
      by (rewrite Hop; reflexivity).
    rewrite Hop. cbn [result final emitted ret]. rewrite app_nil_r. reflexivity.
  - assert (Hop : StreamableHttpHandler.handleOperation handler request w
                  = Run (Raise typeError) w1 ev1).
    { unfold StreamableHttpHandler.handleOperation. unfold bind at 1.
      rewrite Hvalidate. reflexivity. }
    unfold StreamableHttpHandler.handleRequest, bind.
    unfold TransmissionErrorHandler.withErrorHandling, try_catch, bind.
    rewrite Hop.
    destruct error as [text | repr | |]; try discriminate;
      cbn in Hmessage; injection Hmessage as <-;
      cbn [TransmissionErrorHandler.categorizeError message_of];
      unfold TransmissionErrorHandler.createErrorResponse, bind, Date_now, ret;
      cbv beta iota; cbn [app]; rewrite !app_nil_r;
      do 2 eexists; (split; [reflexivity |]); split; reflexivity.
Qed.

Lemma handleRequest_reports_the_provider_rejection_witness :
  @StreamableHttpHandler.handleRequest demoPlatform demoHandler
    (requestWith {[ "Authorization" := "Bearer stale-token" ]}) world0
  = Run (Ret (@AuthMiddleware.createUnauthorizedResponse demoPlatform
                "Access Token has expired")) world0 [].
Proof.
  pose proof (handleRequest_reports_the_provider_rejection demoPlatform
                demoHandler
                (requestWith {[ "Authorization" := "Bearer stale-token" ]})
                world0 world0 "stale-token" (JsError "Access Token has expired")
                [] eq_refl ltac:(discriminate) eq_refl) as Hcases.
  cbn [message_of] in Hcases. cbv zeta in Hcases.
  destruct Hcases as (Hrun & _). exact Hrun.
Defined.

(** X15. An upstream response is relayed only if it is ok and has a body.
    When the backend answers with a response that is not ok, or with an ok
    response without a body, [handleRequest] returns a JSON error response
    instead: its status is the one the error handler gives to the message
    "MCP server returned error: <status> <statusText>" (respectively
    "Response body is null"), not the upstream status, and its body is a
    string, not the upstream stream. *)
Theorem handleRequest_does_not_relay_upstream_errors (platform : Platform)
    (handler : StreamableHttpHandler.HttpHandlerConfig)
    (request : IncomingRequest.t) (w w1 w3 : world) (token : string)
    (username : option string) (ev1 ev3 : list event)
    (mcpRequest : option json) (upstream : Response.t) :
  AuthMiddleware.extractToken (IncomingRequest.headers request) = Some token ->
  token <> "" ->
  cognitoGetUser token w = Run (Ret username) w1 ev1 ->
  StreamableHttpHandler.parseMCPRequest (IncomingRequest.body request) w1
  = Run (Ret mcpRequest) w1 [] ->
  fetch (StreamableHttpHandler.mcpServerUrl handler)
    (JSON_stringify <$> mcpRequest)
    (final (MCPConnector.connect (StreamableHttpHandler.mcpServerUrl handler) w1))
  = Run (Ret upstream) w3 ev3 ->
  Response.ok upstream = false \/ Response.body upstream = None ->
  exists response text,
    StreamableHttpHandler.handleRequest handler request w
    = Run (Ret response) w3
          (ev1 ++ CallForwardRequest (StreamableHttpHandler.mcpServerUrl handler)
               :: ev3)
    /\ StreamableResponse.body response = BodyString text
    /\ StreamableResponse.status response
       = spec_expectedStatus
           (if Response.ok upstream then "Response body is null"
            else upstreamError upstream).
Proof.
  intros Htoken Hne Hcognito Hparse Hfetch Hbad.
  set (message := if Response.ok upstream then "Response body is null"
                  else upstreamError upstream).
  assert (Hop : StreamableHttpHandler.handleOperation handler request w
                = Run (Raise (JsError message)) w3
                      (ev1 ++ CallForwardRequest
                                (StreamableHttpHandler.mcpServerUrl handler)
                           :: ev3)).
  { rewrite (handleOperation_forward_run handler request w w1 token username
               ev1 mcpRequest Htoken Hne Hcognito Hparse), Hfetch.
    cbv zeta. subst message.
    destruct (Response.ok upstream); cbn [negb]; [| reflexivity].
    destruct Hbad as [Hbad | Hbad]; [discriminate |]. rewrite Hbad.
    reflexivity. }
  unfold StreamableHttpHandler.handleRequest, bind.
  unfold TransmissionErrorHandler.withErrorHandling, try_catch, bind.
  rewrite Hop. cbn [TransmissionErrorHandler.categorizeError message_of].
  unfold TransmissionErrorHandler.createErrorResponse, bind, Date_now, ret.
  cbv beta iota. cbn [app]. rewrite !app_nil_r.
  do 2 eexists. split; [reflexivity |]. split; [reflexivity |].
  apply getStatusCode_categorizeMessage.
Qed.

Lemma handleRequest_does_not_relay_upstream_errors_witness :
  exists response,
    result (@StreamableHttpHandler.handleRequest forbiddingPlatform demoHandler
              (requestWith {[ "authorization" := "Bearer good-token" ]}) world0)
    = Ret response
    /\ StreamableResponse.status response = 401.
Proof.
  destruct (handleRequest_does_not_relay_upstream_errors forbiddingPlatform
              demoHandler
              (requestWith {[ "authorization" := "Bearer good-token" ]})
              world0 world0
              (World 1700000000000 ["k3x9q2"]
                 {[ "http://127.0.0.1:8000/mcp" := true ]})
              "good-token" (Some "alice") [] [] (Some (JObj []))
              (Response.Build false 403 "Forbidden" None))
    as (response & text & Hrun & _ & Hstatus);
    [reflexivity | discriminate | reflexivity | reflexivity
     | vm_compute; reflexivity | left; reflexivity |].
  exists response. split; [rewrite Hrun; reflexivity |].
  rewrite Hstatus. vm_compute. reflexivity.
Defined.



(** ** Transmission error handler *)



(** ** Stream handler *)



(** ** MCP connector *)

(** X19. [connect] keeps one cached connection per server URL: afterwards
    the URL is cached as connected and every other entry of the cache is
    as before; connecting again changes nothing; and a URL that is already
    cached as connected is left as it is. It touches neither the clock nor
    the trace. *)
Theorem connect_caches_one_connection_per_url (serverUrl : string) (w : world) :
  let w1 := final (MCPConnector.connect serverUrl w) in
  MCPConnector.connect serverUrl w = Run (Ret tt) w1 []
  /\ connections w1 !! serverUrl = Some true
  /\ (forall other, other <> serverUrl ->
        connections w1 !! other = connections w !! other)
  /\ now w1 = now w
  /\ MCPConnector.connect serverUrl w1 = Run (Ret tt) w1 []
  /\ (connections w !! serverUrl = Some true -> w1 = w).
Proof.
  cbv zeta. unfold MCPConnector.connect.
  destruct (connections w !! serverUrl) as [[|] |] eqn:Hc;
    cbn [final connections now entropy].
  - rewrite Hc. repeat split; auto.
  - rewrite lookup_insert_eq. repeat split; try discriminate.
    intros other Hother. apply lookup_insert_ne. congruence.
  - rewrite lookup_insert_eq. repeat split; try discriminate.
    intros other Hother. apply lookup_insert_ne. congruence.
Qed.

Lemma connect_caches_one_connection_per_url_witness :
  connections (final (MCPConnector.connect "http://127.0.0.1:8000/mcp" world0))
  !! "http://127.0.0.1:8000/mcp" = Some true
  /\ connections (final (MCPConnector.connect "http://127.0.0.1:8000/mcp" world0))
     !! "http://10.0.0.1/mcp" = None.
Proof.
  destruct (connect_caches_one_connection_per_url "http://127.0.0.1:8000/mcp"
              world0) as (_ & Hcached & Hothers & _).
  split; [exact Hcached |].
  rewrite (Hothers "http://10.0.0.1/mcp"); [reflexivity | discriminate].
Defined.
(** ** MCP connector: closing *)

Lemma disconnect_run (serverUrl : string) (w : world) :
  Disconnect.disconnect serverUrl w
  = Run (Ret tt)
        (World (now w) (entropy w) (delete serverUrl (connections w))) [].
Proof.
  unfold Disconnect.disconnect.
  destruct (connections w !! serverUrl) eqn:Hc; [reflexivity |].
  rewrite (delete_id _ _ Hc). destruct w; reflexivity.
Qed.

(** Disconnecting each URL of a list removes exactly these URLs. *)
Lemma disconnect_each (urls : list string) (w : world) :
  exists remaining : gmap string bool,
    foldr (fun url later => Disconnect.disconnect url ;;; later) (ret tt) urls w
    = Run (Ret tt) (World (now w) (entropy w) remaining) []
    /\ forall url,
         remaining !! url
         = if bool_decide (url ∈ urls) then None else connections w !! url.
Proof.
  revert w. induction urls as [| first rest IH]; intros w.
  - exists (connections w). split; [destruct w; reflexivity |].
    intros url. rewrite bool_decide_eq_false_2 by apply not_elem_of_nil.
    reflexivity.
  - destruct (IH (World (now w) (entropy w) (delete first (connections w))))
      as (remaining & Hrun & Hlookup).
    exists remaining. split.
    + cbn [foldr]. unfold bind at 1. rewrite disconnect_run, Hrun. reflexivity.
    + intros url. rewrite Hlookup. cbn [connections].
      destruct (decide (url = first)) as [-> | Hne].
      * rewrite (bool_decide_eq_true_2 (first ∈ first :: rest))
          by (apply elem_of_cons; left; reflexivity).
        rewrite lookup_delete_eq. destruct (bool_decide _); reflexivity.
      * rewrite lookup_delete_ne by congruence.
        destruct (bool_decide (url ∈ rest)) eqn:Hin.
        -- apply bool_decide_eq_true in Hin.
           rewrite bool_decide_eq_true_2 by (apply elem_of_cons; right; exact Hin).
           reflexivity.
        -- apply bool_decide_eq_false in Hin.
           rewrite bool_decide_eq_false_2; [reflexivity |].
           intros H. apply elem_of_cons in H as [H | H]; contradiction.
Qed.

(** X20. [disconnectAll], and so the handler's [close], empties the
    connection cache and touches nothing else; [disconnect] removes the
    given URL from the cache, whether or not it was there; a connection is
    gone after [connect] followed by [disconnect]; and after [close] a new
    [connect] caches the URL again, alone. *)
Theorem disconnectAll_empties_the_cache (w : world) :
  Disconnect.disconnectAll w = Run (Ret tt) (World (now w) (entropy w) ∅) []
  /\ Disconnect.close w = Run (Ret tt) (World (now w) (entropy w) ∅) []
  /\ (forall serverUrl,
        Disconnect.disconnect serverUrl w
        = Run (Ret tt)
              (World (now w) (entropy w) (delete serverUrl (connections w))) [])
  /\ (forall serverUrl,
        connections
          (final ((MCPConnector.connect serverUrl ;;;
                   Disconnect.disconnect serverUrl) w))
        !! serverUrl = None)
  /\ (forall serverUrl,
        connections
          (final ((Disconnect.close ;;; MCPConnector.connect serverUrl) w))
        = {[ serverUrl := true ]}).
Proof.
  assert (Hall : Disconnect.disconnectAll w
                 = Run (Ret tt) (World (now w) (entropy w) ∅) []).
  { unfold Disconnect.disconnectAll.
    destruct (disconnect_each ((map_to_list (connections w)).*1) w)
      as (remaining & Hrun & Hlookup).
    rewrite Hrun. replace remaining with (∅ : gmap string bool); [reflexivity |].
    symmetry. apply map_empty. intros url. rewrite Hlookup.
    destruct (bool_decide _) eqn:Hin; [reflexivity |].
    apply bool_decide_eq_false in Hin.
    destruct (connections w !! url) as [flag |] eqn:Hc; [| reflexivity].
    exfalso. apply Hin. apply list_elem_of_fmap. exists (url, flag).
    split; [reflexivity |]. apply elem_of_map_to_list. exact Hc. }
  split; [exact Hall |]. split; [exact Hall |].
  split; [intros serverUrl; apply disconnect_run |]. split.
  - intros serverUrl. unfold bind. rewrite connect_run, disconnect_run.
    cbn [final connections]. apply lookup_delete_eq.
  - intros serverUrl. unfold bind, Disconnect.close. rewrite Hall.
    unfold MCPConnector.connect. cbn [connections].
    rewrite lookup_empty. cbn [final connections]. apply insert_empty.
Qed.

(** ** Build progress *)

(** X21. The build monitor's percentage lies between 0 and 90 for every
    build: it never reaches 100, not even in the COMPLETED phase. The
    build service's percentage is not bounded by 100: it exceeds 100 as
    soon as more than five of the recorded phases have succeeded. *)
Theorem progress_percentage_bounds :
  (forall build,
      exists p,
        BuildProgress.percentage (Monitor.buildToBuildProgress build) = Some p
        /\ 0 <= p <= 90)
  /\ (forall build,
        (5 < CodeBuild.completedPhases build <= 22)%nat ->
        exists p,
          BuildProgress.percentage (CodeBuild.buildToBuildProgress build) = Some p
          /\ 100 < p).
Proof.
  split.
  - intros build. rewrite monitor_percentage_is_index_based.
    eexists. split; [reflexivity |]. unfold spec_indexPercentage.
    destruct (Monitor.indexOf _ Monitor.phaseOrder) as [index |] eqn:Hindex;
      [| lia].
    apply indexOf_bound in Hindex. cbn [length Monitor.phaseOrder] in Hindex.
    do 11 (destruct index as [| index]; [vm_compute; split; discriminate |]).
    lia.
  - intros build [Hlow Hhigh].
    exists (20 * Z.of_nat (CodeBuild.completedPhases build)).
    unfold CodeBuild.buildToBuildProgress. cbn [BuildProgress.percentage].
    rewrite (codebuild_percentageOf_small _ Hhigh). split; [reflexivity | lia].
Qed.

Lemma progress_percentage_bounds_witness :
  exists p,
    BuildProgress.percentage (CodeBuild.buildToBuildProgress completedOfAll)
    = Some p
    /\ 100 < p.
Proof.
  destruct progress_percentage_bounds as [_ Hservice].
  apply (Hservice completedOfAll). vm_compute. lia.
Defined.

(** ** Build service and build monitor *)

(** X22. [pollBuildStatus] throws "Build <id> not found" when the service
    returns no build. Otherwise its result is for the first build
    returned: it reports success exactly when the build status is
    SUCCEEDED, carries the build status as its error otherwise (so no
    error at all for a build that has no status yet), and never carries
    an image URI. *)
Theorem pollBuildStatus_outcome
    (batchGetBuilds : string -> M (option (list Sdk.Build)))
    (buildId : string) (w w1 : world) (ev : list event)
    (builds : option (list Sdk.Build)) :
  batchGetBuilds buildId w = Run (Ret builds) w1 ev ->
  match builds with
  | Some (build :: _) =>
      exists r,
        BuildService.pollBuildStatus batchGetBuilds buildId w = Run (Ret r) w1 ev
        /\ (BuildResult.success r = true
            <-> Sdk.buildStatus build = Some "SUCCEEDED")
        /\ BuildResult.error r
           = (if BuildResult.success r then None else Sdk.buildStatus build)
        /\ BuildResult.imageUri r = None
        /\ BuildResult.buildId r = Sdk.id build
  | _ =>
      BuildService.pollBuildStatus batchGetBuilds buildId w
      = Run (Raise (JsError ("Build " +:+ buildId +:+ " not found"))) w1 ev
  end.
Proof.
  intros Hclient. unfold BuildService.pollBuildStatus, bind. rewrite Hclient.
  destruct builds as [[| build others] |];
    cbn; rewrite ?app_nil_r; try reflexivity.
  eexists. split; [reflexivity |].
  cbn [BuildResult.success BuildResult.error BuildResult.imageUri
       BuildResult.buildId].
  split; [apply bool_decide_eq_true |]. repeat split.
Qed.

Lemma pollBuildStatus_outcome_witness :
  exists r,
    BuildService.pollBuildStatus (scheduledClient demoSchedule) "demo-build:1"
      world0 = Run (Ret r) world0 []
    /\ BuildResult.error r = Some "IN_PROGRESS"
    /\ BuildResult.imageUri r = None.
Proof.
  destruct (pollBuildStatus_outcome (scheduledClient demoSchedule) "demo-build:1"
              world0 world0 [] (Some [runningBuild]) eq_refl)
    as (r & Hrun & Hsuccess & Herror & Himage & _).
  exists r. split; [exact Hrun |]. split; [| exact Himage].
  rewrite Herror. destruct (BuildResult.success r) eqn:Hs; [| reflexivity].
  pose proof (proj1 Hsuccess eq_refl) as Hstatus. discriminate.
Defined.

Lemma shifted_poll (t : Z) (k : nat) :
  t + 5000 + 5000 * Z.of_nat k = t + 5000 * Z.of_nat (S k).
Proof. lia. Qed.

(** The monitor's loop from any last reported phase, for a build that
    completes at the [n]-th poll from now. *)
Lemma monitorBuild_loop_run (schedule : Z -> Sdk.Build)
    (mark : BuildProgress.t -> event) (buildId : string) (n : nat) :
  forall (w : world) (polls : nat) (lastPhase : string),
    (forall k, (k < n)%nat ->
       Sdk.buildComplete (schedule (now w + 5000 * Z.of_nat k)) <> Some true) ->
    Sdk.buildComplete (schedule (now w + 5000 * Z.of_nat n)) = Some true ->
    (n < polls)%nat ->
    exists earlier,
      BuildMonitor.monitorBuild_loop (scheduledClient schedule) polls buildId
        (markingCallback mark) lastPhase w
      = Run (Ret (Some (BuildMonitor.buildToBuildResult
                          (schedule (now w + 5000 * Z.of_nat n)))))
            (World (now w + 5000 * Z.of_nat n) (entropy w) (connections w))
            (mark <$> earlier
               ++ [BuildMonitor.buildToBuildProgress
                     (schedule (now w + 5000 * Z.of_nat n))])
      /\ (length earlier <= n + 1)%nat
      /\ (lastPhase <> reportedPhase (schedule (now w)) ->
          exists later,
            earlier = BuildMonitor.buildToBuildProgress (schedule (now w))
                        :: later).
Proof.
  induction n as [| n IH]; intros w polls lastPhase Hrunning Hdone Hpolls.
  - destruct polls as [| polls]; [lia |].
    replace (now w + 5000 * Z.of_nat 0) with (now w) in * by lia.
    cbn [BuildMonitor.monitorBuild_loop].
    unfold bind at 1. unfold scheduledClient at 1.
    fold (reportedPhase (schedule (now w))).
    rewrite Hdone. rewrite bool_decide_eq_true_2 by reflexivity. cbn [negb].
    unfold markingCallback, bind, when, emit, ret.
    destruct (String.eqb_spec (reportedPhase (schedule (now w))) lastPhase)
      as [Hsame | Hchanged]; cbn [negb app].
    + exists []. split; [destruct w; reflexivity |].
      split; [simpl; lia |]. intros H. congruence.
    + exists [BuildMonitor.buildToBuildProgress (schedule (now w))].
      split; [destruct w; reflexivity |].
      split; [simpl; lia |]. intros _. eexists. reflexivity.
  - destruct polls as [| polls]; [lia |].
    assert (Hfirst : Sdk.buildComplete (schedule (now w)) <> Some true).
    { specialize (Hrunning 0%nat ltac:(lia)).
      replace (now w + 5000 * Z.of_nat 0) with (now w) in Hrunning by lia.
      exact Hrunning. }
    set (lastPhase' :=
           if negb (String.eqb (reportedPhase (schedule (now w))) lastPhase)
           then reportedPhase (schedule (now w)) else lastPhase).
    destruct (IH (World (now w + 5000) (entropy w) (connections w)) polls
                lastPhase') as (earlier & Hrun & Hlength & _).
    + intros k Hk. cbn [now]. rewrite shifted_poll. apply Hrunning. lia.
    + cbn [now]. rewrite shifted_poll. exact Hdone.
    + lia.
    + cbn [now entropy connections] in Hrun. rewrite shifted_poll in Hrun.
      cbn [BuildMonitor.monitorBuild_loop].
      unfold bind at 1. unfold scheduledClient at 1.
      fold (reportedPhase (schedule (now w))). fold lastPhase'.
      rewrite bool_decide_eq_false_2 by exact Hfirst. cbn [negb].
      unfold markingCallback at 1.
      unfold bind at 1, when, emit, ret, sleep.
      destruct (String.eqb_spec (reportedPhase (schedule (now w))) lastPhase)
        as [Hsame | Hchanged]; cbn [negb]; unfold bind at 1; rewrite Hrun.
      * exists earlier. split; [reflexivity |].
        split; [lia |]. intros H. congruence.
      * exists (BuildMonitor.buildToBuildProgress (schedule (now w)) :: earlier).
        split; [reflexivity |].
        split; [simpl; lia |]. intros _. eexists. reflexivity.
Qed.

(** X23. When the build completes at the [n]-th poll from now,
    [monitorBuild] returns the result of that poll's build after sleeping
    5 seconds [n] times, provided it is allowed more than [n] polls. The
    callback is called first with the progress of the first poll and last
    with the progress of the completing poll, at least twice and at most
    [n + 2] times: the final progress is reported even when the phase did
    not change, so a build that is complete at the first poll is reported
    twice. *)
Theorem monitorBuild_returns_at_first_completed_poll
    (schedule : Z -> Sdk.Build) (mark : BuildProgress.t -> event)
    (buildId : string) (w : world) (n polls : nat) :
  (forall k, (k < n)%nat ->
     Sdk.buildComplete (schedule (now w + 5000 * Z.of_nat k)) <> Some true) ->
  Sdk.buildComplete (schedule (now w + 5000 * Z.of_nat n)) = Some true ->
  (n < polls)%nat ->
  exists reports,
    BuildMonitor.monitorBuild (scheduledClient schedule) polls buildId
      (markingCallback mark) w
    = Run (Ret (Some (BuildMonitor.buildToBuildResult
                        (schedule (now w + 5000 * Z.of_nat n)))))
          (World (now w + 5000 * Z.of_nat n) (entropy w) (connections w))
          (mark <$> reports)
    /\ head reports
       = Some (BuildMonitor.buildToBuildProgress (schedule (now w)))
    /\ last reports
       = Some (BuildMonitor.buildToBuildProgress
                 (schedule (now w + 5000 * Z.of_nat n)))
    /\ (2 <= length reports <= n + 2)%nat
    /\ (n = 0%nat ->
        reports = [ BuildMonitor.buildToBuildProgress (schedule (now w));
                    BuildMonitor.buildToBuildProgress (schedule (now w)) ]).
Proof.
  intros Hrunning Hdone Hpolls.
  destruct (monitorBuild_loop_run schedule mark buildId n w polls ""
              Hrunning Hdone Hpolls) as (earlier & Hrun & Hlength & Hhead).
  destruct Hhead as [later ->].
  { unfold reportedPhase, JsString.or_else.
    destruct (Sdk.currentPhase _) as [phase |]; [| discriminate].
    destruct (JsString.truthy phase) eqn:Hphase; [| discriminate].
    apply truthy_true in Hphase. congruence. }
  eexists. split; [exact Hrun |].
  split; [reflexivity |]. split; [apply last_snoc |].
  rewrite length_app. cbn [length] in Hlength |- *.
  split; [lia |]. intros ->.
  destruct later; [| simpl in Hlength; lia].
  replace (now w + 5000 * Z.of_nat 0) with (now w) by lia. reflexivity.
Qed.

Lemma monitorBuild_returns_at_first_completed_poll_witness :
  exists reports,
    BuildMonitor.monitorBuild (scheduledClient demoSchedule) 5 "demo-build:1"
      (markingCallback progressMark) world0
    = Run (Ret (Some (BuildMonitor.buildToBuildResult finishedBuild)))
          (World 1700000010000 ["k3x9q2"] ∅) (progressMark <$> reports)
    /\ (2 <= length reports <= 4)%nat.
Proof.
  destruct (monitorBuild_returns_at_first_completed_poll demoSchedule
              progressMark "demo-build:1" world0 2 5)
    as (reports & Hrun & _ & _ & Hlength & _).
  - intros k Hk. destruct k as [| [| k]]; [discriminate | discriminate | lia].
  - reflexivity.
  - lia.
  - exists reports. split; [exact Hrun | exact Hlength].
Defined.

Lemma shifted_interval (t interval : Z) (k : nat) :
  t + interval + interval * Z.of_nat k = t + interval * Z.of_nat (S k).
Proof. lia. Qed.

(** X24. When the build completes at the [n]-th poll from now,
    [waitForCompletion] returns the result of that poll's build after
    sleeping the poll interval [n] times (5 seconds when no interval is
    given), provided it is allowed more than [n] polls; it emits
    nothing. *)
Theorem waitForCompletion_returns_at_first_completed_poll
    (schedule : Z -> Sdk.Build) (buildId : string)
    (pollIntervalMs : option Z) (n : nat) :
  let interval := default 5000 pollIntervalMs in
  forall (w : world) (polls : nat),
    (forall k, (k < n)%nat ->
       Sdk.buildComplete (schedule (now w + interval * Z.of_nat k))
       <> Some true) ->
    Sdk.buildComplete (schedule (now w + interval * Z.of_nat n)) = Some true ->
    (n < polls)%nat ->
    BuildMonitor.waitForCompletion (scheduledClient schedule) polls buildId
      pollIntervalMs w
    = Run (Ret (Some (BuildMonitor.buildToBuildResult
                        (schedule (now w + interval * Z.of_nat n)))))
          (World (now w + interval * Z.of_nat n) (entropy w) (connections w))
          [].
Proof.
  cbv zeta. unfold BuildMonitor.waitForCompletion.
  generalize (default 5000 pollIntervalMs). intros interval.
  induction n as [| n IH]; intros w polls Hrunning Hdone Hpolls.
  - destruct polls as [| polls]; [lia |].
    replace (now w + interval * Z.of_nat 0) with (now w) in * by lia.
    cbn [BuildMonitor.waitForCompletion_loop].
    unfold bind, scheduledClient. rewrite Hdone.
    rewrite bool_decide_eq_true_2 by reflexivity.
    destruct w; reflexivity.
  - destruct polls as [| polls]; [lia |].
    assert (Hfirst : Sdk.buildComplete (schedule (now w)) <> Some true).
    { specialize (Hrunning 0%nat ltac:(lia)).
      replace (now w + interval * Z.of_nat 0) with (now w) in Hrunning by lia.
      exact Hrunning. }
    cbn [BuildMonitor.waitForCompletion_loop].
    unfold bind at 1. unfold scheduledClient at 1.
    rewrite bool_decide_eq_false_2 by exact Hfirst.
    unfold bind at 1, sleep.
    rewrite (IH (World (now w + interval) (entropy w) (connections w)) polls).
    + cbn [now entropy connections]. rewrite shifted_interval. reflexivity.
    + intros k Hk. cbn [now]. rewrite shifted_interval. apply Hrunning. lia.
    + cbn [now]. rewrite shifted_interval. exact Hdone.
    + lia.
Qed.

Lemma waitForCompletion_returns_at_first_completed_poll_witness :
  exists r,
    BuildMonitor.waitForCompletion (scheduledClient demoSchedule) 3
      "demo-build:1" None world0
    = Run (Ret (Some r)) (World 1700000010000 ["k3x9q2"] ∅) []
    /\ BuildResult.success r = true
    /\ BuildResult.imageUri r
       = Some "123456789012.dkr.ecr.us-east-1.amazonaws.com/demo-repo:latest".
Proof.
  exists (BuildMonitor.buildToBuildResult finishedBuild).
  split; [| split; reflexivity].
  apply (waitForCompletion_returns_at_first_completed_poll demoSchedule
           "demo-build:1" None 2 world0 3).
  - intros k Hk. destruct k as [| [| k]]; [discriminate | discriminate | lia].
  - reflexivity.
  - lia.
Defined.

(** X25. [handleBuildFailure] gives suggestions exactly when some phase of
    the build is recorded as FAILED: between one and three of them,
    chosen by the type of the first such phase. For a failed build without
    a FAILED phase (one that was stopped or timed out, say) the message is
    "Build failed" and there is no suggestion. The message always starts
    with "Build failed", and the logs are the deep link of the build. *)
Theorem handleBuildFailure_suggests_for_a_failed_phase (build : Sdk.Build) :
  let failure := BuildMonitor.handleBuildFailure build in
  let recorded := default [] (Sdk.phases build) in
  (BuildMonitor.suggestions failure = []
   <-> Forall (fun phase => Sdk.phaseStatus phase <> Some "FAILED") recorded)
  /\ (BuildMonitor.suggestions failure = []
      -> BuildMonitor.failureMessage failure = "Build failed")
  /\ (length (BuildMonitor.suggestions failure) <= 3)%nat
  /\ String.prefix "Build failed" (BuildMonitor.failureMessage failure) = true
  /\ BuildMonitor.failureLogs failure = Sdk.deepLink build.
Proof.
  cbv zeta. unfold BuildMonitor.handleBuildFailure.
  destruct (Sdk.phases build) as [recorded |];
    cbn [mbind option_bind default].
  2: { repeat split; auto. }
  destruct (List.find BuildMonitor.isFailedPhase recorded) as [failed |] eqn:Hfind.
  - apply List.find_some in Hfind as [Hin Hfailed].
    apply bool_decide_eq_true in Hfailed.
    assert (Hnot : ~ Forall (fun phase => Sdk.phaseStatus phase <> Some "FAILED")
                      recorded).
    { intros Hall. rewrite Forall_forall in Hall.
      apply (Hall failed); [apply list_elem_of_In; exact Hin | exact Hfailed]. }
    destruct (bool_decide (Sdk.phaseType failed = Some "PRE_BUILD"));
      [| destruct (bool_decide (Sdk.phaseType failed = Some "BUILD"));
         [| destruct (bool_decide (Sdk.phaseType failed = Some "POST_BUILD"))]];
      cbn [BuildMonitor.suggestions BuildMonitor.failureMessage
           BuildMonitor.failureLogs length];
      (split; [split; [discriminate | intros H; contradiction] |]);
      (split; [discriminate |]);
      (split; [lia |]);
      (split; [| reflexivity]);
      destruct (Sdk.contexts failed) as [[| errorContext others] |];
      reflexivity.
  - cbn [BuildMonitor.suggestions BuildMonitor.failureMessage
         BuildMonitor.failureLogs length].
    split; [| repeat split; lia].
    split; [| reflexivity]. intros _.
    rewrite Forall_forall. intros phase Hin Hfailed.
    apply list_elem_of_In in Hin.
    pose proof (List.find_none _ _ Hfind phase Hin) as Hnone.
    unfold BuildMonitor.isFailedPhase in Hnone.
    rewrite bool_decide_eq_true_2 in Hnone by exact Hfailed. discriminate.
Qed.

Lemma handleBuildFailure_suggests_for_a_failed_phase_witness :
  BuildMonitor.failureMessage (BuildMonitor.handleBuildFailure stoppedBuild)
  = "Build failed"
  /\ BuildMonitor.suggestions (BuildMonitor.handleBuildFailure brokenBuild)
     <> [].
Proof.
  destruct (handleBuildFailure_suggests_for_a_failed_phase stoppedBuild)
    as (_ & Hmessage & _).
  destruct (handleBuildFailure_suggests_for_a_failed_phase brokenBuild)
    as (Hiff & _).
  split; [apply Hmessage; reflexivity |].
  intros Hnone. apply Hiff in Hnone.
  apply Forall_cons in Hnone as [_ Hnone].
  apply Forall_cons in Hnone as [Hbuild _]. apply Hbuild. reflexivity.
Defined.

(** ** Deployment summary *)

(** X26. [generateDeploymentSummary] always gives next steps. For a failed
    result they are the four recovery steps, and the summary shows neither
    an endpoint nor auth information, whatever the result carries. For a
    successful result the summary shows the URL of the endpoint, and the
    steps are the two monitoring steps, preceded by the step that names
    the endpoint URL when there is an endpoint and by the two
    authentication steps when there is an auth configuration. *)
Theorem summary_always_gives_next_steps (result : DeploymentResult.t) :
  let summary := Summary.generateDeploymentSummary result in
  DeploymentSummary.success summary = DeploymentResult.success result
  /\ DeploymentSummary.nextSteps summary <> []
  /\ (if DeploymentResult.success result then
        DeploymentSummary.endpointUrl summary
        = Endpoint.url <$> DeploymentResult.endpoint result
        /\ length (DeploymentSummary.nextSteps summary)
           = (match DeploymentResult.endpoint result with
              | Some _ => 1 | None => 0
              end
              + match DeploymentResult.authConfig result with
                | Some _ => 2 | None => 0
                end
              + 2)%nat
        /\ (forall endpoint,
              DeploymentResult.endpoint result = Some endpoint ->
              head (DeploymentSummary.nextSteps summary)
              = Some ("Connect to your MCP server at: "
                        +:+ Endpoint.url endpoint))
      else
        DeploymentSummary.endpointUrl summary = None
        /\ DeploymentSummary.authInfo summary = None
        /\ length (DeploymentSummary.nextSteps summary) = 4%nat).
Proof.
  cbv zeta. unfold Summary.generateDeploymentSummary.
  destruct (DeploymentResult.success result); cbn [negb].
  - cbn [DeploymentSummary.success DeploymentSummary.nextSteps
         DeploymentSummary.endpointUrl DeploymentSummary.authInfo].
    unfold Summary.generateNextSteps.
    destruct (DeploymentResult.endpoint result) as [endpoint |],
      (DeploymentResult.authConfig result) as [authConfig |];
      cbn [app length];
      (split; [reflexivity |]); (split; [discriminate |]);
      (split; [reflexivity |]); (split; [reflexivity |]);
      intros e He; try discriminate; injection He as <-; reflexivity.
  - cbn. repeat split. discriminate.
Qed.

Lemma summary_always_gives_next_steps_witness :
  DeploymentSummary.endpointUrl
    (Summary.generateDeploymentSummary
       (Results.createFailureResult "Deployment failed during runtime initialization"
          None)) = None
  /\ length (DeploymentSummary.nextSteps
               (Summary.generateDeploymentSummary
                  (successResultOf completeOptions
                     (simulatedDeployment "demo-1" 0)))) = 5%nat.
Proof.
  pose proof (summary_always_gives_next_steps
                (Results.createFailureResult
                   "Deployment failed during runtime initialization" None))
    as (_ & _ & Hfailure).
  pose proof (summary_always_gives_next_steps
                (successResultOf completeOptions (simulatedDeployment "demo-1" 0)))
    as (_ & _ & Hsuccess).
  cbv zeta in Hfailure, Hsuccess.
  change (DeploymentResult.success
            (Results.createFailureResult
               "Deployment failed during runtime initialization" None))
    with false in Hfailure.
  change (DeploymentResult.success
            (successResultOf completeOptions (simulatedDeployment "demo-1" 0)))
    with true in Hsuccess.
  cbv iota in Hfailure, Hsuccess.
  destruct Hfailure as (Hurl & _). destruct Hsuccess as (_ & Hlength & _).
  split; [exact Hurl | exact Hlength].
Defined.

(** ** Backpressure *)

Lemma copyLoop_run (rejects : list string -> string -> option thrown)
    (pending : list string) (ending : ReadEnding) :
  forall writer : Backpressure.Writer,
    exists relayed,
      Backpressure.written
        (snd (Backpressure.copyLoop rejects pending ending writer))
      = Backpressure.written writer ++ relayed
      /\ match fst (Backpressure.copyLoop rejects pending ending writer) with
         | Ret _ =>
             relayed = pending /\ ending = ReadDone
             /\ Backpressure.state
                  (snd (Backpressure.copyLoop rejects pending ending writer))
                = Backpressure.WriterClosed
         | Raise error =>
             (relayed = pending /\ ending = ReadFailed error)
             \/ exists value rest,
                  pending = relayed ++ value :: rest
                  /\ rejects (Backpressure.written writer ++ relayed) value
                     = Some error
         end.
Proof.
  induction pending as [| value rest IH]; intros writer.
  - exists []. rewrite app_nil_r.
    destruct ending as [| error]; cbn; split; auto.
  - cbn [Backpressure.copyLoop].
    destruct (rejects (Backpressure.written writer) value) as [error |] eqn:Hw.
    + exists []. rewrite app_nil_r. cbn. split; [reflexivity |].
      right. exists value, rest. split; [reflexivity | exact Hw].
    + destruct (IH (Backpressure.Sink (Backpressure.written writer ++ [value])
                      (Backpressure.state writer)))
        as (relayed & Hwritten & Hshape).
      exists (value :: relayed).
      cbn [Backpressure.written] in Hwritten, Hshape.
      rewrite <- app_assoc in Hwritten, Hshape. cbn [app] in Hwritten, Hshape.
      split; [exact Hwritten |].
      destruct (fst (Backpressure.copyLoop rejects rest ending _))
        as [[] | error].
      * destruct Hshape as (-> & -> & Hstate). repeat split. exact Hstate.
      * destruct Hshape as [[-> ->] | (v & r & -> & Hreject)].
        -- left. split; reflexivity.
        -- right. exists v, r. split; [reflexivity | exact Hreject].
Qed.

(** X27. [handleBackpressure] never leaves the writer open: it returns
    only after all values of the reader have been written, in order, and
    the writer closed; and whenever it throws, because a read failed or
    because the writer rejected a value, the writer is aborted with that
    very error, and what was written before is a prefix of what the reader
    delivered. *)
Theorem handleBackpressure_closes_or_aborts
    (rejects : list string -> string -> option thrown)
    (reader : UpstreamBody) (accepted : list string) :
  let run :=
    Backpressure.handleBackpressure rejects reader
      (Backpressure.Sink accepted Backpressure.WriterOpen) in
  Backpressure.state (snd run) <> Backpressure.WriterOpen
  /\ exists relayed,
       Backpressure.written (snd run) = accepted ++ relayed
       /\ relayed `prefix_of` chunks reader
       /\ match fst run with
          | Ret _ =>
              relayed = chunks reader /\ ending reader = ReadDone
              /\ Backpressure.state (snd run) = Backpressure.WriterClosed
          | Raise error =>
              Backpressure.state (snd run) = Backpressure.WriterAborted error
              /\ ((relayed = chunks reader /\ ending reader = ReadFailed error)
                  \/ exists value rest,
                       chunks reader = relayed ++ value :: rest
                       /\ rejects (accepted ++ relayed) value = Some error)
          end.
Proof.
  cbv zeta. unfold Backpressure.handleBackpressure.
  destruct (copyLoop_run rejects (chunks reader) (ending reader)
              (Backpressure.Sink accepted Backpressure.WriterOpen))
    as (relayed & Hwritten & Hshape).
  destruct (Backpressure.copyLoop rejects (chunks reader) (ending reader) _)
    as [[[] | error] writer]; cbn [fst snd Backpressure.written] in *.
  - destruct Hshape as (-> & Hdone & Hstate).
    split; [rewrite Hstate; discriminate |].
    exists (chunks reader). repeat split; auto.
  - cbn [Backpressure.state]. split; [discriminate |].
    exists relayed. split; [exact Hwritten |]. split.
    + destruct Hshape as [[-> _] | (value & rest & -> & _)];
        [reflexivity | apply prefix_app_r; reflexivity].
    + split; [reflexivity | exact Hshape].
Qed.

Lemma handleBackpressure_closes_or_aborts_witness :
  Backpressure.handleBackpressure fullAfterTwo
    (Upstream ["a"; "b"; "c"] ReadDone)
    (Backpressure.Sink [] Backpressure.WriterOpen)
  = (Raise (JsError "sink is full"),
     Backpressure.Sink ["a"; "b"]
       (Backpressure.WriterAborted (JsError "sink is full")))
  /\ Backpressure.state
       (snd (Backpressure.handleBackpressure fullAfterTwo
               (Upstream ["a"; "b"; "c"] ReadDone)
               (Backpressure.Sink [] Backpressure.WriterOpen)))
     <> Backpressure.WriterOpen.
Proof.
  split; [reflexivity |].
  apply (handleBackpressure_closes_or_aborts fullAfterTwo
           (Upstream ["a"; "b"; "c"] ReadDone) []).
Defined.

(** ** Command-line error messages *)

(** X28. [generateSuggestions] gives between two and five suggestions for
    every categorized error, and they are never the generic fallback pair:
    every category contributes at least two suggestions of its own, so the
    fallback for an empty list is not reached. Hence every formatted error
    message carries suggestions; it carries a documentation link unless
    the category is RUNTIME_ERROR. *)
Theorem generateSuggestions_never_falls_back (error : CategorizedError.t) :
  (2 <= length (CliErrors.generateSuggestions error) <= 5)%nat
  /\ (forall suggestion,
        suggestion ∈ CliErrors.fallbackSuggestions ->
        suggestion ∉ CliErrors.generateSuggestions error)
  /\ CliErrors.UserMessage.suggestions (CliErrors.formatErrorMessage error) <> []
  /\ (CliErrors.UserMessage.documentation (CliErrors.formatErrorMessage error)
      = None
      <-> CategorizedError.category error = RUNTIME_ERROR).
Proof.
  assert (Hcases :
            (2 <= length (CliErrors.generateSuggestions error) <= 5)%nat
            /\ Forall (fun suggestion =>
                         suggestion ∉ CliErrors.generateSuggestions error)
                      CliErrors.fallbackSuggestions).
  { unfold CliErrors.generateSuggestions.
    destruct (CategorizedError.category error); cbv zeta;
      repeat match goal with
             | |- context [JsString.includes ?needle ?hay] =>
                 destruct (JsString.includes needle hay)
             end;
      (split; [vm_compute; lia |]);
      apply (bool_decide_unpack _); vm_compute; exact I. }
  destruct Hcases as [Hlength Hfallback].
  split; [exact Hlength |]. split.
  - intros suggestion Hin. rewrite Forall_forall in Hfallback.
    apply Hfallback. exact Hin.
  - split.
    + cbn [CliErrors.formatErrorMessage CliErrors.UserMessage.suggestions].
      intros Hnone. rewrite Hnone in Hlength. simpl in Hlength. lia.
    + cbn [CliErrors.formatErrorMessage CliErrors.UserMessage.documentation].
      destruct (CategorizedError.category error); cbn; split;
        intros H; try reflexivity; discriminate H.
Qed.

Lemma generateSuggestions_never_falls_back_witness :
  "Run with --verbose flag for detailed logs" ∈ CliErrors.fallbackSuggestions
  /\ "Run with --verbose flag for detailed logs"
     ∉ CliErrors.generateSuggestions
         (CategorizedError.Build CONFIG_ERROR "CONFIG_0001"
            "Invalid region: mars-1" None None).
Proof.
  assert (Hin : "Run with --verbose flag for detailed logs"
                ∈ CliErrors.fallbackSuggestions).
  { apply elem_of_cons. right. apply elem_of_cons. left. reflexivity. }
  split; [exact Hin |].
  destruct (generateSuggestions_never_falls_back
              (CategorizedError.Build CONFIG_ERROR "CONFIG_0001"
                 "Invalid region: mars-1" None None))
    as (_ & Hfallback & _).
  apply Hfallback. exact Hin.
Defined.

(** ** Build logs and phase messages *)

Lemma phaseLines_length (phases : list Sdk.BuildPhase) :
  length (flat_map BuildLogs.phaseLines phases)
  = (length phases + contextCount phases)%nat.
Proof.
  induction phases as [| phase rest IH]; [reflexivity |].
  cbn [flat_map]. rewrite length_app, IH.
  change (contextCount (phase :: rest))
    with (length (default [] (Sdk.contexts phase)) + contextCount rest)%nat.
  unfold BuildLogs.phaseLines. cbn [length].
  destruct (Sdk.contexts phase) as [contexts |]; cbn [default]; unfold id;
    rewrite ?length_fmap; cbn [length]; lia.
Qed.

(** X29. [getBuildLogs] throws "Build <id> not found" when the service
    returns no build. Otherwise it returns, for the first build, the line
    with the CloudWatch link when the build has one, then, when phases are
    recorded (even none), the header and one line per phase and per phase
    context. A duration of a minute or more is shown as minutes and
    seconds that add up to it, with fewer than 60 seconds; a missing
    duration is shown like a duration of zero. *)
Theorem getBuildLogs_lists_every_phase
    (batchGetBuilds : string -> M (option (list Sdk.Build)))
    (buildId : string) (w w1 : world) (ev : list event)
    (builds : option (list Sdk.Build)) :
  batchGetBuilds buildId w = Run (Ret builds) w1 ev ->
  match builds with
  | Some (build :: _) =>
      exists logs,
        BuildLogs.getBuildLogs batchGetBuilds buildId w = Run (Ret logs) w1 ev
        /\ length logs
           = ((if JsString.truthy_opt (Sdk.deepLink build) then 1 else 0)
              + match Sdk.phases build with
                | Some phases => 1 + length phases + contextCount phases
                | None => 0
                end)%nat
        /\ (forall link,
              Sdk.deepLink build = Some link -> link <> "" ->
              head logs = Some ("CloudWatch Logs: " +:+ link))
  | _ =>
      BuildLogs.getBuildLogs batchGetBuilds buildId w
      = Run (Raise (JsError ("Build " +:+ buildId +:+ " not found"))) w1 ev
  end
  /\ BuildLogs.formatDuration None = BuildLogs.formatDuration (Some 0)
  /\ forall seconds,
       60 <= seconds ->
       exists minutes remaining,
         BuildLogs.formatDuration (Some seconds)
         = JsString.ofNumber minutes +:+ "m "
             +:+ JsString.ofNumber remaining +:+ "s"
         /\ seconds = 60 * minutes + remaining
         /\ 1 <= minutes /\ 0 <= remaining < 60.
Proof.
  intros Hclient. split; [| split; [reflexivity |]].
  - unfold BuildLogs.getBuildLogs, bind. rewrite Hclient.
    destruct builds as [[| build others] |];
      cbn; rewrite ?app_nil_r; try reflexivity.
    eexists. split; [reflexivity |].
    destruct (Sdk.deepLink build) as [link |] eqn:Hlink;
      cbn [JsString.truthy_opt default]; [destruct (JsString.truthy link) eqn:Ht |];
      destruct (Sdk.phases build) as [phases |];
      cbn [app length]; rewrite ?length_app, ?phaseLines_length;
      cbn [length]; (split; [lia |]);
      intros link' H Hne; try discriminate;
      injection H as <-; try reflexivity;
      apply truthy_true in Hne; congruence.
  - intros seconds Hseconds.
    exists (seconds / 60), (seconds mod 60).
    unfold BuildLogs.formatDuration.
    destruct (Z.eqb_spec seconds 0); [lia |].
    destruct (Z.ltb_spec seconds 60); [lia |].
    split; [reflexivity |].
    pose proof (Z.div_mod seconds 60 ltac:(lia)).
    pose proof (Z.mod_pos_bound seconds 60 ltac:(lia)).
    assert (1 <= seconds / 60) by (apply Z.div_le_lower_bound; lia).
    lia.
Qed.

Lemma getBuildLogs_lists_every_phase_witness :
  exists logs,
    BuildLogs.getBuildLogs (fun _ => ret (Some [brokenBuild])) "demo-build:3"
      world0 = Run (Ret logs) world0 []
    /\ length logs = 4%nat.
Proof.
  destruct (getBuildLogs_lists_every_phase (fun _ => ret (Some [brokenBuild]))
              "demo-build:3" world0 world0 [] (Some [brokenBuild]) eq_refl)
    as ((logs & Hrun & Hlength & _) & _).
  exists logs. split; [exact Hrun | exact Hlength].
Defined.

(** X30. In both modules, [getPhaseMessage] answers a phase name that is
    neither in its table nor a property name inherited from
    [Object.prototype] with the text "Build phase: " followed by the name.
    For an inherited name ('constructor', 'toString', ...) the lookup
    finds the inherited member, which is truthy, so that member is
    returned instead of a text. For the COMPLETED phase the message is the
    success message exactly when the build status is SUCCEEDED, and "Build
    failed" otherwise, also while the status is still missing. *)
Theorem getPhaseMessage_falls_back_on_unknown_phases
    (phase : string) (status : option string) :
  (phase ∉ Monitor.phaseOrder ->
   phase ∉ objectPrototypeNames ->
   CodeBuild.getPhaseMessage phase status
   = MessageText ("Build phase: " +:+ phase)
   /\ Monitor.getPhaseMessage phase status
      = MessageText ("Build phase: " +:+ phase))
  /\ (phase ∈ objectPrototypeNames ->
      CodeBuild.getPhaseMessage phase status = InheritedMember phase
      /\ Monitor.getPhaseMessage phase status = InheritedMember phase)
  /\ CodeBuild.getPhaseMessage "COMPLETED" status
     = MessageText (if bool_decide (status = Some "SUCCEEDED")
                    then "Build completed successfully" else "Build failed")
  /\ Monitor.getPhaseMessage "COMPLETED" status
     = CodeBuild.getPhaseMessage "COMPLETED" status.
Proof.
  assert (Hnone : phase ∉ Monitor.phaseOrder ->
            forall completed,
              (list_to_map (CodeBuild.phaseMessages completed)
                 : gmap string string) !! phase = None
              /\ (list_to_map (Monitor.phaseMessages completed)
                    : gmap string string) !! phase = None).
  { intros Hunknown completed.
    split; apply not_elem_of_list_to_map_1; exact Hunknown. }
  split; [| split].
  - intros Hunknown Hown.
    unfold CodeBuild.getPhaseMessage, Monitor.getPhaseMessage, phaseMessageFrom.
    cbv zeta.
    destruct (Hnone Hunknown
                (if bool_decide (status = Some "SUCCEEDED")
                 then "Build completed successfully" else "Build failed"))
      as [-> ->].
    rewrite bool_decide_eq_false_2 by exact Hown. split; reflexivity.
  - intros Hinherited.
    assert (Hunknown : phase ∉ Monitor.phaseOrder).
    { intros Hin. revert Hinherited.
      unfold Monitor.phaseOrder in Hin.
      repeat (apply elem_of_cons in Hin as [-> | Hin];
              [apply (bool_decide_unpack _); vm_compute; exact I |]).
      apply elem_of_nil in Hin. contradiction. }
    unfold CodeBuild.getPhaseMessage, Monitor.getPhaseMessage, phaseMessageFrom.
    cbv zeta.
    destruct (Hnone Hunknown
                (if bool_decide (status = Some "SUCCEEDED")
                 then "Build completed successfully" else "Build failed"))
      as [-> ->].
    rewrite bool_decide_eq_true_2 by exact Hinherited. split; reflexivity.
  - unfold CodeBuild.getPhaseMessage, Monitor.getPhaseMessage, phaseMessageFrom.
    destruct (bool_decide (status = Some "SUCCEEDED")); split;
      vm_compute; reflexivity.
Qed.

Lemma getPhaseMessage_falls_back_on_unknown_phases_witness :
  Monitor.getPhaseMessage "CLEANUP" None = MessageText "Build phase: CLEANUP"
  /\ CodeBuild.getPhaseMessage "constructor" None = InheritedMember "constructor".
Proof.
  destruct (getPhaseMessage_falls_back_on_unknown_phases "CLEANUP" None)
    as [Hunknown _].
  destruct (getPhaseMessage_falls_back_on_unknown_phases "constructor" None)
    as (_ & Hinherited & _).
  split.
  - apply Hunknown; apply (bool_decide_unpack _); vm_compute; exact I.
  - apply Hinherited. apply (bool_decide_unpack _). vm_compute. exact I.
Defined.
